(** * Polyfills loader: [createPolyfillsData]

    A shallow embedding of
    [packages/polyfills-loader/src/createPolyfillsData.ts] and the
    properties its specification states about it.

    The function turns a loader configuration into the ordered list of
    polyfill files to emit.  It first collects [PolyfillConfig] entries by
    walking the polyfill flags in a fixed order (lines 27-197), then reads,
    concatenates, optionally minifies and names each entry (lines 199-251).

    JavaScript values are modelled by the types the TypeScript signatures
    give them; [undefined] is [None].  Exceptions are the [Thrown] outcome of
    a small state-and-error monad whose state is, for the first half, the
    [polyfillConfigs] array and, for the second half, the trace of
    file-system calls made so far. *)

From Stdlib Require Import String Ascii List Bool Arith Lia DecimalString.
Import ListNotations.
Open Scope string_scope.

Set Implicit Arguments.

(** ** JavaScript helpers *)

(** Truthiness, as [if (x)], [x && y], [x || y] and [!x] read a value. *)
Class Truthy (A : Type) := truthy : A -> bool.

#[export] Instance truthy_bool : Truthy bool := fun b => b.

#[export] Instance truthy_string : Truthy string :=
  fun s => match s with EmptyString => false | String _ _ => true end.

#[export] Instance truthy_option {A : Type} `{Truthy A} : Truthy (option A) :=
  fun o => match o with Some a => truthy a | None => false end.

(** An array is an object: always truthy, the empty one too. *)
#[export] Instance truthy_list {A : Type} : Truthy (list A) := fun _ => true.

(** A value of type [boolean | 'always']. *)
Inductive BoolOrString : Type :=
| JBool (b : bool)
| JString (s : string).

#[export] Instance truthy_BoolOrString : Truthy BoolOrString :=
  fun v => match v with JBool b => b | JString s => truthy s end.

(** [v !== 'always'] *)
Definition notAlways (v : option BoolOrString) : bool :=
  match v with
  | Some (JString s) => negb (s =? "always")
  | _ => true
  end.

(** The double quote character, for test expressions that contain it. *)
Definition dq : string := String (ascii_of_nat 34) EmptyString.

Definition newline : ascii := ascii_of_nat 10.

Definition slash : ascii := ascii_of_nat 47.

(** [s.split(sep)] for a one-character separator: never empty, [''] splits
    to [['']]. *)
Fixpoint split (sep : ascii) (s : string) : list string :=
  match s with
  | EmptyString => [EmptyString]
  | String c rest =>
      if Ascii.eqb c sep then EmptyString :: split sep rest
      else match split sep rest with
           | [] => [String c EmptyString]
           | p :: ps => String c p :: ps
           end
  end.

(** [l.join(sep)] *)
Definition join (sep : string) (l : list string) : string := String.concat sep l.

(** [s.startsWith(p)] *)
Definition startsWith (s p : string) : bool := String.prefix p s.

(** ** Data model ([./types]) *)

Definition FileType := string.

Module File.
Record t : Type := { type : FileType; path : string }.
End File.

Module ModernEntrypoint.
Record t : Type := { files : option (list File.t) }.
End ModernEntrypoint.

Module LegacyEntrypoint.
Record t : Type := { test : string; files : list File.t }.
End LegacyEntrypoint.

(** [path: string | string[]] *)
Inductive PathProp : Type :=
| OnePath (p : string)
| ManyPaths (ps : list string).

#[export] Instance truthy_PathProp : Truthy PathProp :=
  fun p => match p with OnePath s => truthy s | ManyPaths _ => true end.

(** Custom entries come from the caller, so [name] and [path], which the
    type requires, may still be absent at run time (line 219 checks). *)
Module PolyfillConfig.
Record t : Type := {
  name : option string;
  path : option PathProp;
  test : option string;
  fileType : option FileType;
  minify : option bool;
  initializer : option string
}.
End PolyfillConfig.

Module PolyfillFile.
Record t : Type := {
  name : string;
  type : FileType;
  path : string;
  content : string;
  test : option string;
  initializer : option string
}.
End PolyfillFile.

Module PolyfillsConfig.
Record t : Type := {
  custom : option (list PolyfillConfig.t);
  hash : option bool;
  coreJs : option bool;
  regeneratorRuntime : option BoolOrString;
  webcomponents : option bool;
  fetch : option bool;
  abortController : option bool;
  intersectionObserver : option bool;
  resizeObserver : option bool;
  dynamicImport : option bool;
  systemjs : option bool;
  systemjsExtended : option bool;
  esModuleShims : option BoolOrString;
  constructibleStylesheets : option bool;
  URLPattern : option bool;
  shadyCssCustomStyle : option bool;
  scopedCustomElementRegistry : option bool
}.

(** [{}] *)
Definition empty : t :=
  {| custom := None; hash := None; coreJs := None; regeneratorRuntime := None;
     webcomponents := None; fetch := None; abortController := None;
     intersectionObserver := None; resizeObserver := None; dynamicImport := None;
     systemjs := None; systemjsExtended := None; esModuleShims := None;
     constructibleStylesheets := None; URLPattern := None;
     shadyCssCustomStyle := None; scopedCustomElementRegistry := None |}.

(** The same configuration with the [webcomponents] flag replaced. *)
Definition with_webcomponents (v : option bool) (p : t) : t :=
  {| custom := custom p; hash := hash p; coreJs := coreJs p;
     regeneratorRuntime := regeneratorRuntime p;
     webcomponents := v; fetch := fetch p; abortController := abortController p;
     intersectionObserver := intersectionObserver p;
     resizeObserver := resizeObserver p; dynamicImport := dynamicImport p;
     systemjs := systemjs p; systemjsExtended := systemjsExtended p;
     esModuleShims := esModuleShims p;
     constructibleStylesheets := constructibleStylesheets p;
     URLPattern := URLPattern p; shadyCssCustomStyle := shadyCssCustomStyle p;
     scopedCustomElementRegistry := scopedCustomElementRegistry p |}.
End PolyfillsConfig.

(** The fields of the loader configuration that the function reads. *)
Module PolyfillsLoaderConfig.
Record t : Type := {
  modern : option ModernEntrypoint.t;
  legacy : option (list LegacyEntrypoint.t);
  polyfills : option PolyfillsConfig.t;
  polyfillsDir : option string
}.

Definition with_polyfills (p : option PolyfillsConfig.t) (cfg : t) : t :=
  {| modern := modern cfg; legacy := legacy cfg; polyfills := p;
     polyfillsDir := polyfillsDir cfg |}.
End PolyfillsLoaderConfig.

(** ** Errors and effects *)

Inductive Error : Type :=
| ModuleNotFound (request : string)
| AbortControllerWithoutFetch
| NameOrPathMissing
| CouldNotFindFile (filePath : string)
| MinifyFailed (code : string).

(** The message of the errors the function itself constructs. *)
Definition message (e : Error) : option string :=
  match e with
  | AbortControllerWithoutFetch =>
      Some "Cannot polyfill AbortController without fetch."
  | NameOrPathMissing =>
      Some "A polyfill should have a name and a path property."
  | CouldNotFindFile filePath => Some ("Could not find a file at " ++ filePath)
  | ModuleNotFound _ | MinifyFailed _ => None
  end.

(** A computation over a state [S] either returns or throws; both leave a
    state behind. *)
Inductive Outcome (S A : Type) : Type :=
| Returned (a : A) (s : S)
| Thrown (e : Error) (s : S).

Arguments Returned {S A} a s.
Arguments Thrown {S A} e s.

Definition Eff (S A : Type) : Type := S -> Outcome S A.

Definition ret {S A : Type} (a : A) : Eff S A := fun s => Returned a s.

Definition throw {S A : Type} (e : Error) : Eff S A := fun s => Thrown e s.

Definition bind {S A B : Type} (m : Eff S A) (k : A -> Eff S B) : Eff S B :=
  fun s => match m s with
           | Returned a s' => k a s'
           | Thrown e s' => Thrown e s'
           end.

Declare Scope eff_scope.
Delimit Scope eff_scope with eff.
Notation "x <- m ;; k" := (bind m (fun x => k))
  (at level 61, m at next level, right associativity) : eff_scope.
Notation "m ;; k" := (bind m (fun _ => k))
  (at level 61, right associativity) : eff_scope.
Open Scope eff_scope.

(** [if (c) { m }] *)
Definition when {S : Type} (c : bool) (m : Eff S unit) : Eff S unit :=
  if c then m else ret tt.

(** [s.push(x)] *)
Definition push {X : Type} (x : X) : Eff (list X) unit :=
  fun s => Returned tt (s ++ [x])%list.

(** [s.push(...xs)] *)
Definition pushAll {X : Type} (xs : list X) : Eff (list X) unit :=
  fun s => Returned tt (s ++ xs)%list.

Definition isReturned {S A : Type} (o : Outcome S A) : bool :=
  match o with Returned _ _ => true | Thrown _ _ => false end.

Definition stateOf {S A : Type} (o : Outcome S A) : S :=
  match o with Returned _ s => s | Thrown _ s => s end.

(** ** What the function is given by its runtime and by [./utils] *)

(** An entry of the file system, as [fs.existsSync] and [fs.statSync] see it. *)
Inductive FsNode : Type :=
| NoEntry
| Directory
| RegularFile (text : string).

(** The file-system calls of [readPolyfillFileContents]. *)
Inductive FsCall : Type :=
| ExistsSync (p : string)
| StatSync (p : string)
| ReadFileSync (p : string).

(** Node and Terser.  [require_resolve] is [None] where [require.resolve]
    throws [MODULE_NOT_FOUND]; [path_resolve] is [path.resolve] against the
    working directory; [fs_node] is what lies at an absolute path;
    [terser_minify] is [None] where [Terser.minify] rejects. *)
Record Host : Type := {
  require_resolve : string -> option string;
  path_resolve : string -> string;
  fs_node : string -> FsNode;
  terser_minify : string -> option string
}.

(** The constants and the hasher imported from [./utils], whose text is not
    part of the sources at hand: they are taken as given. *)
Record Utils : Type := {
  noModuleSupportTest : string;
  fileTypes_SCRIPT : FileType;
  fileTypes_SYSTEMJS : FileType;
  createContentHash : string -> string
}.

(** Modelled from the spec: [hasFileOfType] of [./utils] is not part of the
    sources at hand.  The specification's inclusion rule for the module-loader
    fallback reads: at least one declared legacy/modern output file is of the
    module-loader file type. *)
Definition hasFileOfType (cfg : PolyfillsLoaderConfig.t) (type : FileType) : bool :=
  existsb (fun f => File.type f =? type)
    ((match PolyfillsLoaderConfig.modern cfg with
      | Some m => match ModernEntrypoint.files m with Some fs => fs | None => [] end
      | None => []
      end)
     ++ (match PolyfillsLoaderConfig.legacy cfg with
         | Some ls => flat_map LegacyEntrypoint.files ls
         | None => []
         end))%list.

(** [path.posix.join] and [path.posix.normalize] of Node, on the segments of
    a path.  One step of the normaliser's scan, on the stack of segments kept
    so far (last kept segment first). *)
Definition normalizeStep (allowAboveRoot : bool) (res : list string) (seg : string)
  : list string :=
  if (seg =? "") || (seg =? ".") then res
  else if seg =? ".." then
    match res with
    | [] => if allowAboveRoot then [".."] else []
    | top :: below =>
        if top =? ".." then (if allowAboveRoot then ".." :: res else res)
        else below
    end
  else seg :: res.

Definition normalizeSegments (allowAboveRoot : bool) (segs : list string) : list string :=
  rev (fold_left (normalizeStep allowAboveRoot) segs []).

Definition endsWithSlash (s : string) : bool :=
  match rev (split slash s) with
  | last :: _ :: _ => last =? ""
  | _ => false
  end.

Definition posix_normalize (p : string) : string :=
  match p with
  | EmptyString => "."
  | String c _ =>
      let isAbsolute := Ascii.eqb c slash in
      let trailingSeparator := endsWithSlash p in
      let body := join "/" (normalizeSegments (negb isAbsolute) (split slash p)) in
      match body with
      | EmptyString =>
          if isAbsolute then "/" else if trailingSeparator then "./" else "."
      | _ =>
          let body' := if trailingSeparator then body ++ "/" else body in
          if isAbsolute then "/" ++ body' else body'
      end
  end.

(** [path.posix.join(a, b)]: empty arguments are skipped. *)
Definition posix_join (a b : string) : string :=
  match a, b with
  | EmptyString, EmptyString => "."
  | EmptyString, _ => posix_normalize b
  | _, EmptyString => posix_normalize a
  | _, _ => posix_normalize (a ++ "/" ++ b)
  end.

(** [a || b] on an optional string. *)
Definition orElse (a : option string) (b : string) : string :=
  match a with
  | Some s => if truthy s then s else b
  | None => b
  end.

(** The source-map directive whose lines are blanked (line 209). *)
Definition sourceMappingURL : string := "//# sourceMappingURL".

(** [l[i] = v] for an index inside the array. *)
Fixpoint setAt (i : nat) (v : string) (l : list string) : list string :=
  match l, i with
  | [], _ => []
  | _ :: tl, 0 => v :: tl
  | x :: tl, S j => x :: setAt j v tl
  end.

(** The loop of lines 208-212: the iterations [i = n - 1] down to [0]. *)
Fixpoint blankSourceMapLines (n : nat) (contentLines : list string) : list string :=
  match n with
  | 0 => contentLines
  | S i =>
      blankSourceMapLines i
        (if startsWith (nth i contentLines "") sourceMappingURL
         then setAt i "" contentLines
         else contentLines)
  end.

(** Lines 205-213 on the text of a file: split into lines, run the loop,
    join again. *)
Definition removeSourceMapUrl (text : string) : string :=
  let contentLines := split newline text in
  join (String newline EmptyString)
    (blankSourceMapLines (length contentLines) contentLines).

Section Engine.

Context (host : Host) (utils : Utils).

(** *** Reading a source (lines 199-214) *)

Definition Trace := list FsCall.

Definition call (c : FsCall) : Eff Trace unit := push c.

Definition readPolyfillFileContents (filePath : string) : Eff Trace string :=
  let codePath := path_resolve host filePath in
  if negb (truthy codePath) then throw (CouldNotFindFile filePath)
  else
    call (ExistsSync codePath) ;;
    match fs_node host codePath with
    | NoEntry => throw (CouldNotFindFile filePath)
    | node =>
        call (StatSync codePath) ;;
        match node with
        | RegularFile text =>
            call (ReadFileSync filePath) ;;
            ret (removeSourceMapUrl text)
        | _ => throw (CouldNotFindFile filePath)
        end
    end.

(** [paths.map(p => readPolyfillFileContents(p))] *)
Fixpoint readAll (paths : list string) : Eff Trace (list string) :=
  match paths with
  | [] => ret []
  | p :: rest =>
      text <- readPolyfillFileContents p ;;
      texts <- readAll rest ;;
      ret (text :: texts)
  end.

(** *** Collecting the entries (lines 8-197) *)

Definition Configs := list PolyfillConfig.t.

(** [require.resolve(request)] *)
Definition requireResolve (request : string) : Eff Configs string :=
  match require_resolve host request with
  | Some p => ret p
  | None => throw (ModuleNotFound request)
  end.

(** Lines 12-25.  [push] does not throw, so the handler never runs: the
    calls of [require.resolve] are evaluated by the caller, before the
    [try] is entered. *)
Definition addPolyfillConfig (polyfillConfig : PolyfillConfig.t) : Eff Configs unit :=
  push polyfillConfig.

(** An object literal with [name], [path] and [test]. *)
Definition entry (name : string) (path : PathProp) (test : option string)
  : PolyfillConfig.t :=
  {| PolyfillConfig.name := Some name;
     PolyfillConfig.path := Some path;
     PolyfillConfig.test := test;
     PolyfillConfig.fileType := None;
     PolyfillConfig.minify := None;
     PolyfillConfig.initializer := None |}.

Definition withMinify (e : PolyfillConfig.t) : PolyfillConfig.t :=
  {| PolyfillConfig.name := PolyfillConfig.name e;
     PolyfillConfig.path := PolyfillConfig.path e;
     PolyfillConfig.test := PolyfillConfig.test e;
     PolyfillConfig.fileType := PolyfillConfig.fileType e;
     PolyfillConfig.minify := Some true;
     PolyfillConfig.initializer := PolyfillConfig.initializer e |}.

Definition withInitializer (i : string) (e : PolyfillConfig.t) : PolyfillConfig.t :=
  {| PolyfillConfig.name := PolyfillConfig.name e;
     PolyfillConfig.path := PolyfillConfig.path e;
     PolyfillConfig.test := PolyfillConfig.test e;
     PolyfillConfig.fileType := PolyfillConfig.fileType e;
     PolyfillConfig.minify := PolyfillConfig.minify e;
     PolyfillConfig.initializer := Some i |}.

Import PolyfillsConfig.

(** Lines 27-33. *)
Definition coreJsRule (polyfills : PolyfillsConfig.t) : Eff Configs unit :=
  when (truthy (coreJs polyfills))
    (p <- requireResolve "core-js-bundle/minified.js" ;;
     addPolyfillConfig (entry "core-js" (OnePath p) (Some (noModuleSupportTest utils)))).

(** Lines 35-41. *)
Definition URLPatternRule (polyfills : PolyfillsConfig.t) : Eff Configs unit :=
  when (truthy (URLPattern polyfills))
    (p <- requireResolve "urlpattern-polyfill" ;;
     addPolyfillConfig
       (entry "urlpattern-polyfill" (OnePath p)
          (Some (dq ++ "URLPattern" ++ dq ++ " in window")))).

(** Lines 43-49. *)
Definition esModuleShimsRule (polyfills : PolyfillsConfig.t) : Eff Configs unit :=
  when (truthy (esModuleShims polyfills))
    (p <- requireResolve "es-module-shims" ;;
     addPolyfillConfig
       (entry "es-module-shims" (OnePath p)
          (if notAlways (esModuleShims polyfills) then Some "1" else None))).

(** Lines 51-57. *)
Definition constructibleStylesheetsRule (polyfills : PolyfillsConfig.t)
  : Eff Configs unit :=
  when (truthy (constructibleStylesheets polyfills))
    (p <- requireResolve "construct-style-sheets-polyfill" ;;
     addPolyfillConfig
       (entry "constructible-style-sheets-polyfill" (OnePath p)
          (Some ("!(" ++ dq ++ "adoptedStyleSheets" ++ dq ++ " in document)")))).

(** Lines 59-65. *)
Definition regeneratorRuntimeRule (polyfills : PolyfillsConfig.t) : Eff Configs unit :=
  when (truthy (regeneratorRuntime polyfills))
    (p <- requireResolve "regenerator-runtime/runtime" ;;
     addPolyfillConfig
       (entry "regenerator-runtime" (OnePath p)
          (if notAlways (regeneratorRuntime polyfills)
           then Some (noModuleSupportTest utils) else None))).

(** Lines 67-83.  The properties of the literal are evaluated in the order
    written; only the calls of [require.resolve] can throw. *)
Definition fetchRule (polyfills : PolyfillsConfig.t) : Eff Configs unit :=
  when (truthy (fetch polyfills))
    (let test :=
       "!('fetch' in window)" ++
       (if truthy (abortController polyfills)
        then " || !('Request' in window) || !('signal' in window.Request.prototype)"
        else "") in
     path <- (if truthy (abortController polyfills)
              then p1 <- requireResolve "whatwg-fetch/dist/fetch.umd.js" ;;
                   p2 <- requireResolve "abortcontroller-polyfill/dist/umd-polyfill.js" ;;
                   ret [p1; p2]
              else p1 <- requireResolve "whatwg-fetch/dist/fetch.umd.js" ;;
                   ret [p1]) ;;
     addPolyfillConfig (withMinify (entry "fetch" (ManyPaths path) (Some test)))).

(** Lines 85-87. *)
Definition abortControllerCheck (polyfills : PolyfillsConfig.t) : Eff Configs unit :=
  when (truthy (abortController polyfills) && negb (truthy (fetch polyfills)))
    (throw AbortControllerWithoutFetch).

(** Lines 90-91, read for its truth value: a custom entry named [systemjs]. *)
Definition hasSystemJs (cfg : PolyfillsLoaderConfig.t) : bool :=
  match PolyfillsLoaderConfig.polyfills cfg with
  | Some p =>
      match custom p with
      | Some cs =>
          existsb (fun c => match PolyfillConfig.name c with
                            | Some n => n =? "systemjs"
                            | None => false
                            end) cs
      | None => false
      end
  | None => false
  end.

(** Lines 98-99, read for its truth value. *)
Definition alwaysLoad (cfg : PolyfillsLoaderConfig.t) : bool :=
  match PolyfillsLoaderConfig.modern cfg with
  | Some m =>
      match ModernEntrypoint.files m with
      | Some fs => existsb (fun f => File.type f =? fileTypes_SYSTEMJS utils) fs
      | None => false
      end
  | None => false
  end.

(** Line 100. *)
Definition systemjsTest (cfg : PolyfillsLoaderConfig.t) : option string :=
  if alwaysLoad cfg || negb (truthy (PolyfillsLoaderConfig.legacy cfg)) then None
  else match PolyfillsLoaderConfig.legacy cfg with
       | Some ls => Some (join " || " (map LegacyEntrypoint.test ls))
       | None => None
       end.

(** Lines 92-96. *)
Definition systemjsIncluded (cfg : PolyfillsLoaderConfig.t) (polyfills : PolyfillsConfig.t)
  : bool :=
  truthy (systemjs polyfills) || truthy (systemjsExtended polyfills)
  || (negb (hasSystemJs cfg) && hasFileOfType cfg (fileTypes_SYSTEMJS utils)).

(** Lines 89-117. *)
Definition systemjsRule (cfg : PolyfillsLoaderConfig.t) (polyfills : PolyfillsConfig.t)
  : Eff Configs unit :=
  when (systemjsIncluded cfg polyfills)
    (let name := "systemjs" in
     let test := systemjsTest cfg in
     if truthy (systemjsExtended polyfills)
     then p <- requireResolve "systemjs/dist/system.min.js" ;;
          addPolyfillConfig (entry name (OnePath p) test)
     else p <- requireResolve "systemjs/dist/s.min.js" ;;
          addPolyfillConfig (entry name (OnePath p) test)).

(** Lines 119-136. *)
Definition dynamicImportRule (polyfills : PolyfillsConfig.t) : Eff Configs unit :=
  when (truthy (dynamicImport polyfills))
    (p <- requireResolve "dynamic-import-polyfill/dist/dynamic-import-polyfill.umd.js" ;;
     addPolyfillConfig
       (withInitializer
          "window.dynamicImportPolyfill.initialize({ importFunctionName: 'importShim' });"
          (entry "dynamic-import" (OnePath p)
             (Some ("'noModule' in HTMLScriptElement.prototype && " ++
                    "(function () { try { Function('window.importShim = s => import(s);').call(); return false; } catch (_) { return true; } })()"))))).

(** Lines 138-145. *)
Definition intersectionObserverRule (polyfills : PolyfillsConfig.t) : Eff Configs unit :=
  when (truthy (intersectionObserver polyfills))
    (p <- requireResolve "intersection-observer/intersection-observer.js" ;;
     addPolyfillConfig
       (withMinify
          (entry "intersection-observer" (OnePath p)
             (Some "!('IntersectionObserver' in window && 'IntersectionObserverEntry' in window && 'intersectionRatio' in window.IntersectionObserverEntry.prototype)")))).

(** Lines 147-154. *)
Definition resizeObserverRule (polyfills : PolyfillsConfig.t) : Eff Configs unit :=
  when (truthy (resizeObserver polyfills))
    (p <- requireResolve "resize-observer-polyfill/dist/ResizeObserver.global.js" ;;
     addPolyfillConfig
       (withMinify
          (entry "resize-observer" (OnePath p) (Some "!('ResizeObserver' in window)")))).

(** Lines 156-164. *)
Definition scopedCustomElementRegistryRule (polyfills : PolyfillsConfig.t)
  : Eff Configs unit :=
  when (truthy (scopedCustomElementRegistry polyfills))
    (p <- requireResolve
            "@webcomponents/scoped-custom-element-registry/scoped-custom-element-registry.min.js" ;;
     addPolyfillConfig
       (entry "scoped-custom-element-registry" (OnePath p)
          (Some "!('createElement' in ShadowRoot.prototype)"))).

(** Lines 166-180. *)
Definition webcomponentsRule (polyfills : PolyfillsConfig.t) : Eff Configs unit :=
  when (truthy (webcomponents polyfills) && negb (truthy (shadyCssCustomStyle polyfills)))
    (p <- requireResolve "@webcomponents/webcomponentsjs/webcomponents-bundle.js" ;;
     addPolyfillConfig
       (entry "webcomponents" (OnePath p)
          (Some "!('attachShadow' in Element.prototype) || !('getRootNode' in Element.prototype) || (window.ShadyDOM && window.ShadyDOM.force)")) ;;
     q <- requireResolve "@webcomponents/webcomponentsjs/custom-elements-es5-adapter.js" ;;
     addPolyfillConfig
       (entry "custom-elements-es5-adapter" (OnePath q)
          (Some "!('noModule' in HTMLScriptElement.prototype) && 'getRootNode' in Element.prototype"))).

(** Lines 182-195. *)
Definition shadyCssCustomStyleRule (polyfills : PolyfillsConfig.t) : Eff Configs unit :=
  when (truthy (webcomponents polyfills) && truthy (shadyCssCustomStyle polyfills))
    (p1 <- requireResolve "@webcomponents/webcomponentsjs/webcomponents-bundle.js" ;;
     p2 <- requireResolve "@webcomponents/shadycss/custom-style-interface.min.js" ;;
     p3 <- requireResolve "shady-css-scoped-element/shady-css-scoped-element.min.js" ;;
     addPolyfillConfig
       (entry "webcomponents-shady-css-custom-style" (ManyPaths [p1; p2; p3])
          (Some "!('attachShadow' in Element.prototype) || !('getRootNode' in Element.prototype)"))).

(** Line 197: [polyfillConfigs.push(...(polyfills.custom || []))]. *)
Definition customRule (polyfills : PolyfillsConfig.t) : Eff Configs unit :=
  pushAll (match custom polyfills with Some cs => cs | None => [] end).

(** Line 8: [const { polyfills = {} } = cfg]. *)
Definition polyfillsOf (cfg : PolyfillsLoaderConfig.t) : PolyfillsConfig.t :=
  match PolyfillsLoaderConfig.polyfills cfg with
  | Some p => p
  | None => PolyfillsConfig.empty
  end.

(** Lines 27-197, in the order of the source. *)
Definition collectPolyfillConfigs (cfg : PolyfillsLoaderConfig.t) : Eff Configs unit :=
  let polyfills := polyfillsOf cfg in
  coreJsRule polyfills ;;
  URLPatternRule polyfills ;;
  esModuleShimsRule polyfills ;;
  constructibleStylesheetsRule polyfills ;;
  regeneratorRuntimeRule polyfills ;;
  fetchRule polyfills ;;
  abortControllerCheck polyfills ;;
  systemjsRule cfg polyfills ;;
  dynamicImportRule polyfills ;;
  intersectionObserverRule polyfills ;;
  resizeObserverRule polyfills ;;
  scopedCustomElementRegistryRule polyfills ;;
  webcomponentsRule polyfills ;;
  shadyCssCustomStyleRule polyfills ;;
  customRule polyfills.

(** *** Materialising the entries (lines 216-251) *)

(** Lines 222-227. *)
Definition readContent (path : PathProp) : Eff Trace string :=
  match path with
  | ManyPaths ps => texts <- readAll ps ;; ret (join "" texts)
  | OnePath p => readPolyfillFileContents p
  end.

(** Lines 228-232. *)
Definition minifyContent (polyfillConfig : PolyfillConfig.t) (content : string)
  : Eff Trace string :=
  if truthy (PolyfillConfig.minify polyfillConfig) then
    match terser_minify host content with
    | Some code => ret code
    | None => throw (MinifyFailed content)
    end
  else ret content.

(** [polyfills.hash !== false] *)
Definition hashEnabled (polyfills : PolyfillsConfig.t) : bool :=
  match hash polyfills with
  | Some false => false
  | _ => true
  end.

(** Lines 234-237. *)
Definition outputPath (cfg : PolyfillsLoaderConfig.t) (name content : string) : string :=
  posix_join
    (orElse (PolyfillsLoaderConfig.polyfillsDir cfg) "polyfills")
    (name ++ (if hashEnabled (polyfillsOf cfg)
              then "." ++ createContentHash utils content
              else ""))
  ++ ".js".

(** The body of the loop, lines 219-248, up to the [push]. *)
Definition materialize (cfg : PolyfillsLoaderConfig.t) (polyfillConfig : PolyfillConfig.t)
  : Eff Trace PolyfillFile.t :=
  match PolyfillConfig.name polyfillConfig, PolyfillConfig.path polyfillConfig with
  | Some name, Some path =>
      if negb (truthy name) || negb (truthy path) then throw NameOrPathMissing
      else
        content <- readContent path ;;
        content <- minifyContent polyfillConfig content ;;
        ret {| PolyfillFile.name := name;
               PolyfillFile.type :=
                 orElse (PolyfillConfig.fileType polyfillConfig) (fileTypes_SCRIPT utils);
               PolyfillFile.path := outputPath cfg name content;
               PolyfillFile.content := content;
               PolyfillFile.test := PolyfillConfig.test polyfillConfig;
               PolyfillFile.initializer := PolyfillConfig.initializer polyfillConfig |}
  | _, _ => throw NameOrPathMissing
  end.

(** Lines 216-249: the loop over [polyfillConfigs], with the array
    [polyfillFiles] built so far. *)
Fixpoint materializeAll (cfg : PolyfillsLoaderConfig.t)
  (polyfillConfigs : list PolyfillConfig.t) (polyfillFiles : list PolyfillFile.t)
  : Eff Trace (list PolyfillFile.t) :=
  match polyfillConfigs with
  | [] => ret polyfillFiles
  | polyfillConfig :: rest =>
      polyfillFile <- materialize cfg polyfillConfig ;;
      materializeAll cfg rest (polyfillFiles ++ [polyfillFile])
  end.

(** The whole function.  The entries are collected into a fresh array; an
    error raised while collecting leaves the file system untouched. *)
Definition createPolyfillsData (cfg : PolyfillsLoaderConfig.t)
  : Eff Trace (list PolyfillFile.t) :=
  fun trace =>
    match collectPolyfillConfigs cfg [] with
    | Thrown e _ => Thrown e trace
    | Returned _ polyfillConfigs => materializeAll cfg polyfillConfigs [] trace
    end.

End Engine.

(** * Vocabulary of the statements *)

(** An outcome reached from the empty state, seen from the state [s]. *)
Definition shift {X A : Type} (s : list X) (o : Outcome (list X) A) : Outcome (list X) A :=
  match o with
  | Returned a l => Returned a (s ++ l)%list
  | Thrown e l => Thrown e (s ++ l)%list
  end.

(** Both halves of the function only ever append to their state (entries to
    [polyfillConfigs], calls to the trace) and never read it: what they do
    from any state is what they do from the empty one, shifted. *)
Definition Appends {X A : Type} (m : Eff (list X) A) : Prop :=
  forall s, m s = shift s (m []).

(** A computation that returns from every state. *)
Definition Returns {S A : Type} (m : Eff S A) : Prop :=
  forall s, exists a s', m s = Returned a s'.

(** The requests the function makes of [require.resolve]. *)
Definition dependencies : list string :=
  [ "core-js-bundle/minified.js";
    "urlpattern-polyfill";
    "es-module-shims";
    "construct-style-sheets-polyfill";
    "regenerator-runtime/runtime";
    "whatwg-fetch/dist/fetch.umd.js";
    "abortcontroller-polyfill/dist/umd-polyfill.js";
    "systemjs/dist/system.min.js";
    "systemjs/dist/s.min.js";
    "dynamic-import-polyfill/dist/dynamic-import-polyfill.umd.js";
    "intersection-observer/intersection-observer.js";
    "resize-observer-polyfill/dist/ResizeObserver.global.js";
    "@webcomponents/scoped-custom-element-registry/scoped-custom-element-registry.min.js";
    "@webcomponents/webcomponentsjs/webcomponents-bundle.js";
    "@webcomponents/webcomponentsjs/custom-elements-es5-adapter.js";
    "@webcomponents/shadycss/custom-style-interface.min.js";
    "shady-css-scoped-element/shady-css-scoped-element.min.js" ].

(** No polyfill flag of the configuration is set. *)
Definition noFlagSet (p : PolyfillsConfig.t) : bool :=
  negb (truthy (PolyfillsConfig.coreJs p)
        || truthy (PolyfillsConfig.URLPattern p)
        || truthy (PolyfillsConfig.esModuleShims p)
        || truthy (PolyfillsConfig.constructibleStylesheets p)
        || truthy (PolyfillsConfig.regeneratorRuntime p)
        || truthy (PolyfillsConfig.fetch p)
        || truthy (PolyfillsConfig.abortController p)
        || truthy (PolyfillsConfig.systemjs p)
        || truthy (PolyfillsConfig.systemjsExtended p)
        || truthy (PolyfillsConfig.dynamicImport p)
        || truthy (PolyfillsConfig.intersectionObserver p)
        || truthy (PolyfillsConfig.resizeObserver p)
        || truthy (PolyfillsConfig.scopedCustomElementRegistry p)
        || truthy (PolyfillsConfig.webcomponents p)
        || truthy (PolyfillsConfig.shadyCssCustomStyle p)).

(** The custom entries of the configuration, none when the list is absent. *)
Definition customEntries (p : PolyfillsConfig.t) : list PolyfillConfig.t :=
  match PolyfillsConfig.custom p with Some cs => cs | None => [] end.

(** The configuration with the [webcomponents] flag taken away and
    everything else as it is. *)
Definition withoutWebcomponents (cfg : PolyfillsLoaderConfig.t) : PolyfillsLoaderConfig.t :=
  PolyfillsLoaderConfig.with_polyfills
    (Some (PolyfillsConfig.with_webcomponents None (polyfillsOf cfg))) cfg.

(** [c] occurs in [s]. *)
Fixpoint contains (c : ascii) (s : string) : bool :=
  match s with
  | EmptyString => false
  | String c' rest => Ascii.eqb c' c || contains c rest
  end.

(** What the loop does to one line. *)
Definition blankLine (line : string) : string :=
  if startsWith line sourceMappingURL then "" else line.

(** The dot character. *)
Definition dot : ascii := ascii_of_nat 46.

(** A non-empty string without [/] and without [.]: what a hexadecimal
    digest is. *)
Definition plainSegment (s : string) : bool :=
  truthy s && negb (contains slash s) && negb (contains dot s).

(** Every character of the string is a dot: the segments [''], ['.'] and
    ['..'], which the normaliser treats specially, are of this kind. *)
Fixpoint onlyDots (s : string) : bool :=
  match s with
  | EmptyString => true
  | String c rest => Ascii.eqb c dot && onlyDots rest
  end.

(** The segments before the last, each followed by a slash. *)
Definition slashed (l : list string) : string :=
  fold_right (fun s acc => s ++ "/" ++ acc) "" l.

(** What normalising [x ++ h] puts before [h] when [h] is plain: the
    normalised segments of [x] before its last one, then that last segment
    as it is. *)
Definition normalizedPrefix (x : string) : string :=
  match x with
  | EmptyString => ""
  | String c _ =>
      let segs := split slash x in
      let kept := fold_left (normalizeStep (negb (Ascii.eqb c slash))) (removelast segs) [] in
      (if Ascii.eqb c slash then "/" else "") ++ slashed (rev kept) ++ last segs ""
  end.

(** A segment the normaliser keeps as it is: not empty, not [.] and not
    [..]. *)
Definition ordinarySegment (s : string) : bool :=
  negb ((s =? "") || (s =? ".") || (s =? "..")).

(** The segments after the leading [..] ones. *)
Fixpoint dropParents (segs : list string) : list string :=
  match segs with
  | [] => []
  | seg :: rest => if seg =? ".." then dropParents rest else segs
  end.

(** A path written in normal form: after the root of an absolute path, or
    after the leading [..] segments of a relative one, every segment is an
    ordinary one; so there is no doubled and no trailing slash. *)
Definition normalizedPath (s : string) : bool :=
  match split slash s with
  | [] => false
  | first :: rest =>
      if first =? "" then
        match rest with
        | [] => false
        | _ :: _ => forallb ordinarySegment rest
        end
      else forallb ordinarySegment (dropParents (first :: rest))
  end.


(** The sources of an entry, in the order they are read. *)
Definition sourcesOf (pc : PolyfillConfig.t) : list string :=
  match PolyfillConfig.path pc with
  | Some (OnePath p) => [p]
  | Some (ManyPaths ps) => ps
  | None => []
  end.

Section Vocabulary.

Context (host : Host) (utils : Utils).

(** Every one of them is found: the packages are installed. *)
Definition installed : bool :=
  forallb (fun r => match require_resolve host r with Some _ => true | None => false end)
    dependencies.

(** What the loop body produces does not depend on the calls made before. *)
Definition produces (cfg : PolyfillsLoaderConfig.t) (pc : PolyfillConfig.t)
  (f : PolyfillFile.t) : Prop :=
  exists calls, materialize host utils cfg pc [] = Returned f calls.

(** The loop body throws [e] on the entry. *)
Definition fails (cfg : PolyfillsLoaderConfig.t) (pc : PolyfillConfig.t) (e : Error) : Prop :=
  exists calls, materialize host utils cfg pc [] = Thrown e calls.

(** Some file of the modern entry point has the systemjs type. *)
Definition modernHasSystemjs (cfg : PolyfillsLoaderConfig.t) : Prop :=
  exists m fs f,
    PolyfillsLoaderConfig.modern cfg = Some m /\
    ModernEntrypoint.files m = Some fs /\
    In f fs /\ File.type f = fileTypes_SYSTEMJS utils.

(** [c] is what [readPolyfillFileContents] returns for the source at [p]: the
    text of the regular file there, with its source-map lines blanked. *)
Definition sourceText (p c : string) : Prop :=
  exists text,
    fs_node host (path_resolve host p) = RegularFile text /\ c = removeSourceMapUrl text.

(** The three calls by which a source is checked and read (lines 200-205). *)
Definition callsFor (p : string) : list FsCall :=
  [ExistsSync (path_resolve host p); StatSync (path_resolve host p); ReadFileSync p].

(** The source can be read: its resolved path is not empty and a regular
    file lies there. *)
Definition readable (p : string) : Prop :=
  truthy (path_resolve host p) = true /\
  exists text, fs_node host (path_resolve host p) = RegularFile text.

(** Why collecting the entries can throw [e]: a package asked for cannot be
    resolved, or [abortController] is set without [fetch]. *)
Definition collectCause (polyfills : PolyfillsConfig.t) (e : Error) : Prop :=
  (exists request,
      e = ModuleNotFound request /\
      In request dependencies /\
      require_resolve host request = None) \/
  (e = AbortControllerWithoutFetch /\
   truthy (PolyfillsConfig.abortController polyfills) = true /\
   truthy (PolyfillsConfig.fetch polyfills) = false).

(** Why the loop body can throw [e] on an entry: the entry lacks a name or a
    path, one of its sources cannot be read, or it is to be minified and the
    minifier rejects its text. *)
Definition materializeCause (pc : PolyfillConfig.t) (e : Error) : Prop :=
  (e = NameOrPathMissing /\
   (truthy (PolyfillConfig.name pc) = false \/ truthy (PolyfillConfig.path pc) = false)) \/
  (exists p, e = CouldNotFindFile p /\ In p (sourcesOf pc) /\ ~ readable p) \/
  (exists text,
      e = MinifyFailed text /\
      truthy (PolyfillConfig.minify pc) = true /\
      terser_minify host text = None).

(** The source was found by [require.resolve] for one of the requests. *)
Definition resolved (p : string) : Prop :=
  exists request, In request dependencies /\ require_resolve host request = Some p.

(** An entry as the rules of lines 27-195 build it, under the name [n]: it
    has that name and a path, its sources were all found by
    [require.resolve], it has no file type of its own, an initializer only
    when it is the dynamic-import entry, and the [minify] flag only when it
    is one of the three entries that set it. *)
Definition builtinEntry (n : string) (pc : PolyfillConfig.t) : Prop :=
  PolyfillConfig.name pc = Some n /\
  truthy n = true /\
  (exists path, PolyfillConfig.path pc = Some path) /\
  Forall resolved (sourcesOf pc) /\
  PolyfillConfig.fileType pc = None /\
  (PolyfillConfig.initializer pc <> None -> n = "dynamic-import") /\
  (truthy (PolyfillConfig.minify pc) = true ->
   In n ["fetch"; "intersection-observer"; "resize-observer"]).

(** The names of the entries the rules add for a configuration, in the
    order of the source (lines 27-195). *)
Definition builtinNames (cfg : PolyfillsLoaderConfig.t) : list string :=
  let p := polyfillsOf cfg in
  ((if truthy (PolyfillsConfig.coreJs p) then ["core-js"] else [])
   ++ (if truthy (PolyfillsConfig.URLPattern p) then ["urlpattern-polyfill"] else [])
   ++ (if truthy (PolyfillsConfig.esModuleShims p) then ["es-module-shims"] else [])
   ++ (if truthy (PolyfillsConfig.constructibleStylesheets p)
       then ["constructible-style-sheets-polyfill"] else [])
   ++ (if truthy (PolyfillsConfig.regeneratorRuntime p) then ["regenerator-runtime"] else [])
   ++ (if truthy (PolyfillsConfig.fetch p) then ["fetch"] else [])
   ++ (if systemjsIncluded utils cfg p then ["systemjs"] else [])
   ++ (if truthy (PolyfillsConfig.dynamicImport p) then ["dynamic-import"] else [])
   ++ (if truthy (PolyfillsConfig.intersectionObserver p)
       then ["intersection-observer"] else [])
   ++ (if truthy (PolyfillsConfig.resizeObserver p) then ["resize-observer"] else [])
   ++ (if truthy (PolyfillsConfig.scopedCustomElementRegistry p)
       then ["scoped-custom-element-registry"] else [])
   ++ (if truthy (PolyfillsConfig.webcomponents p)
          && negb (truthy (PolyfillsConfig.shadyCssCustomStyle p))
       then ["webcomponents"; "custom-elements-es5-adapter"] else [])
   ++ (if truthy (PolyfillsConfig.webcomponents p)
          && truthy (PolyfillsConfig.shadyCssCustomStyle p)
       then ["webcomponents-shady-css-custom-style"] else []))%list.

(** Every package that is found is found at a path that can be read. *)
Definition sourcesPresent : Prop :=
  forall request p,
    In request dependencies ->
    require_resolve host request = Some p ->
    truthy p = true /\ readable p.

End Vocabulary.

(** * Sample environments and configurations *)

(** The files of an outcome, none when it threw. *)
Definition filesOf {S : Type} (o : Outcome S (list PolyfillFile.t)) : list PolyfillFile.t :=
  match o with Returned files _ => files | Thrown _ _ => [] end.

(** A stand-in for the hasher: the length of the content, in decimal. *)
Definition lengthDigest (content : string) : string :=
  NilEmpty.string_of_uint (Nat.to_uint (String.length content)).

(** Every request resolves into [/node_modules]; every path below it is a
    regular file whose text names the path; the minifier returns its input. *)
Definition sampleHost : Host :=
  {| require_resolve := fun request => Some ("/node_modules/" ++ request);
     path_resolve := fun p => p;
     fs_node := fun p =>
       if startsWith p "/node_modules/" then RegularFile ("/*" ++ p ++ "*/") else NoEntry;
     terser_minify := fun code => Some code |}.

(** The same, with a minifier that rejects everything. *)
Definition rejectingHost : Host :=
  {| require_resolve := require_resolve sampleHost;
     path_resolve := path_resolve sampleHost;
     fs_node := fs_node sampleHost;
     terser_minify := fun _ => None |}.

(** No package is installed. *)
Definition bareHost : Host :=
  {| require_resolve := fun _ => None;
     path_resolve := path_resolve sampleHost;
     fs_node := fs_node sampleHost;
     terser_minify := terser_minify sampleHost |}.

(** One source file, [/src/shim.js], with the given text. *)
Definition hostWithShim (text : string) : Host :=
  {| require_resolve := require_resolve sampleHost;
     path_resolve := fun p => p;
     fs_node := fun p => if p =? "/src/shim.js" then RegularFile text else NoEntry;
     terser_minify := fun code => Some code |}.

Definition sampleUtils : Utils :=
  {| noModuleSupportTest := "!('noModule' in HTMLScriptElement.prototype)";
     fileTypes_SCRIPT := "script";
     fileTypes_SYSTEMJS := "systemjs";
     createContentHash := lengthDigest |}.





(** [{ polyfills }] *)
Definition configOf (polyfills : PolyfillsConfig.t) : PolyfillsLoaderConfig.t :=
  {| PolyfillsLoaderConfig.modern := None;
     PolyfillsLoaderConfig.legacy := None;
     PolyfillsLoaderConfig.polyfills := Some polyfills;
     PolyfillsLoaderConfig.polyfillsDir := None |}.

(** The flags used below, the others left out. *)
Definition flags (coreJs : option bool) (esModuleShims : option BoolOrString)
  (fetch abortController systemjs webcomponents shadyCssCustomStyle hash : option bool)
  (custom : option (list PolyfillConfig.t)) : PolyfillsConfig.t :=
  {| PolyfillsConfig.custom := custom;
     PolyfillsConfig.hash := hash;
     PolyfillsConfig.coreJs := coreJs;
     PolyfillsConfig.regeneratorRuntime := None;
     PolyfillsConfig.webcomponents := webcomponents;
     PolyfillsConfig.fetch := fetch;
     PolyfillsConfig.abortController := abortController;
     PolyfillsConfig.intersectionObserver := None;
     PolyfillsConfig.resizeObserver := None;
     PolyfillsConfig.dynamicImport := None;
     PolyfillsConfig.systemjs := systemjs;
     PolyfillsConfig.systemjsExtended := None;
     PolyfillsConfig.esModuleShims := esModuleShims;
     PolyfillsConfig.constructibleStylesheets := None;
     PolyfillsConfig.URLPattern := None;
     PolyfillsConfig.shadyCssCustomStyle := shadyCssCustomStyle;
     PolyfillsConfig.scopedCustomElementRegistry := None |}.

(** [{ polyfills: { coreJs: true, abortController: true } }] *)
Definition abortOnly : PolyfillsLoaderConfig.t :=
  configOf (flags (Some true) None None (Some true) None None None None None).

(** [{ polyfills: { coreJs: true, esModuleShims: 'always' } }] *)
Definition shimsAlways : PolyfillsLoaderConfig.t :=
  configOf (flags (Some true) (Some (JString "always")) None None None None None None None).

(** [{ polyfills: { coreJs: true, webcomponents: true } }] *)
Definition webcomponentsOnly : PolyfillsLoaderConfig.t :=
  configOf (flags (Some true) None None None None (Some true) None None None).

(** [{ polyfills: { coreJs: true, webcomponents: true, shadyCssCustomStyle: true } }] *)
Definition webcomponentsShady : PolyfillsLoaderConfig.t :=
  configOf (flags (Some true) None None None None (Some true) (Some true) None None).

(** [{ polyfills: { fetch: true } }] *)
Definition fetchOnly : PolyfillsLoaderConfig.t :=
  configOf (flags None None (Some true) None None None None None None).

(** [[{ test: 'a', files: [] }, { test: 'b', files: [] }]] *)
Definition legacyAB : list LegacyEntrypoint.t :=
  [ {| LegacyEntrypoint.test := "a"; LegacyEntrypoint.files := [] |};
    {| LegacyEntrypoint.test := "b"; LegacyEntrypoint.files := [] |} ].

(** [{ legacy: [{ test: 'a', files: [] }, { test: 'b', files: [] }],
       polyfills: { coreJs: true, systemjs: true } }] *)
Definition systemjsLegacy : PolyfillsLoaderConfig.t :=
  {| PolyfillsLoaderConfig.modern := None;
     PolyfillsLoaderConfig.legacy := Some legacyAB;
     PolyfillsLoaderConfig.polyfills :=
       Some (flags (Some true) None None None (Some true) None None None None);
     PolyfillsLoaderConfig.polyfillsDir := None |}.

(** [{ modern: { files: [{ type: 'systemjs', path: 'app.js' }] } }]: no
    polyfill flag, no custom entry. *)
Definition systemjsBuild : PolyfillsLoaderConfig.t :=
  {| PolyfillsLoaderConfig.modern :=
       Some {| ModernEntrypoint.files :=
                 Some [ {| File.type := "systemjs"; File.path := "app.js" |} ] |};
     PolyfillsLoaderConfig.legacy := None;
     PolyfillsLoaderConfig.polyfills := None;
     PolyfillsLoaderConfig.polyfillsDir := None |}.

(** [{}] *)
Definition emptyConfig : PolyfillsLoaderConfig.t :=
  {| PolyfillsLoaderConfig.modern := None;
     PolyfillsLoaderConfig.legacy := None;
     PolyfillsLoaderConfig.polyfills := None;
     PolyfillsLoaderConfig.polyfillsDir := None |}.

(** A custom entry [{ name, path }]. *)
Definition customEntry (name : option string) (path : option PathProp) : PolyfillConfig.t :=
  {| PolyfillConfig.name := name;
     PolyfillConfig.path := path;
     PolyfillConfig.test := None;
     PolyfillConfig.fileType := None;
     PolyfillConfig.minify := None;
     PolyfillConfig.initializer := None |}.

(** [{ polyfills: { custom: [{ name: 'shim', path: [] }] } }] *)
Definition emptySources : PolyfillsLoaderConfig.t :=
  configOf (flags None None None None None None None None
              (Some [customEntry (Some "shim") (Some (ManyPaths []))])).

(** [{ polyfills: { custom: [{ name: 'a', path: '/node_modules/a.js' },
                              { path: '/node_modules/b.js' }] } }] *)
Definition namelessSecond : PolyfillsLoaderConfig.t :=
  configOf (flags None None None None None None None None
              (Some [customEntry (Some "a") (Some (OnePath "/node_modules/a.js"));
                     customEntry None (Some (OnePath "/node_modules/b.js"))])).

(** [{ polyfills: { hash: false, custom: [{ name: 'shim', path: '/src/shim.js' }] } }] *)
Definition unhashedShim : PolyfillsLoaderConfig.t :=
  configOf (flags None None None None None None None (Some false)
              (Some [customEntry (Some "shim") (Some (OnePath "/src/shim.js"))])).

(** The same with hashing left on. *)
Definition hashedShim : PolyfillsLoaderConfig.t :=
  configOf (flags None None None None None None None None
              (Some [customEntry (Some "shim") (Some (OnePath "/src/shim.js"))])).

(** Two custom entries of one name, read from different sources. *)
Definition shimA : PolyfillConfig.t :=
  customEntry (Some "shim") (Some (OnePath "/node_modules/a.js")).

Definition shimB : PolyfillConfig.t :=
  customEntry (Some "shim") (Some (OnePath "/node_modules/bb.js")).

(** A file of type [script] without test and initializer. *)
Definition fileOf (name path content : string) : PolyfillFile.t :=
  {| PolyfillFile.name := name;
     PolyfillFile.type := "script";
     PolyfillFile.path := path;
     PolyfillFile.content := content;
     PolyfillFile.test := None;
     PolyfillFile.initializer := None |}.

(** The flags of the module loader and of the regenerator runtime, the
    others left out. *)
Definition loaderFlags (regeneratorRuntime : option BoolOrString)
  (systemjs systemjsExtended : option bool)
  (custom : option (list PolyfillConfig.t)) : PolyfillsConfig.t :=
  {| PolyfillsConfig.custom := custom;
     PolyfillsConfig.hash := None;
     PolyfillsConfig.coreJs := None;
     PolyfillsConfig.regeneratorRuntime := regeneratorRuntime;
     PolyfillsConfig.webcomponents := None;
     PolyfillsConfig.fetch := None;
     PolyfillsConfig.abortController := None;
     PolyfillsConfig.intersectionObserver := None;
     PolyfillsConfig.resizeObserver := None;
     PolyfillsConfig.dynamicImport := None;
     PolyfillsConfig.systemjs := systemjs;
     PolyfillsConfig.systemjsExtended := systemjsExtended;
     PolyfillsConfig.esModuleShims := None;
     PolyfillsConfig.constructibleStylesheets := None;
     PolyfillsConfig.URLPattern := None;
     PolyfillsConfig.shadyCssCustomStyle := None;
     PolyfillsConfig.scopedCustomElementRegistry := None |}.

(** [{ polyfills: { systemjs: true, systemjsExtended: true } }] *)
Definition bothSystemjs : PolyfillsLoaderConfig.t :=
  configOf (loaderFlags None (Some true) (Some true) None).

(** [{ polyfills: { regeneratorRuntime: true } }] *)
Definition regeneratorOnly : PolyfillsLoaderConfig.t :=
  configOf (loaderFlags (Some (JBool true)) None None None).

(** [{ modern: { files: [{ type: 'systemjs', path: 'app.js' }] },
       polyfills: { custom: [{ name: 'systemjs', path: '/node_modules/my-systemjs.js' }] } }] *)
Definition ownSystemjs : PolyfillsLoaderConfig.t :=
  {| PolyfillsLoaderConfig.modern :=
       Some {| ModernEntrypoint.files :=
                 Some [ {| File.type := "systemjs"; File.path := "app.js" |} ] |};
     PolyfillsLoaderConfig.legacy := None;
     PolyfillsLoaderConfig.polyfills :=
       Some (loaderFlags None None None
               (Some [customEntry (Some "systemjs")
                        (Some (OnePath "/node_modules/my-systemjs.js"))]));
     PolyfillsLoaderConfig.polyfillsDir := None |}.

(** [{ polyfills: { coreJs: true, webcomponents: true,
                    custom: [{ name: 'shim', path: '/node_modules/a.js' }] } }] *)
Definition flagsAndCustom : PolyfillsLoaderConfig.t :=
  configOf (flags (Some true) None None None None (Some true) None None (Some [shimA])).

(** [{ polyfills: { fetch: true, abortController: true } }] *)
Definition fetchAndAbort : PolyfillsLoaderConfig.t :=
  configOf (flags None None (Some true) (Some true) None None None None None).

(** * Properties *)

(** ** The model at work *)

(** [path.posix.join] drops [.] segments and doubled slashes and resolves
    [..] against the segment before it. *)
Example posix_join_plain : posix_join "polyfills" "core-js.abc" = "polyfills/core-js.abc".
Proof. reflexivity. Qed.

Example posix_join_normalises : posix_join "./out/" "a/../b.x" = "out/b.x".
Proof. reflexivity. Qed.

Example posix_join_above_root : posix_join "/abs//x/" "../../../y" = "/y".
Proof. reflexivity. Qed.

Example posix_join_above_relative : posix_join "polyfills" "../../shim" = "../shim".
Proof. reflexivity. Qed.

Example split_trailing_newline :
  split newline ("a" ++ String newline ("b" ++ String newline "")) = ["a"; "b"; ""].
Proof. reflexivity. Qed.

(** [{ polyfills: { fetch: true, abortController: true } }]: one file, both
    sources in it, both clauses in its test. *)
Example fetch_with_abortController :
  createPolyfillsData sampleHost sampleUtils
    (configOf (flags None None (Some true) (Some true) None None None None None)) []
  = Returned
      [ {| PolyfillFile.name := "fetch";
           PolyfillFile.type := "script";
           PolyfillFile.path := "polyfills/fetch.111.js";
           PolyfillFile.content :=
             "/*/node_modules/whatwg-fetch/dist/fetch.umd.js*/"
             ++ "/*/node_modules/abortcontroller-polyfill/dist/umd-polyfill.js*/";
           PolyfillFile.test :=
             Some ("!('fetch' in window) || !('Request' in window)"
                   ++ " || !('signal' in window.Request.prototype)");
           PolyfillFile.initializer := None |} ]
      [ ExistsSync "/node_modules/whatwg-fetch/dist/fetch.umd.js";
        StatSync "/node_modules/whatwg-fetch/dist/fetch.umd.js";
        ReadFileSync "/node_modules/whatwg-fetch/dist/fetch.umd.js";
        ExistsSync "/node_modules/abortcontroller-polyfill/dist/umd-polyfill.js";
        StatSync "/node_modules/abortcontroller-polyfill/dist/umd-polyfill.js";
        ReadFileSync "/node_modules/abortcontroller-polyfill/dist/umd-polyfill.js" ].
Proof. reflexivity. Qed.

(** A source that is a directory, or is not there, stops the call. *)
Example source_not_a_file :
  createPolyfillsData sampleHost sampleUtils
    (configOf (flags None None None None None None None None
                 (Some [customEntry (Some "shim") (Some (OnePath "/src/shim.js"))]))) []
  = Thrown (CouldNotFindFile "/src/shim.js") [ExistsSync "/src/shim.js"].
Proof. reflexivity. Qed.

(** ** Computations that only append to their state *)

Lemma Appends_ret {X A : Type} (a : A) : Appends (@ret (list X) A a).
Proof. intros s. unfold ret, shift. now rewrite app_nil_r. Qed.

Lemma Appends_throw {X A : Type} (e : Error) : Appends (@throw (list X) A e).
Proof. intros s. unfold throw, shift. now rewrite app_nil_r. Qed.

Lemma Appends_push {X : Type} (x : X) : Appends (push x).
Proof. intros s. reflexivity. Qed.

Lemma Appends_pushAll {X : Type} (xs : list X) : Appends (pushAll xs).
Proof. intros s. reflexivity. Qed.

Lemma Appends_bind {X A B : Type} (m : Eff (list X) A) (k : A -> Eff (list X) B) :
  Appends m -> (forall a, Appends (k a)) -> Appends (bind m k).
Proof.
  intros Hm Hk s. unfold bind. rewrite (Hm s).
  destruct (m []) as [a l | e l]; simpl; [| reflexivity].
  rewrite (Hk a (s ++ l)%list), (Hk a l).
  destruct (k a []) as [b l' | e l']; simpl; now rewrite app_assoc.
Qed.

Lemma Appends_when {X : Type} (c : bool) (m : Eff (list X) unit) :
  Appends m -> Appends (when c m).
Proof. destruct c; simpl; [trivial | intros _; apply Appends_ret]. Qed.

Lemma Appends_if {X A : Type} (c : bool) (m1 m2 : Eff (list X) A) :
  Appends m1 -> Appends m2 -> Appends (if c then m1 else m2).
Proof. now destruct c. Qed.

Create HintDb appends.

#[local] Hint Resolve Appends_ret Appends_throw Appends_push Appends_pushAll
  Appends_bind Appends_when Appends_if : appends.

(** Running [m] then [k] from the empty state returns exactly when both
    return, and then the state is the two contributions in order. *)
Lemma bind_returned {X A B : Type} (m : Eff (list X) A) (k : A -> Eff (list X) B)
  (b : B) (l : list X) :
  (forall a, Appends (k a)) ->
  bind m k [] = Returned b l ->
  exists a l1 l2, m [] = Returned a l1 /\ k a [] = Returned b l2 /\ l = (l1 ++ l2)%list.
Proof.
  intros Hk. unfold bind. destruct (m []) as [a l1 | e l1]; [| discriminate].
  rewrite (Hk a l1). destruct (k a []) as [b' l2 | e l2] eqn:Hka; simpl; [| discriminate].
  intros [= -> <-]. now exists a, l1, l2.
Qed.

Section EngineFacts.

Context (host : Host) (utils : Utils).

Lemma Appends_requireResolve (request : string) :
  Appends (requireResolve host request).
Proof. unfold requireResolve. destruct (require_resolve host request); auto with appends. Qed.

#[local] Hint Resolve Appends_requireResolve : appends.

Ltac appends_rule :=
  intros; unfold addPolyfillConfig;
  repeat first
    [ apply Appends_when | apply Appends_bind | apply Appends_if
    | apply Appends_requireResolve | apply Appends_push | apply Appends_pushAll
    | apply Appends_ret | apply Appends_throw | intro ].

Lemma Appends_coreJsRule p : Appends (coreJsRule host utils p).
Proof. unfold coreJsRule. appends_rule. Qed.

Lemma Appends_URLPatternRule p : Appends (URLPatternRule host p).
Proof. unfold URLPatternRule. appends_rule. Qed.

Lemma Appends_esModuleShimsRule p : Appends (esModuleShimsRule host p).
Proof. unfold esModuleShimsRule. appends_rule. Qed.

Lemma Appends_constructibleStylesheetsRule p :
  Appends (constructibleStylesheetsRule host p).
Proof. unfold constructibleStylesheetsRule. appends_rule. Qed.

Lemma Appends_regeneratorRuntimeRule p : Appends (regeneratorRuntimeRule host utils p).
Proof. unfold regeneratorRuntimeRule. appends_rule. Qed.

Lemma Appends_fetchRule p : Appends (fetchRule host p).
Proof. unfold fetchRule. appends_rule. Qed.

Lemma Appends_abortControllerCheck p : Appends (abortControllerCheck p).
Proof. unfold abortControllerCheck. appends_rule. Qed.

Lemma Appends_systemjsRule cfg p : Appends (systemjsRule host utils cfg p).
Proof. unfold systemjsRule. appends_rule. Qed.

Lemma Appends_dynamicImportRule p : Appends (dynamicImportRule host p).
Proof. unfold dynamicImportRule. appends_rule. Qed.

Lemma Appends_intersectionObserverRule p : Appends (intersectionObserverRule host p).
Proof. unfold intersectionObserverRule. appends_rule. Qed.

Lemma Appends_resizeObserverRule p : Appends (resizeObserverRule host p).
Proof. unfold resizeObserverRule. appends_rule. Qed.

Lemma Appends_scopedCustomElementRegistryRule p :
  Appends (scopedCustomElementRegistryRule host p).
Proof. unfold scopedCustomElementRegistryRule. appends_rule. Qed.

Lemma Appends_webcomponentsRule p : Appends (webcomponentsRule host p).
Proof. unfold webcomponentsRule. appends_rule. Qed.

Lemma Appends_shadyCssCustomStyleRule p : Appends (shadyCssCustomStyleRule host p).
Proof. unfold shadyCssCustomStyleRule. appends_rule. Qed.

Lemma Appends_customRule p : Appends (customRule p).
Proof. unfold customRule. appends_rule. Qed.

(** ** The packages the function asks [require.resolve] for *)

Lemma installed_resolves (r : string) :
  installed host = true -> In r dependencies -> exists p, require_resolve host r = Some p.
Proof.
  unfold installed. rewrite forallb_forall. intros H Hin.
  specialize (H r Hin). destruct (require_resolve host r) as [p |]; [| discriminate].
  now exists p.
Qed.

Lemma Returns_ret {S A : Type} (a : A) : Returns (@ret S A a).
Proof. intros s. now exists a, s. Qed.

Lemma Returns_bind {S A B : Type} (m : Eff S A) (k : A -> Eff S B) :
  Returns m -> (forall a, Returns (k a)) -> Returns (bind m k).
Proof.
  intros Hm Hk s. unfold bind. destruct (Hm s) as (a & s' & ->). apply Hk.
Qed.

Lemma Returns_when {S : Type} (c : bool) (m : Eff S unit) :
  Returns m -> Returns (when c m).
Proof. destruct c; simpl; [trivial | intros _; apply Returns_ret]. Qed.

Lemma Returns_push {X : Type} (x : X) : Returns (push x).
Proof. intros s. now exists tt, (s ++ [x])%list. Qed.

Lemma Returns_requireResolve (r : string) :
  installed host = true -> In r dependencies -> Returns (requireResolve host r).
Proof.
  intros Hi Hin s. unfold requireResolve.
  destruct (installed_resolves Hi Hin) as [p ->]. now exists p, s.
Qed.

Ltac returns_rule Hi :=
  unfold addPolyfillConfig;
  repeat first
    [ apply Returns_when | apply Returns_bind | apply Returns_push | apply Returns_ret
    | apply (Returns_requireResolve Hi); unfold dependencies; simpl; tauto
    | intro ].

(** ** C1: AbortController without fetch *)

(** Whatever the rules ahead of the check do, the call throws once the check
    is reached, and it throws earlier only when a rule ahead of it does. *)
Lemma collect_abortController_without_fetch (cfg : PolyfillsLoaderConfig.t) :
  truthy (PolyfillsConfig.abortController (polyfillsOf cfg)) = true ->
  truthy (PolyfillsConfig.fetch (polyfillsOf cfg)) = false ->
  (exists e l, collectPolyfillConfigs host utils cfg [] = Thrown e l) /\
  (installed host = true ->
   exists l, collectPolyfillConfigs host utils cfg [] = Thrown AbortControllerWithoutFetch l).
Proof.
  intros Habort Hfetch. unfold collectPolyfillConfigs.
  set (p := polyfillsOf cfg) in *.
  assert (Hcheck : forall (k : Eff Configs unit) s,
             (fetchRule host p ;; abortControllerCheck p ;; k) s
             = Thrown AbortControllerWithoutFetch s).
  { intros k s. unfold fetchRule, abortControllerCheck.
    rewrite Habort, Hfetch. reflexivity. }
  split.
  - unfold bind at 1 2 3 4 5.
    destruct (coreJsRule host utils p []) as [? s1 | e s1]; [| now exists e, s1].
    destruct (URLPatternRule host p s1) as [? s2 | e s2]; [| now exists e, s2].
    destruct (esModuleShimsRule host p s2) as [? s3 | e s3]; [| now exists e, s3].
    destruct (constructibleStylesheetsRule host p s3) as [? s4 | e s4];
      [| now exists e, s4].
    destruct (regeneratorRuntimeRule host utils p s4) as [? s5 | e s5];
      [| now exists e, s5].
    rewrite Hcheck. now exists AbortControllerWithoutFetch, s5.
  - intros Hi. unfold bind at 1 2 3 4 5.
    assert (R1 : Returns (coreJsRule host utils p))
      by (unfold coreJsRule; returns_rule Hi).
    assert (R2 : Returns (URLPatternRule host p))
      by (unfold URLPatternRule; returns_rule Hi).
    assert (R3 : Returns (esModuleShimsRule host p))
      by (unfold esModuleShimsRule; returns_rule Hi).
    assert (R4 : Returns (constructibleStylesheetsRule host p))
      by (unfold constructibleStylesheetsRule; returns_rule Hi).
    assert (R5 : Returns (regeneratorRuntimeRule host utils p))
      by (unfold regeneratorRuntimeRule; returns_rule Hi).
    destruct (R1 []) as (? & s1 & ->). destruct (R2 s1) as (? & s2 & ->).
    destruct (R3 s2) as (? & s3 & ->). destruct (R4 s3) as (? & s4 & ->).
    destruct (R5 s4) as (? & s5 & ->).
    rewrite Hcheck. now exists s5.
Qed.

(** C1.  When [abortController] is set and [fetch] is not, the call throws
    and leaves the trace of file-system calls as it found it, whatever the
    other flags, the custom entries and the environment are; with the
    packages installed the error is the configuration error of line 86. *)
Theorem C1_abortController_without_fetch (cfg : PolyfillsLoaderConfig.t) (trace : Trace) :
  truthy (PolyfillsConfig.abortController (polyfillsOf cfg)) = true ->
  truthy (PolyfillsConfig.fetch (polyfillsOf cfg)) = false ->
  (exists e, createPolyfillsData host utils cfg trace = Thrown e trace) /\
  (installed host = true ->
   createPolyfillsData host utils cfg trace = Thrown AbortControllerWithoutFetch trace).
Proof.
  intros Habort Hfetch.
  destruct (collect_abortController_without_fetch cfg Habort Hfetch) as [Hany Hcfg].
  unfold createPolyfillsData. split.
  - destruct Hany as (e & l & ->). now exists e.
  - intros Hi. destruct (Hcfg Hi) as (l & ->). reflexivity.
Qed.

(** ** The entries a successful collection leaves, rule by rule *)

(** Splits off the first rule of a returning sequence. *)
Ltac peel H u l :=
  apply bind_returned in H;
  [ destruct H as (u & l & ? & ? & H & ->); destruct u
  | intros; repeat first
      [ apply Appends_bind; [| intro ]
      | apply Appends_coreJsRule | apply Appends_URLPatternRule
      | apply Appends_esModuleShimsRule | apply Appends_constructibleStylesheetsRule
      | apply Appends_regeneratorRuntimeRule | apply Appends_fetchRule
      | apply Appends_abortControllerCheck | apply Appends_systemjsRule
      | apply Appends_dynamicImportRule | apply Appends_intersectionObserverRule
      | apply Appends_resizeObserverRule
      | apply Appends_scopedCustomElementRegistryRule
      | apply Appends_webcomponentsRule | apply Appends_shadyCssCustomStyleRule
      | apply Appends_customRule ] ].

Lemma collect_returned (cfg : PolyfillsLoaderConfig.t) (l : Configs) :
  collectPolyfillConfigs host utils cfg [] = Returned tt l ->
  let p := polyfillsOf cfg in
  exists l1 l2 l3 l4 l5 l6 l7 l8 l9 l10 l11 l12 l13 l14,
    coreJsRule host utils p [] = Returned tt l1 /\
    URLPatternRule host p [] = Returned tt l2 /\
    esModuleShimsRule host p [] = Returned tt l3 /\
    constructibleStylesheetsRule host p [] = Returned tt l4 /\
    regeneratorRuntimeRule host utils p [] = Returned tt l5 /\
    fetchRule host p [] = Returned tt l6 /\
    abortControllerCheck p [] = Returned tt l7 /\
    systemjsRule host utils cfg p [] = Returned tt l8 /\
    dynamicImportRule host p [] = Returned tt l9 /\
    intersectionObserverRule host p [] = Returned tt l10 /\
    resizeObserverRule host p [] = Returned tt l11 /\
    scopedCustomElementRegistryRule host p [] = Returned tt l12 /\
    webcomponentsRule host p [] = Returned tt l13 /\
    shadyCssCustomStyleRule host p [] = Returned tt l14 /\
    l = (l1 ++ l2 ++ l3 ++ l4 ++ l5 ++ l6 ++ l7 ++ l8 ++ l9 ++ l10 ++ l11 ++ l12
         ++ l13 ++ l14
         ++ match PolyfillsConfig.custom p with Some cs => cs | None => [] end)%list.
Proof.
  intros H p. unfold collectPolyfillConfigs in H. fold p in H.
  peel H u1 l1. peel H u2 l2. peel H u3 l3. peel H u4 l4. peel H u5 l5.
  peel H u6 l6. peel H u7 l7. peel H u8 l8. peel H u9 l9. peel H u10 l10.
  peel H u11 l11. peel H u12 l12. peel H u13 l13. peel H u14 l14.
  unfold customRule, pushAll in H. injection H as <-.
  exists l1, l2, l3, l4, l5, l6, l7, l8, l9, l10, l11, l12, l13, l14.
  repeat (split; [assumption |]). reflexivity.
Qed.

(** The converse: contributions that all return make the collection return. *)
Lemma collect_returns (cfg : PolyfillsLoaderConfig.t)
  (l1 l2 l3 l4 l5 l6 l7 l8 l9 l10 l11 l12 l13 l14 : Configs) :
  let p := polyfillsOf cfg in
  coreJsRule host utils p [] = Returned tt l1 ->
  URLPatternRule host p [] = Returned tt l2 ->
  esModuleShimsRule host p [] = Returned tt l3 ->
  constructibleStylesheetsRule host p [] = Returned tt l4 ->
  regeneratorRuntimeRule host utils p [] = Returned tt l5 ->
  fetchRule host p [] = Returned tt l6 ->
  abortControllerCheck p [] = Returned tt l7 ->
  systemjsRule host utils cfg p [] = Returned tt l8 ->
  dynamicImportRule host p [] = Returned tt l9 ->
  intersectionObserverRule host p [] = Returned tt l10 ->
  resizeObserverRule host p [] = Returned tt l11 ->
  scopedCustomElementRegistryRule host p [] = Returned tt l12 ->
  webcomponentsRule host p [] = Returned tt l13 ->
  shadyCssCustomStyleRule host p [] = Returned tt l14 ->
  collectPolyfillConfigs host utils cfg [] =
  Returned tt
    (l1 ++ l2 ++ l3 ++ l4 ++ l5 ++ l6 ++ l7 ++ l8 ++ l9 ++ l10 ++ l11 ++ l12
     ++ l13 ++ l14
     ++ match PolyfillsConfig.custom p with Some cs => cs | None => [] end)%list.
Proof.
  intros p H1 H2 H3 H4 H5 H6 H7 H8 H9 H10 H11 H12 H13 H14.
  unfold collectPolyfillConfigs. fold p. unfold bind.
  rewrite H1.
  rewrite Appends_URLPatternRule, H2; simpl.
  rewrite Appends_esModuleShimsRule, H3; simpl.
  rewrite Appends_constructibleStylesheetsRule, H4; simpl.
  rewrite Appends_regeneratorRuntimeRule, H5; simpl.
  rewrite Appends_fetchRule, H6; simpl.
  rewrite Appends_abortControllerCheck, H7; simpl.
  rewrite Appends_systemjsRule, H8; simpl.
  rewrite Appends_dynamicImportRule, H9; simpl.
  rewrite Appends_intersectionObserverRule, H10; simpl.
  rewrite Appends_resizeObserverRule, H11; simpl.
  rewrite Appends_scopedCustomElementRegistryRule, H12; simpl.
  rewrite Appends_webcomponentsRule, H13; simpl.
  rewrite Appends_shadyCssCustomStyleRule, H14; simpl.
  unfold customRule, pushAll. repeat rewrite <- app_assoc. reflexivity.
Qed.

(** ** The materialising half *)

Lemma Appends_readPolyfillFileContents (filePath : string) :
  Appends (readPolyfillFileContents host filePath).
Proof.
  unfold readPolyfillFileContents, call.
  destruct (negb (truthy (path_resolve host filePath))); [apply Appends_throw |].
  apply Appends_bind; [apply Appends_push | intros _].
  destruct (fs_node host (path_resolve host filePath));
    repeat first [ apply Appends_throw | apply Appends_ret | apply Appends_push
                 | apply Appends_bind | intro ].
Qed.

Lemma Appends_readAll (paths : list string) : Appends (readAll host paths).
Proof.
  induction paths as [| p rest IH]; simpl; [apply Appends_ret |].
  apply Appends_bind; [apply Appends_readPolyfillFileContents | intros text].
  apply Appends_bind; [exact IH | intros texts; apply Appends_ret].
Qed.

Lemma Appends_readContent (path : PathProp) : Appends (readContent host path).
Proof.
  destruct path; simpl; [apply Appends_readPolyfillFileContents |].
  apply Appends_bind; [apply Appends_readAll | intros; apply Appends_ret].
Qed.

Lemma Appends_minifyContent (pc : PolyfillConfig.t) (content : string) :
  Appends (minifyContent host pc content).
Proof.
  unfold minifyContent. destruct (truthy (PolyfillConfig.minify pc)); [| apply Appends_ret].
  destruct (terser_minify host content); [apply Appends_ret | apply Appends_throw].
Qed.

Lemma Appends_materialize (cfg : PolyfillsLoaderConfig.t) (pc : PolyfillConfig.t) :
  Appends (materialize host utils cfg pc).
Proof.
  unfold materialize.
  destruct (PolyfillConfig.name pc) as [name |]; [| apply Appends_throw].
  destruct (PolyfillConfig.path pc) as [path |]; [| apply Appends_throw].
  destruct (negb (truthy name) || negb (truthy path)); [apply Appends_throw |].
  apply Appends_bind; [apply Appends_readContent | intros content].
  apply Appends_bind; [apply Appends_minifyContent | intros content'; apply Appends_ret].
Qed.

Lemma materialize_at (cfg : PolyfillsLoaderConfig.t) (pc : PolyfillConfig.t) (trace : Trace) :
  materialize host utils cfg pc trace = shift trace (materialize host utils cfg pc []).
Proof. apply Appends_materialize. Qed.

(** The loop returns exactly when every entry produces a file, and then it
    returns those files, in the order of the entries, after the ones it was
    given. *)
Lemma materializeAll_returned (cfg : PolyfillsLoaderConfig.t) (l : Configs) :
  forall (acc files : list PolyfillFile.t) (trace trace' : Trace),
    materializeAll host utils cfg l acc trace = Returned files trace' ->
    exists fs, files = (acc ++ fs)%list /\ Forall2 (produces host utils cfg) l fs.
Proof.
  induction l as [| pc rest IH]; intros acc files trace trace'; simpl.
  - intros [= <- _]. exists []. split; [now rewrite app_nil_r | constructor].
  - unfold bind. rewrite materialize_at.
    destruct (materialize host utils cfg pc []) as [f calls | e calls] eqn:Hpc;
      simpl; [| discriminate].
    intros H. apply IH in H. destruct H as (fs & -> & Hfs).
    exists (f :: fs). split; [now rewrite <- app_assoc |].
    constructor; [now exists calls | exact Hfs].
Qed.

Lemma materializeAll_returns (cfg : PolyfillsLoaderConfig.t) (l : Configs) :
  forall (fs acc : list PolyfillFile.t) (trace : Trace),
    Forall2 (produces host utils cfg) l fs ->
    exists trace', materializeAll host utils cfg l acc trace = Returned (acc ++ fs)%list trace'.
Proof.
  induction l as [| pc rest IH]; intros fs acc trace H; inversion H; subst; simpl.
  - exists trace. now rewrite app_nil_r.
  - match goal with Hp : produces _ _ _ _ _ |- _ => destruct Hp as [calls Hcalls] end.
    unfold bind. rewrite materialize_at, Hcalls. simpl.
    match goal with Hr : Forall2 _ rest _ |- _ =>
      destruct (IH _ (acc ++ [y])%list (trace ++ calls)%list Hr) as [trace' ->] end.
    exists trace'. now rewrite <- app_assoc.
Qed.

(** An entry that fails keeps the loop from returning, wherever it stands. *)
Lemma materializeAll_fails (cfg : PolyfillsLoaderConfig.t) (before after : Configs)
  (pc : PolyfillConfig.t) (e : Error) (acc : list PolyfillFile.t) (trace : Trace) :
  fails host utils cfg pc e ->
  isReturned (materializeAll host utils cfg (before ++ pc :: after) acc trace) = false.
Proof.
  intros [calls Hpc].
  destruct (materializeAll host utils cfg (before ++ pc :: after) acc trace)
    as [files trace' | e' trace'] eqn:H; [| reflexivity].
  apply materializeAll_returned in H. destruct H as (fs & _ & H).
  apply Forall2_app_inv_l in H. destruct H as (fs1 & fs2 & _ & H & _).
  inversion H as [| ? f ? ? [calls' Hf] ?]; subst. congruence.
Qed.

(** When the entries before it all produce their files, the failure of an
    entry is the failure of the loop. *)
Lemma materializeAll_throws (cfg : PolyfillsLoaderConfig.t) (before after : Configs)
  (pc : PolyfillConfig.t) (e : Error) (fs acc : list PolyfillFile.t) (trace : Trace) :
  Forall2 (produces host utils cfg) before fs ->
  fails host utils cfg pc e ->
  exists trace',
    materializeAll host utils cfg (before ++ pc :: after) acc trace = Thrown e trace'.
Proof.
  revert fs acc trace.
  induction before as [| b rest IH]; intros fs acc trace H [calls Hpc];
    inversion H; subst; simpl.
  - unfold bind. rewrite materialize_at, Hpc. simpl. now eexists.
  - match goal with Hp : produces _ _ _ _ _ |- _ => destruct Hp as [calls' Hcalls] end.
    unfold bind. rewrite materialize_at, Hcalls. simpl.
    eapply IH; [eassumption | now exists calls].
Qed.

(** The whole function returns exactly the files of the collected entries. *)
Lemma createPolyfillsData_returned (cfg : PolyfillsLoaderConfig.t)
  (trace trace' : Trace) (files : list PolyfillFile.t) :
  createPolyfillsData host utils cfg trace = Returned files trace' ->
  exists l, collectPolyfillConfigs host utils cfg [] = Returned tt l
            /\ Forall2 (produces host utils cfg) l files.
Proof.
  unfold createPolyfillsData.
  destruct (collectPolyfillConfigs host utils cfg []) as [[] l | e l]; [| discriminate].
  intros H. apply materializeAll_returned in H. destruct H as (fs & -> & H).
  now exists l.
Qed.

Lemma createPolyfillsData_returns (cfg : PolyfillsLoaderConfig.t)
  (trace : Trace) (l : Configs) (files : list PolyfillFile.t) :
  collectPolyfillConfigs host utils cfg [] = Returned tt l ->
  Forall2 (produces host utils cfg) l files ->
  exists trace', createPolyfillsData host utils cfg trace = Returned files trace'.
Proof.
  intros Hl Hfiles. unfold createPolyfillsData. rewrite Hl.
  exact (materializeAll_returns [] trace Hfiles).
Qed.

(** What a returning [readContent], [minifyContent] and loop body did. *)
Lemma minifyContent_returned (pc : PolyfillConfig.t) (raw content : string) (t t' : Trace) :
  minifyContent host pc raw t = Returned content t' ->
  t' = t /\
  (if truthy (PolyfillConfig.minify pc)
   then terser_minify host raw = Some content
   else content = raw).
Proof.
  unfold minifyContent. destruct (truthy (PolyfillConfig.minify pc)).
  - destruct (terser_minify host raw); [| discriminate]. now intros [= -> ->].
  - now intros [= -> ->].
Qed.

Lemma materialize_returned (cfg : PolyfillsLoaderConfig.t) (pc : PolyfillConfig.t)
  (f : PolyfillFile.t) (calls : Trace) :
  materialize host utils cfg pc [] = Returned f calls ->
  exists name path raw,
    PolyfillConfig.name pc = Some name /\ truthy name = true /\
    PolyfillConfig.path pc = Some path /\ truthy path = true /\
    readContent host path [] = Returned raw calls /\
    (if truthy (PolyfillConfig.minify pc)
     then terser_minify host raw = Some (PolyfillFile.content f)
     else PolyfillFile.content f = raw) /\
    f = {| PolyfillFile.name := name;
           PolyfillFile.type :=
             orElse (PolyfillConfig.fileType pc) (fileTypes_SCRIPT utils);
           PolyfillFile.path := outputPath utils cfg name (PolyfillFile.content f);
           PolyfillFile.content := PolyfillFile.content f;
           PolyfillFile.test := PolyfillConfig.test pc;
           PolyfillFile.initializer := PolyfillConfig.initializer pc |}.
Proof.
  unfold materialize.
  destruct (PolyfillConfig.name pc) as [name |]; [| discriminate].
  destruct (PolyfillConfig.path pc) as [path |]; [| discriminate].
  destruct (truthy name) eqn:Hn; [| discriminate].
  destruct (truthy path) eqn:Hp; [| discriminate]. simpl.
  unfold bind.
  destruct (readContent host path []) as [raw t1 | e t1] eqn:Hr; [| discriminate].
  destruct (minifyContent host pc raw t1) as [content t2 | e t2] eqn:Hm; [| discriminate].
  apply minifyContent_returned in Hm. destruct Hm as [-> Hm].
  unfold ret. intros [= <- <-]. simpl.
  exists name, path, raw. repeat split; trivial.
Qed.

(** The entries the rules build have a name and a path, so their file
    carries the entry's name, test and initializer. *)
Lemma produces_entry (cfg : PolyfillsLoaderConfig.t) (pc : PolyfillConfig.t)
  (f : PolyfillFile.t) :
  produces host utils cfg pc f ->
  PolyfillConfig.name pc = Some (PolyfillFile.name f) /\
  PolyfillFile.test f = PolyfillConfig.test pc /\
  PolyfillFile.initializer f = PolyfillConfig.initializer pc /\
  PolyfillFile.path f = outputPath utils cfg (PolyfillFile.name f) (PolyfillFile.content f).
Proof.
  intros [calls H]. apply materialize_returned in H.
  destruct H as (name & path & raw & Hn & _ & _ & _ & _ & _ & ->). simpl. tauto.
Qed.

(** A rule of the shape [if (flag) addPolyfillConfig({ ... require.resolve(r) ... })]. *)
Lemma single_rule_returned (c : bool) (r : string) (mk : string -> PolyfillConfig.t)
  (l : Configs) :
  when c (p <- requireResolve host r ;; addPolyfillConfig (mk p)) [] = Returned tt l ->
  if c then exists p, require_resolve host r = Some p /\ l = [mk p] else l = [].
Proof.
  destruct c; simpl.
  - unfold bind, requireResolve, addPolyfillConfig, push.
    destruct (require_resolve host r) as [p |]; simpl; [| discriminate].
    intros [= <-]. now exists p.
  - now intros [= <-].
Qed.

Lemma single_rule_length (c : bool) (r : string) (mk : string -> PolyfillConfig.t)
  (l : Configs) :
  when c (p <- requireResolve host r ;; addPolyfillConfig (mk p)) [] = Returned tt l ->
  length l = Nat.b2n c.
Proof.
  intros H. apply single_rule_returned in H. destruct c.
  - destruct H as (p & _ & ->). reflexivity.
  - now subst.
Qed.

(** ** C2: the test of the es-module-shims entry *)

(** C2.  When [esModuleShims] is set and the call returns, the file of the
    es-module-shims rule stands right after the files of the two rules ahead
    of it (core-js and URLPattern); it has no test when the flag is the
    string ['always'] and the test ['1'] otherwise. *)
Theorem C2_esModuleShims_test (cfg : PolyfillsLoaderConfig.t)
  (trace trace' : Trace) (files : list PolyfillFile.t) :
  let p := polyfillsOf cfg in
  truthy (PolyfillsConfig.esModuleShims p) = true ->
  createPolyfillsData host utils cfg trace = Returned files trace' ->
  exists before f after,
    files = (before ++ f :: after)%list /\
    length before = Nat.b2n (truthy (PolyfillsConfig.coreJs p))
                    + Nat.b2n (truthy (PolyfillsConfig.URLPattern p)) /\
    PolyfillFile.name f = "es-module-shims" /\
    (PolyfillsConfig.esModuleShims p = Some (JString "always") ->
     PolyfillFile.test f = None) /\
    (PolyfillsConfig.esModuleShims p <> Some (JString "always") ->
     PolyfillFile.test f = Some "1").
Proof.
  intros p Hflag Hrun.
  apply createPolyfillsData_returned in Hrun. destruct Hrun as (l & Hl & Hfiles).
  apply collect_returned in Hl. fold p in Hl.
  destruct Hl as (l1 & l2 & l3 & l4 & l5 & l6 & l7 & l8 & l9 & l10 & l11 & l12
                  & l13 & l14 & H1 & H2 & H3 & _ & _ & _ & _ & _ & _ & _ & _ & _
                  & _ & _ & ->).
  apply single_rule_length in H1. apply single_rule_length in H2.
  apply single_rule_returned in H3. rewrite Hflag in H3. destruct H3 as (src & _ & ->).
  rewrite app_assoc in Hfiles.
  apply Forall2_app_inv_l in Hfiles. destruct Hfiles as (before & rest & Hb & Hrest & ->).
  simpl in Hrest. inversion Hrest as [| e f ? after Hf _]; subst.
  apply produces_entry in Hf. destruct Hf as (Hname & Htest & _).
  exists before, f, after. split; [reflexivity |]. split.
  - rewrite <- (Forall2_length Hb), length_app. now rewrite H1, H2.
  - simpl in Hname, Htest. injection Hname as Hname. split; [now symmetry |].
    rewrite Htest. split.
    + intros ->. reflexivity.
    + intros Hne. unfold notAlways.
      destruct (PolyfillsConfig.esModuleShims p) as [[b | s] |]; try reflexivity.
      destruct (String.eqb_spec s "always") as [-> | _]; [now elim Hne | reflexivity].
Qed.

(** ** C7: the test of the systemjs entry *)

Lemma fetchRule_length (p : PolyfillsConfig.t) (l : Configs) :
  fetchRule host p [] = Returned tt l ->
  length l = Nat.b2n (truthy (PolyfillsConfig.fetch p)).
Proof.
  unfold fetchRule. destruct (truthy (PolyfillsConfig.fetch p)); simpl.
  - unfold bind, requireResolve, addPolyfillConfig, push, ret.
    destruct (truthy (PolyfillsConfig.abortController p));
      repeat match goal with
        | |- context [require_resolve host ?r] => destruct (require_resolve host r)
        end; simpl; try discriminate; now intros [= <-].
  - now intros [= <-].
Qed.

Lemma abortControllerCheck_returned (p : PolyfillsConfig.t) (l : Configs) :
  abortControllerCheck p [] = Returned tt l -> l = [].
Proof.
  unfold abortControllerCheck.
  destruct (truthy (PolyfillsConfig.abortController p)
            && negb (truthy (PolyfillsConfig.fetch p))); simpl;
    [discriminate | now intros [= <-]].
Qed.

Lemma systemjsRule_returned (cfg : PolyfillsLoaderConfig.t) (p : PolyfillsConfig.t)
  (l : Configs) :
  systemjsIncluded utils cfg p = true ->
  systemjsRule host utils cfg p [] = Returned tt l ->
  exists src, l = [entry "systemjs" (OnePath src) (systemjsTest utils cfg)].
Proof.
  unfold systemjsRule. intros ->. simpl.
  unfold bind, requireResolve, addPolyfillConfig, push, ret.
  destruct (truthy (PolyfillsConfig.systemjsExtended p));
    match goal with
    | |- context [require_resolve host ?r] =>
        destruct (require_resolve host r) as [src |]
    end; simpl; try discriminate; intros [= <-]; now exists src.
Qed.

Lemma alwaysLoad_spec (cfg : PolyfillsLoaderConfig.t) :
  alwaysLoad utils cfg = true <-> modernHasSystemjs utils cfg.
Proof.
  unfold alwaysLoad, modernHasSystemjs. split.
  - destruct (PolyfillsLoaderConfig.modern cfg) as [m |]; [| discriminate].
    destruct (ModernEntrypoint.files m) as [fs |] eqn:Hfs; [| discriminate].
    rewrite existsb_exists. intros (f & Hin & Hf).
    apply String.eqb_eq in Hf. now exists m, fs, f.
  - intros (m & fs & f & -> & -> & Hin & Hf). rewrite existsb_exists.
    exists f. split; [exact Hin | now apply String.eqb_eq].
Qed.

(** C7.  When the condition of lines 92-96 holds and the call returns, the
    file of the systemjs rule stands right after the files of the six rules
    ahead of it.  It has no test if a modern file has the systemjs type or
    the configuration has no [legacy]; otherwise its test is the tests of
    the legacy entries joined with [' || ']. *)
Theorem C7_systemjs_test (cfg : PolyfillsLoaderConfig.t)
  (trace trace' : Trace) (files : list PolyfillFile.t) :
  let p := polyfillsOf cfg in
  systemjsIncluded utils cfg p = true ->
  createPolyfillsData host utils cfg trace = Returned files trace' ->
  exists before f after,
    files = (before ++ f :: after)%list /\
    length before = Nat.b2n (truthy (PolyfillsConfig.coreJs p))
                    + Nat.b2n (truthy (PolyfillsConfig.URLPattern p))
                    + Nat.b2n (truthy (PolyfillsConfig.esModuleShims p))
                    + Nat.b2n (truthy (PolyfillsConfig.constructibleStylesheets p))
                    + Nat.b2n (truthy (PolyfillsConfig.regeneratorRuntime p))
                    + Nat.b2n (truthy (PolyfillsConfig.fetch p)) /\
    PolyfillFile.name f = "systemjs" /\
    (modernHasSystemjs utils cfg \/ PolyfillsLoaderConfig.legacy cfg = None ->
     PolyfillFile.test f = None) /\
    (forall ls,
        ~ modernHasSystemjs utils cfg ->
        PolyfillsLoaderConfig.legacy cfg = Some ls ->
        PolyfillFile.test f = Some (join " || " (map LegacyEntrypoint.test ls))).
Proof.
  intros p Hinc Hrun.
  apply createPolyfillsData_returned in Hrun. destruct Hrun as (l & Hl & Hfiles).
  apply collect_returned in Hl. fold p in Hl.
  destruct Hl as (l1 & l2 & l3 & l4 & l5 & l6 & l7 & l8 & l9 & l10 & l11 & l12
                  & l13 & l14 & H1 & H2 & H3 & H4 & H5 & H6 & H7 & H8 & _ & _ & _
                  & _ & _ & _ & ->).
  apply single_rule_length in H1, H2, H3, H4, H5.
  apply fetchRule_length in H6. apply abortControllerCheck_returned in H7. subst l7.
  apply (systemjsRule_returned _ _ Hinc) in H8. destruct H8 as (src & ->).
  replace (l1 ++ l2 ++ l3 ++ l4 ++ l5 ++ l6 ++ [] ++
           [entry "systemjs" (OnePath src) (systemjsTest utils cfg)] ++ l9 ++ l10 ++ l11
           ++ l12 ++ l13 ++ l14
           ++ match PolyfillsConfig.custom p with Some cs => cs | None => [] end)%list
    with ((l1 ++ l2 ++ l3 ++ l4 ++ l5 ++ l6) ++
          entry "systemjs" (OnePath src) (systemjsTest utils cfg) ::
          (l9 ++ l10 ++ l11 ++ l12 ++ l13 ++ l14
           ++ match PolyfillsConfig.custom p with Some cs => cs | None => [] end))%list
    in Hfiles
    by (simpl; repeat rewrite <- app_assoc; reflexivity).
  apply Forall2_app_inv_l in Hfiles. destruct Hfiles as (before & rest & Hb & Hrest & ->).
  inversion Hrest as [| e f ? after Hf _]; subst.
  apply produces_entry in Hf. destruct Hf as (Hname & Htest & _).
  simpl in Hname, Htest. injection Hname as Hname.
  exists before, f, after. split; [reflexivity |]. split.
  - rewrite <- (Forall2_length Hb). repeat rewrite length_app. lia.
  - split; [now symmetry |]. rewrite Htest. unfold systemjsTest. split.
    + intros [Hm | Hnone].
      * apply alwaysLoad_spec in Hm. now rewrite Hm.
      * rewrite Hnone. simpl. now rewrite orb_true_r.
    + intros ls Hm Hls. rewrite Hls.
      destruct (alwaysLoad utils cfg) eqn:Ha; [| reflexivity].
      apply alwaysLoad_spec in Ha. contradiction.
Qed.

(** ** C6: nothing asked for, nothing produced *)

(** C6, as amended.  With no flag set, no custom entry and no declared
    modern or legacy file of the systemjs type, the call returns the empty
    list and touches no file. *)
Theorem C6_nothing_set_nothing_produced (cfg : PolyfillsLoaderConfig.t) (trace : Trace) :
  noFlagSet (polyfillsOf cfg) = true ->
  customEntries (polyfillsOf cfg) = [] ->
  hasFileOfType cfg (fileTypes_SYSTEMJS utils) = false ->
  createPolyfillsData host utils cfg trace = Returned [] trace.
Proof.
  unfold noFlagSet, customEntries. intros Hflags Hcustom Hfiles.
  apply negb_true_iff in Hflags.
  repeat (apply orb_false_iff in Hflags;
          let H := fresh "Hf" in destruct Hflags as [Hflags H]).
  unfold createPolyfillsData, collectPolyfillConfigs.
  unfold coreJsRule, URLPatternRule, esModuleShimsRule, constructibleStylesheetsRule,
    regeneratorRuntimeRule, fetchRule, abortControllerCheck, systemjsRule,
    systemjsIncluded, dynamicImportRule, intersectionObserverRule, resizeObserverRule,
    scopedCustomElementRegistryRule, webcomponentsRule, shadyCssCustomStyleRule,
    customRule.
  rewrite Hflags, Hf, Hf0, Hf1, Hf2, Hf3, Hf4, Hf5, Hf6, Hf7, Hf8, Hf9, Hf10, Hf11, Hf12.
  rewrite Hfiles, Hcustom, andb_false_r. reflexivity.
Qed.

(** ** Reading sources *)

Lemma readPolyfillFileContents_returned (p c : string) (t t' : Trace) :
  readPolyfillFileContents host p t = Returned c t' -> sourceText host p c.
Proof.
  unfold readPolyfillFileContents, sourceText, call, bind, push, ret, throw.
  destruct (negb (truthy (path_resolve host p))); [discriminate |].
  destruct (fs_node host (path_resolve host p)) as [| | text]; try discriminate.
  intros [= <- _]. now exists text.
Qed.

Lemma readAll_returned (ps : list string) :
  forall (cs : list string) (t t' : Trace),
    readAll host ps t = Returned cs t' -> Forall2 (sourceText host) ps cs.
Proof.
  induction ps as [| p rest IH]; intros cs t t'; simpl.
  - intros [= <- _]. constructor.
  - unfold bind.
    destruct (readPolyfillFileContents host p t) as [c t1 | e t1] eqn:Hp; [| discriminate].
    destruct (readAll host rest t1) as [cs' t2 | e t2] eqn:Hrest; [| discriminate].
    intros [= <- _]. constructor.
    + eapply readPolyfillFileContents_returned, Hp.
    + eapply IH, Hrest.
Qed.

(** ** C3 and C4: what the webcomponents flag adds *)

Lemma hasSystemJs_withoutWebcomponents (cfg : PolyfillsLoaderConfig.t) :
  hasSystemJs (withoutWebcomponents cfg) = hasSystemJs cfg.
Proof.
  unfold hasSystemJs, withoutWebcomponents, polyfillsOf. simpl.
  destruct (PolyfillsLoaderConfig.polyfills cfg); reflexivity.
Qed.

Lemma systemjsRule_withoutWebcomponents (cfg : PolyfillsLoaderConfig.t) :
  systemjsRule host utils (withoutWebcomponents cfg) (polyfillsOf (withoutWebcomponents cfg))
  = systemjsRule host utils cfg (polyfillsOf cfg).
Proof.
  unfold systemjsRule, systemjsIncluded.
  rewrite hasSystemJs_withoutWebcomponents. reflexivity.
Qed.

(** Taking the flag away removes the entries of the two webcomponents rules
    (lines 166-195) from the collection and leaves every other entry where
    it was. *)
Lemma collect_withoutWebcomponents (cfg : PolyfillsLoaderConfig.t) (l : Configs) :
  collectPolyfillConfigs host utils cfg [] = Returned tt l ->
  exists before l13 l14,
    webcomponentsRule host (polyfillsOf cfg) [] = Returned tt l13 /\
    shadyCssCustomStyleRule host (polyfillsOf cfg) [] = Returned tt l14 /\
    l = (before ++ (l13 ++ l14) ++ customEntries (polyfillsOf cfg))%list /\
    collectPolyfillConfigs host utils (withoutWebcomponents cfg) []
    = Returned tt (before ++ customEntries (polyfillsOf cfg))%list.
Proof.
  intros Hl. apply collect_returned in Hl.
  destruct Hl as (l1 & l2 & l3 & l4 & l5 & l6 & l7 & l8 & l9 & l10 & l11 & l12
                  & l13 & l14 & H1 & H2 & H3 & H4 & H5 & H6 & H7 & H8 & H9 & H10
                  & H11 & H12 & H13 & H14 & ->).
  exists (l1 ++ l2 ++ l3 ++ l4 ++ l5 ++ l6 ++ l7 ++ l8 ++ l9 ++ l10 ++ l11 ++ l12)%list,
    l13, l14.
  split; [exact H13 |]. split; [exact H14 |]. split.
  - unfold customEntries. repeat rewrite <- app_assoc. reflexivity.
  - rewrite <- systemjsRule_withoutWebcomponents in H8.
    pose proof (@collect_returns (withoutWebcomponents cfg)
                  l1 l2 l3 l4 l5 l6 l7 l8 l9 l10 l11 l12 [] []
                  H1 H2 H3 H4 H5 H6 H7 H8 H9 H10 H11 H12 eq_refl eq_refl) as Hc.
    rewrite Hc. unfold customEntries. simpl. repeat rewrite <- app_assoc. reflexivity.
Qed.

Lemma webcomponentsRule_returned (p : PolyfillsConfig.t) (l : Configs) :
  truthy (PolyfillsConfig.webcomponents p) = true ->
  truthy (PolyfillsConfig.shadyCssCustomStyle p) = false ->
  webcomponentsRule host p [] = Returned tt l ->
  exists src1 src2 test1 test2,
    require_resolve host "@webcomponents/webcomponentsjs/webcomponents-bundle.js"
    = Some src1 /\
    require_resolve host "@webcomponents/webcomponentsjs/custom-elements-es5-adapter.js"
    = Some src2 /\
    l = [entry "webcomponents" (OnePath src1) test1;
         entry "custom-elements-es5-adapter" (OnePath src2) test2].
Proof.
  unfold webcomponentsRule. intros -> ->. simpl.
  unfold bind, requireResolve, addPolyfillConfig, push, ret.
  destruct (require_resolve host "@webcomponents/webcomponentsjs/webcomponents-bundle.js")
    as [src1 |]; simpl; [| discriminate].
  destruct (require_resolve host
              "@webcomponents/webcomponentsjs/custom-elements-es5-adapter.js")
    as [src2 |]; simpl; [| discriminate].
  intros [= <-]. now eexists src1, src2, _, _.
Qed.

Lemma shadyCssCustomStyleRule_returned (p : PolyfillsConfig.t) (l : Configs) :
  truthy (PolyfillsConfig.webcomponents p) = true ->
  truthy (PolyfillsConfig.shadyCssCustomStyle p) = true ->
  shadyCssCustomStyleRule host p [] = Returned tt l ->
  exists src1 src2 src3 test,
    require_resolve host "@webcomponents/webcomponentsjs/webcomponents-bundle.js"
    = Some src1 /\
    require_resolve host "@webcomponents/shadycss/custom-style-interface.min.js"
    = Some src2 /\
    require_resolve host "shady-css-scoped-element/shady-css-scoped-element.min.js"
    = Some src3 /\
    l = [entry "webcomponents-shady-css-custom-style" (ManyPaths [src1; src2; src3]) test].
Proof.
  unfold shadyCssCustomStyleRule. intros -> ->. simpl.
  unfold bind, requireResolve, addPolyfillConfig, push, ret.
  destruct (require_resolve host "@webcomponents/webcomponentsjs/webcomponents-bundle.js")
    as [src1 |]; simpl; [| discriminate].
  destruct (require_resolve host "@webcomponents/shadycss/custom-style-interface.min.js")
    as [src2 |]; simpl; [| discriminate].
  destruct (require_resolve host
              "shady-css-scoped-element/shady-css-scoped-element.min.js")
    as [src3 |]; simpl; [| discriminate].
  intros [= <-]. now eexists src1, src2, src3, _.
Qed.

Lemma webcomponentsRule_skipped (p : PolyfillsConfig.t) (l : Configs) :
  truthy (PolyfillsConfig.shadyCssCustomStyle p) = true ->
  webcomponentsRule host p [] = Returned tt l -> l = [].
Proof.
  unfold webcomponentsRule. intros ->. rewrite andb_false_r. now intros [= <-].
Qed.

Lemma shadyCssCustomStyleRule_skipped (p : PolyfillsConfig.t) (l : Configs) :
  truthy (PolyfillsConfig.shadyCssCustomStyle p) = false ->
  shadyCssCustomStyleRule host p [] = Returned tt l -> l = [].
Proof.
  unfold shadyCssCustomStyleRule. intros ->. rewrite andb_false_r. now intros [= <-].
Qed.

Lemma readContent_returned (path : PathProp) (raw : string) (t t' : Trace) :
  readContent host path t = Returned raw t' ->
  match path with
  | OnePath p => sourceText host p raw
  | ManyPaths ps => exists cs, Forall2 (sourceText host) ps cs /\ raw = join "" cs
  end.
Proof.
  destruct path as [p | ps]; simpl.
  - apply readPolyfillFileContents_returned.
  - unfold bind. destruct (readAll host ps t) as [cs t1 | e t1] eqn:H; [| discriminate].
    intros [= <- _]. exists cs. split; [eapply readAll_returned, H | reflexivity].
Qed.

(** The file of an entry built by [entry]: not minified, so its content is
    what was read. *)
Lemma produces_plain_entry (cfg : PolyfillsLoaderConfig.t) (name : string)
  (path : PathProp) (test : option string) (f : PolyfillFile.t) :
  produces host utils cfg (entry name path test) f ->
  PolyfillFile.name f = name /\
  PolyfillFile.test f = test /\
  match path with
  | OnePath p => sourceText host p (PolyfillFile.content f)
  | ManyPaths ps => exists cs, Forall2 (sourceText host) ps cs /\ PolyfillFile.content f = join "" cs
  end.
Proof.
  intros [calls H]. apply materialize_returned in H.
  destruct H as (n & pth & raw & Hn & _ & Hp & _ & Hread & Hmin & ->).
  simpl in *. injection Hn as <-. injection Hp as <-. subst raw.
  split; [reflexivity |]. split; [reflexivity |].
  eapply readContent_returned, Hread.
Qed.

(** C4.  With [webcomponents] set and [shadyCssCustomStyle] not set, a call
    that returns has exactly two adjacent files more than the call on the
    same configuration without the flag, and the same files otherwise: the
    file [webcomponents], read from the webcomponents bundle, directly
    followed by the file [custom-elements-es5-adapter], read from the ES5
    adapter. *)
Theorem C4_webcomponents_two_files (cfg : PolyfillsLoaderConfig.t)
  (trace trace' : Trace) (files : list PolyfillFile.t) :
  let p := polyfillsOf cfg in
  truthy (PolyfillsConfig.webcomponents p) = true ->
  truthy (PolyfillsConfig.shadyCssCustomStyle p) = false ->
  createPolyfillsData host utils cfg trace = Returned files trace' ->
  exists before core adapter after,
    files = (before ++ core :: adapter :: after)%list /\
    (exists t, createPolyfillsData host utils (withoutWebcomponents cfg) trace
               = Returned (before ++ after)%list t) /\
    PolyfillFile.name core = "webcomponents" /\
    PolyfillFile.name adapter = "custom-elements-es5-adapter" /\
    (exists src,
        require_resolve host "@webcomponents/webcomponentsjs/webcomponents-bundle.js"
        = Some src /\ sourceText host src (PolyfillFile.content core)) /\
    (exists src,
        require_resolve host "@webcomponents/webcomponentsjs/custom-elements-es5-adapter.js"
        = Some src /\ sourceText host src (PolyfillFile.content adapter)).
Proof.
  intros p Hwc Hshady Hrun.
  apply createPolyfillsData_returned in Hrun. destruct Hrun as (l & Hl & Hfiles).
  apply collect_withoutWebcomponents in Hl. fold p in Hl.
  destruct Hl as (cb & l13 & l14 & H13 & H14 & -> & Hwithout).
  apply (webcomponentsRule_returned _ Hwc Hshady) in H13.
  destruct H13 as (src1 & src2 & test1 & test2 & Hsrc1 & Hsrc2 & ->).
  apply (shadyCssCustomStyleRule_skipped _ Hshady) in H14. subst l14.
  apply Forall2_app_inv_l in Hfiles. destruct Hfiles as (before & rest & Hb & Hrest & ->).
  apply Forall2_app_inv_l in Hrest. destruct Hrest as (mid & after & Hmid & Ha & ->).
  simpl in Hmid.
  inversion Hmid as [| e1 core ? mid' Hcore Hmid']; subst.
  inversion Hmid' as [| e2 adapter ? mid'' Hadapter Hnil]; subst.
  inversion Hnil; subst.
  apply produces_plain_entry in Hcore, Hadapter.
  destruct Hcore as (Hn1 & _ & Hc1). destruct Hadapter as (Hn2 & _ & Hc2).
  exists before, core, adapter, after. split; [reflexivity |]. split.
  - eapply createPolyfillsData_returns; [exact Hwithout |].
    apply Forall2_app; [exact Hb | exact Ha].
  - repeat split; trivial; [now exists src1 | now exists src2].
Qed.

(** C3.  With [webcomponents] and [shadyCssCustomStyle] both set, a call
    that returns has exactly one file more than the call on the same
    configuration without the [webcomponents] flag, and the same files
    otherwise: the file [webcomponents-shady-css-custom-style], whose content
    is the texts read from the webcomponents bundle, the custom-style
    interface and the scoped shady-css element, in this order, with nothing
    between them. *)
Theorem C3_shadyCssCustomStyle_one_file (cfg : PolyfillsLoaderConfig.t)
  (trace trace' : Trace) (files : list PolyfillFile.t) :
  let p := polyfillsOf cfg in
  truthy (PolyfillsConfig.webcomponents p) = true ->
  truthy (PolyfillsConfig.shadyCssCustomStyle p) = true ->
  createPolyfillsData host utils cfg trace = Returned files trace' ->
  exists before wc after,
    files = (before ++ wc :: after)%list /\
    (exists t, createPolyfillsData host utils (withoutWebcomponents cfg) trace
               = Returned (before ++ after)%list t) /\
    PolyfillFile.name wc = "webcomponents-shady-css-custom-style" /\
    exists src1 src2 src3 c1 c2 c3,
      require_resolve host "@webcomponents/webcomponentsjs/webcomponents-bundle.js"
      = Some src1 /\
      require_resolve host "@webcomponents/shadycss/custom-style-interface.min.js"
      = Some src2 /\
      require_resolve host "shady-css-scoped-element/shady-css-scoped-element.min.js"
      = Some src3 /\
      sourceText host src1 c1 /\ sourceText host src2 c2 /\ sourceText host src3 c3 /\
      PolyfillFile.content wc = c1 ++ c2 ++ c3.
Proof.
  intros p Hwc Hshady Hrun.
  apply createPolyfillsData_returned in Hrun. destruct Hrun as (l & Hl & Hfiles).
  apply collect_withoutWebcomponents in Hl. fold p in Hl.
  destruct Hl as (cb & l13 & l14 & H13 & H14 & -> & Hwithout).
  apply (webcomponentsRule_skipped _ Hshady) in H13. subst l13.
  apply (shadyCssCustomStyleRule_returned _ Hwc Hshady) in H14.
  destruct H14 as (src1 & src2 & src3 & test & Hsrc1 & Hsrc2 & Hsrc3 & ->).
  apply Forall2_app_inv_l in Hfiles. destruct Hfiles as (before & rest & Hb & Hrest & ->).
  apply Forall2_app_inv_l in Hrest. destruct Hrest as (mid & after & Hmid & Ha & ->).
  simpl in Hmid.
  inversion Hmid as [| e wc ? mid' Hwcf Hnil]; subst. inversion Hnil; subst.
  apply produces_plain_entry in Hwcf. destruct Hwcf as (Hn & _ & cs & Hcs & Hcontent).
  inversion Hcs as [| ? c1 ? cs1 Hc1 Hcs1]; subst.
  inversion Hcs1 as [| ? c2 ? cs2 Hc2 Hcs2]; subst.
  inversion Hcs2 as [| ? c3 ? cs3 Hc3 Hcs3]; subst.
  inversion Hcs3; subst.
  exists before, wc, after. split; [reflexivity |]. split.
  - eapply createPolyfillsData_returns; [exact Hwithout |].
    apply Forall2_app; [exact Hb | exact Ha].
  - split; [exact Hn |].
    exists src1, src2, src3, c1, c2, c3. repeat split; trivial.
Qed.

(** ** C8 and C9: an entry that cannot be materialised *)

Lemma createPolyfillsData_entry_fails (cfg : PolyfillsLoaderConfig.t) (trace : Trace)
  (before after : Configs) (pc : PolyfillConfig.t) (e : Error) :
  collectPolyfillConfigs host utils cfg [] = Returned tt (before ++ pc :: after)%list ->
  fails host utils cfg pc e ->
  isReturned (createPolyfillsData host utils cfg trace) = false /\
  (forall fs, Forall2 (produces host utils cfg) before fs ->
              exists trace', createPolyfillsData host utils cfg trace = Thrown e trace').
Proof.
  intros Hl Hfails. unfold createPolyfillsData. rewrite Hl. split.
  - eapply materializeAll_fails, Hfails.
  - intros fs Hfs. eapply materializeAll_throws; eassumption.
Qed.

(** C8.  Take an entry that reaches the loop with a name, a path and the
    [minify] flag, whose sources can be read, and on whose concatenated text
    the minifier fails.  Then the call does not return a list, and once the
    entries ahead of it have produced their files it throws the minifier's
    error: the text as read is never used in its place. *)
Theorem C8_minify_failure_is_fatal (cfg : PolyfillsLoaderConfig.t) (trace : Trace)
  (before after : Configs) (pc : PolyfillConfig.t)
  (name : string) (path : PathProp) (raw : string) (calls : Trace) :
  collectPolyfillConfigs host utils cfg [] = Returned tt (before ++ pc :: after)%list ->
  PolyfillConfig.name pc = Some name -> truthy name = true ->
  PolyfillConfig.path pc = Some path -> truthy path = true ->
  truthy (PolyfillConfig.minify pc) = true ->
  readContent host path [] = Returned raw calls ->
  terser_minify host raw = None ->
  isReturned (createPolyfillsData host utils cfg trace) = false /\
  (forall fs, Forall2 (produces host utils cfg) before fs ->
              exists trace',
                createPolyfillsData host utils cfg trace = Thrown (MinifyFailed raw) trace').
Proof.
  intros Hl Hn Hnt Hp Hpt Hmin Hread Hterser.
  apply createPolyfillsData_entry_fails with (1 := Hl).
  exists calls. unfold materialize, bind, minifyContent.
  rewrite Hn, Hp, Hnt, Hpt. simpl. rewrite Hread, Hmin, Hterser. reflexivity.
Qed.

(** C9, as amended.  An entry that reaches the loop with its name absent or
    empty, or its path absent or the empty string, keeps the call from
    returning a list, whatever the other entries are; once the entries ahead
    of it have produced their files the call throws the error of line 220. *)
Theorem C9_missing_name_or_path (cfg : PolyfillsLoaderConfig.t) (trace : Trace)
  (before after : Configs) (pc : PolyfillConfig.t) :
  collectPolyfillConfigs host utils cfg [] = Returned tt (before ++ pc :: after)%list ->
  truthy (PolyfillConfig.name pc) = false \/ truthy (PolyfillConfig.path pc) = false ->
  isReturned (createPolyfillsData host utils cfg trace) = false /\
  (forall fs, Forall2 (produces host utils cfg) before fs ->
              exists trace',
                createPolyfillsData host utils cfg trace = Thrown NameOrPathMissing trace').
Proof.
  intros Hl Hbad. apply createPolyfillsData_entry_fails with (1 := Hl).
  exists []. unfold materialize.
  destruct (PolyfillConfig.name pc) as [name |]; [| reflexivity].
  destruct (PolyfillConfig.path pc) as [path |]; [| reflexivity].
  change (truthy name = false \/ truthy path = false) in Hbad.
  destruct Hbad as [-> | ->]; [reflexivity |].
  now rewrite orb_true_r.
Qed.

(** The check of line 219 is a truthiness check: an empty array of sources
    passes it. *)
Lemma empty_sources_truthy : truthy (Some (ManyPaths [])) = true.
Proof. reflexivity. Qed.

End EngineFacts.

(** ** Lines of a text *)

Lemma split_not_nil (sep : ascii) (s : string) : split sep s <> [].
Proof.
  destruct s as [| c rest]; simpl; [discriminate |].
  destruct (Ascii.eqb c sep); [discriminate |].
  destruct (split sep rest); discriminate.
Qed.

Lemma split_without_sep (sep : ascii) (s : string) :
  contains sep s = false -> split sep s = [s].
Proof.
  induction s as [| c rest IH]; simpl; [reflexivity |].
  intros H. apply orb_false_iff in H. destruct H as [Hc Hrest].
  rewrite Hc, (IH Hrest). reflexivity.
Qed.

Lemma split_app_sep (sep : ascii) (x r : string) :
  contains sep x = false -> split sep (x ++ String sep r) = x :: split sep r.
Proof.
  induction x as [| c rest IH]; simpl.
  - intros _. now rewrite Ascii.eqb_refl.
  - intros H. apply orb_false_iff in H. destruct H as [Hc Hrest].
    rewrite Hc, (IH Hrest). reflexivity.
Qed.

(** No line of a text contains the separator. *)
Lemma split_lines_without_sep (sep : ascii) (s : string) :
  Forall (fun line => contains sep line = false) (split sep s).
Proof.
  induction s as [| c rest IH]; simpl.
  - repeat constructor.
  - destruct (Ascii.eqb c sep) eqn:Hc.
    + constructor; [reflexivity | exact IH].
    + destruct (split sep rest) as [| line lines]; inversion IH; subst;
        constructor; simpl; try rewrite Hc; auto.
Qed.

(** Joining lines that contain no separator and splitting again gives the
    lines back. *)
Lemma split_join (sep : ascii) (lines : list string) :
  lines <> [] ->
  Forall (fun line => contains sep line = false) lines ->
  split sep (join (String sep EmptyString) lines) = lines.
Proof.
  induction lines as [| x rest IH]; [congruence |].
  intros _ H. inversion H as [| ? ? Hx Hrest]; subst.
  destruct rest as [| y rest'].
  - simpl. now apply split_without_sep.
  - change (join (String sep EmptyString) (x :: y :: rest'))
      with (x ++ String sep (join (String sep EmptyString) (y :: rest'))).
    rewrite split_app_sep by exact Hx.
    f_equal. apply IH; [discriminate | exact Hrest].
Qed.

(** Splitting a text and joining its lines gives the text back. *)
Lemma join_split (sep : ascii) (s : string) :
  join (String sep EmptyString) (split sep s) = s.
Proof.
  induction s as [| c rest IH]; simpl; [reflexivity |].
  destruct (Ascii.eqb_spec c sep) as [-> | Hne].
  - pose proof (split_not_nil sep rest) as Hnil.
    destruct (split sep rest) as [| line lines] eqn:Hs; [congruence |].
    change (join (String sep EmptyString) ("" :: line :: lines))
      with (String sep (join (String sep EmptyString) (line :: lines))).
    now rewrite IH.
  - pose proof (split_not_nil sep rest) as Hnil.
    destruct (split sep rest) as [| line lines] eqn:Hs; [congruence |].
    rewrite <- IH. destruct lines; reflexivity.
Qed.

(** ** C10: source-map lines *)

Lemma setAt_middle (v x : string) (l tail : list string) :
  setAt (length l) v (l ++ x :: tail)%list = (l ++ v :: tail)%list.
Proof. induction l as [| y l IH]; simpl; [reflexivity | now rewrite IH]. Qed.

(** The loop, run over a prefix of the array, blanks that prefix line by
    line and leaves the rest alone. *)
Lemma blankSourceMapLines_prefix (l : list string) :
  forall tail,
    blankSourceMapLines (length l) (l ++ tail)%list = (map blankLine l ++ tail)%list.
Proof.
  induction l as [| x l IH] using rev_ind; intros tail; [reflexivity |].
  rewrite length_app, Nat.add_1_r. simpl.
  rewrite <- app_assoc. simpl. rewrite nth_middle, setAt_middle.
  rewrite map_app, <- app_assoc. simpl.
  fold (blankLine x).
  replace (if startsWith x sourceMappingURL
           then (l ++ "" :: tail)%list else (l ++ x :: tail)%list)
    with (l ++ blankLine x :: tail)%list
    by (unfold blankLine; now destruct (startsWith x sourceMappingURL)).
  apply IH.
Qed.

Lemma blankSourceMapLines_map (l : list string) :
  blankSourceMapLines (length l) l = map blankLine l.
Proof.
  rewrite <- (app_nil_r l) at 2. rewrite blankSourceMapLines_prefix. apply app_nil_r.
Qed.

Lemma removeSourceMapUrl_lines (text : string) :
  split newline (removeSourceMapUrl text) = map blankLine (split newline text).
Proof.
  unfold removeSourceMapUrl. rewrite blankSourceMapLines_map.
  apply split_join.
  - pose proof (split_not_nil newline text). destruct (split newline text); [congruence |].
    discriminate.
  - apply Forall_map. eapply Forall_impl; [| apply split_lines_without_sep].
    intros line H. unfold blankLine. now destruct (startsWith line sourceMappingURL).
Qed.

(** Joining with the empty separator is plain concatenation. *)
Lemma join_empty (l : list string) : join "" l = fold_right String.append "" l.
Proof.
  induction l as [| x rest IH]; [reflexivity |].
  destruct rest as [| y rest']; simpl in *.
  - clear IH. induction x as [| c x IHx]; simpl; [reflexivity | now rewrite <- IHx].
  - now rewrite <- IH.
Qed.

Section SourceMaps.

Context (host : Host).

(** C10.  The text returned for a source is the text of its file in which
    every line that starts with [//# sourceMappingURL], wherever it stands,
    has become the empty line: the lines are as many as before, and each
    other line is unchanged at its place.  The texts of several sources are
    appended to each other with nothing between them. *)
Theorem C10_source_map_lines_blanked :
  (forall text,
      let before := split newline text in
      let after := split newline (removeSourceMapUrl text) in
      length after = length before /\
      forall i, nth i after "" =
                if startsWith (nth i before "") sourceMappingURL then ""
                else nth i before "") /\
  (forall filePath content t t',
      readPolyfillFileContents host filePath t = Returned content t' ->
      exists text,
        fs_node host (path_resolve host filePath) = RegularFile text /\
        content = removeSourceMapUrl text) /\
  (forall filePaths content t t',
      readContent host (ManyPaths filePaths) t = Returned content t' ->
      exists texts,
        Forall2 (sourceText host) filePaths texts /\
        content = fold_right String.append "" texts).
Proof.
  split; [| split].
  - intros text before after. subst before after.
    rewrite removeSourceMapUrl_lines. split; [apply length_map |].
    intros i. change "" with (blankLine "") at 1. now rewrite map_nth.
  - intros filePath content t t' H.
    eapply readPolyfillFileContents_returned, H.
  - intros filePaths content t t' H.
    apply readContent_returned in H. destruct H as (texts & Htexts & ->).
    exists texts. split; [exact Htexts | apply join_empty].
Qed.

End SourceMaps.

(** A directive in the middle of a file is blanked like one at its end, and
    the line it stood on remains. *)
Example removeSourceMapUrl_middle :
  removeSourceMapUrl
    ("a();" ++ String newline "//# sourceMappingURL=a.js.map"
     ++ String newline "b();" ++ String newline "//# sourceMappingURL=b.js.map")
  = "a();" ++ String newline "" ++ String newline "b();" ++ String newline "".
Proof. reflexivity. Qed.

(** ** Strings and normalised paths *)

Lemma append_assoc (a b c : string) : (a ++ b) ++ c = a ++ b ++ c.
Proof. induction a as [| x a IH]; simpl; [reflexivity | now rewrite IH]. Qed.

Lemma append_nil_r (a : string) : a ++ "" = a.
Proof. induction a as [| x a IH]; simpl; [reflexivity | now rewrite IH]. Qed.

Lemma append_length (a b : string) :
  String.length (a ++ b) = String.length a + String.length b.
Proof. induction a as [| x a IH]; simpl; [reflexivity | now rewrite IH]. Qed.




Lemma onlyDots_append (a b : string) : onlyDots (a ++ b) = onlyDots a && onlyDots b.
Proof.
  induction a as [| c a IH]; simpl; [reflexivity |]. now rewrite IH, andb_assoc.
Qed.

Lemma plainSegment_not_onlyDots (h : string) : plainSegment h = true -> onlyDots h = false.
Proof.
  unfold plainSegment. destruct h as [| c h]; simpl; [discriminate |].
  intros H. apply andb_true_iff in H. destruct H as [_ H].
  apply negb_true_iff, orb_false_iff in H. destruct H as [-> _]. reflexivity.
Qed.

(** A segment that ends with a plain one is kept by the normaliser. *)
Lemma normalizeStep_plain (allowAboveRoot : bool) (res : list string) (L h : string) :
  plainSegment h = true ->
  normalizeStep allowAboveRoot res (L ++ h) = (L ++ h) :: res.
Proof.
  intros Hh. pose proof (plainSegment_not_onlyDots _ Hh) as Hd.
  assert (Hne : forall s, onlyDots s = true -> (L ++ h =? s) = false).
  { intros s Hs. apply String.eqb_neq. intros Heq.
    rewrite <- Heq, onlyDots_append, Hd, andb_false_r in Hs. discriminate. }
  unfold normalizeStep.
  rewrite (Hne "" eq_refl), (Hne "." eq_refl), (Hne ".." eq_refl). reflexivity.
Qed.





(** For a plain directory and a name without slash nothing is normalised
    away: the prefix is the directory, a slash and the name. *)
Lemma normalizedPrefix_plain (d n : string) :
  plainSegment d = true ->
  contains slash n = false ->
  normalizedPrefix (d ++ "/" ++ n) = d ++ "/" ++ n.
Proof.
  intros Hd Hn.
  assert (Hsep : contains slash d = false).
  { unfold plainSegment in Hd. apply andb_true_iff in Hd. destruct Hd as [Hd' _].
    apply andb_true_iff in Hd'. destruct Hd' as [_ Hd']. now apply negb_true_iff in Hd'. }
  pose proof (@normalizeStep_plain true [] "" d Hd) as Hstep. simpl in Hstep.
  destruct d as [| c d']; [discriminate |].
  unfold normalizedPrefix.
  change (String c d' ++ "/" ++ n) with (String c (d' ++ String slash n)).
  change (String c (d' ++ String slash n)) with (String c d' ++ String slash n).
  rewrite (@split_app_sep slash (String c d') n Hsep).
  rewrite (@split_without_sep slash n Hn).
  simpl in Hsep. apply orb_false_iff in Hsep. destruct Hsep as [Hc _].
  simpl removelast. simpl last. simpl fold_left.
  change (String c d' ++ String slash n) with (String c (d' ++ String slash n)).
  cbv beta iota. rewrite Hc. simpl negb. rewrite Hstep. simpl.
  now rewrite append_assoc.
Qed.

Lemma contains_append (c : ascii) (a b : string) :
  contains c (a ++ b) = contains c a || contains c b.
Proof.
  induction a as [| x a IH]; simpl; [reflexivity |]. now rewrite IH, orb_assoc.
Qed.

Lemma plainSegment_without_slash (s : string) :
  plainSegment s = true -> contains slash s = false.
Proof.
  unfold plainSegment. intros H. apply andb_true_iff in H. destruct H as [H _].
  apply andb_true_iff in H. destruct H as [_ H]. now apply negb_true_iff in H.
Qed.










Example normalizedPath_relative : normalizedPath "polyfills/core-js.min.0a1b" = true.
Proof. reflexivity. Qed.

Example normalizedPath_absolute : normalizedPath "/var/www/polyfills/fetch.0a1b" = true.
Proof. reflexivity. Qed.

Example normalizedPath_parent : normalizedPath "../dist/polyfills/fetch.0a1b" = true.
Proof. reflexivity. Qed.

Example normalizedPath_dot : normalizedPath "./polyfills/fetch.0a1b" = false.
Proof. reflexivity. Qed.

Example normalizedPath_doubled_slash : normalizedPath "polyfills//fetch.0a1b" = false.
Proof. reflexivity. Qed.

Example posix_join_parent :
  posix_join "../dist" "core-js.min.0a1b" = "../dist/core-js.min.0a1b".
Proof. reflexivity. Qed.

Example posix_join_dot : posix_join "./dist/" "core-js.min.0a1b" = "dist/core-js.min.0a1b".
Proof. reflexivity. Qed.

(** ** C5: the output path *)

Section OutputPaths.

Context (utils : Utils).




End OutputPaths.

(** * The theorems at sample inputs *)

(** With the packages installed the error is the one of line 86, and no file
    was touched; with no package installed the call still throws before any
    file is touched. *)
Lemma C1_abortController_without_fetch_witness :
  createPolyfillsData sampleHost sampleUtils abortOnly []
  = Thrown AbortControllerWithoutFetch [] /\
  exists e, createPolyfillsData bareHost sampleUtils abortOnly [] = Thrown e [].
Proof.
  split.
  - exact (proj2 (@C1_abortController_without_fetch sampleHost sampleUtils abortOnly []
                    eq_refl eq_refl) eq_refl).
  - exact (proj1 (@C1_abortController_without_fetch bareHost sampleUtils abortOnly []
                    eq_refl eq_refl)).
Defined.

(** [esModuleShims: 'always'] after [coreJs]: the second file, without test. *)
Lemma C2_esModuleShims_test_witness :
  exists before f after,
    filesOf (createPolyfillsData sampleHost sampleUtils shimsAlways [])
    = (before ++ f :: after)%list /\
    length before = 1 /\
    PolyfillFile.name f = "es-module-shims" /\
    PolyfillFile.test f = None.
Proof.
  destruct (@C2_esModuleShims_test sampleHost sampleUtils shimsAlways []
              (stateOf (createPolyfillsData sampleHost sampleUtils shimsAlways []))
              (filesOf (createPolyfillsData sampleHost sampleUtils shimsAlways []))
              eq_refl eq_refl)
    as (before & f & after & H1 & H2 & H3 & H4 & _).
  exists before, f, after.
  split; [exact H1 |]. split; [exact H2 |]. split; [exact H3 | exact (H4 eq_refl)].
Defined.

(** [webcomponents] and [shadyCssCustomStyle]: one file for the three sources. *)
Lemma C3_shadyCssCustomStyle_one_file_witness :
  exists before wc after,
    filesOf (createPolyfillsData sampleHost sampleUtils webcomponentsShady [])
    = (before ++ wc :: after)%list /\
    filesOf (createPolyfillsData sampleHost sampleUtils
               (withoutWebcomponents webcomponentsShady) [])
    = (before ++ after)%list /\
    PolyfillFile.name wc = "webcomponents-shady-css-custom-style".
Proof.
  destruct (@C3_shadyCssCustomStyle_one_file sampleHost sampleUtils webcomponentsShady []
              (stateOf (createPolyfillsData sampleHost sampleUtils webcomponentsShady []))
              (filesOf (createPolyfillsData sampleHost sampleUtils webcomponentsShady []))
              eq_refl eq_refl eq_refl)
    as (before & wc & after & H1 & (t & H2) & H3 & _).
  exists before, wc, after.
  split; [exact H1 |]. split; [now rewrite H2 | exact H3].
Defined.

(** [webcomponents] alone: the bundle, then the adapter. *)
Lemma C4_webcomponents_two_files_witness :
  exists before core adapter after,
    filesOf (createPolyfillsData sampleHost sampleUtils webcomponentsOnly [])
    = (before ++ core :: adapter :: after)%list /\
    filesOf (createPolyfillsData sampleHost sampleUtils
               (withoutWebcomponents webcomponentsOnly) [])
    = (before ++ after)%list /\
    PolyfillFile.name core = "webcomponents" /\
    PolyfillFile.name adapter = "custom-elements-es5-adapter".
Proof.
  destruct (@C4_webcomponents_two_files sampleHost sampleUtils webcomponentsOnly []
              (stateOf (createPolyfillsData sampleHost sampleUtils webcomponentsOnly []))
              (filesOf (createPolyfillsData sampleHost sampleUtils webcomponentsOnly []))
              eq_refl eq_refl eq_refl)
    as (before & core & adapter & after & H1 & (t & H2) & H3 & H4 & _).
  exists before, core, adapter, after.
  split; [exact H1 |]. split; [now rewrite H2 |]. split; [exact H3 | exact H4].
Defined.






(** With hashing off the text of the source changes and the path stays. *)
Example unhashed_path_stable :
  createPolyfillsData (hostWithShim "a();") sampleUtils unhashedShim []
  = Returned [fileOf "shim" "polyfills/shim.js" "a();"]
      [ExistsSync "/src/shim.js"; StatSync "/src/shim.js"; ReadFileSync "/src/shim.js"] /\
  createPolyfillsData (hostWithShim "b();b();") sampleUtils unhashedShim []
  = Returned [fileOf "shim" "polyfills/shim.js" "b();b();"]
      [ExistsSync "/src/shim.js"; StatSync "/src/shim.js"; ReadFileSync "/src/shim.js"].
Proof. split; reflexivity. Qed.

(** The empty configuration. *)
Lemma C6_nothing_set_nothing_produced_witness :
  createPolyfillsData sampleHost sampleUtils emptyConfig [] = Returned [] [].
Proof.
  exact (@C6_nothing_set_nothing_produced sampleHost sampleUtils emptyConfig []
           eq_refl eq_refl eq_refl).
Defined.

(** C6 as first stated does not hold on a build with a systemjs file: no
    flag is set, no custom entry is given, and the list has the systemjs
    file. *)
Lemma C6_counterexample :
  noFlagSet (polyfillsOf systemjsBuild) = true /\
  customEntries (polyfillsOf systemjsBuild) = [] /\
  createPolyfillsData sampleHost sampleUtils systemjsBuild []
  = Returned
      [fileOf "systemjs" "polyfills/systemjs.40.js"
         "/*/node_modules/systemjs/dist/s.min.js*/"]
      [ExistsSync "/node_modules/systemjs/dist/s.min.js";
       StatSync "/node_modules/systemjs/dist/s.min.js";
       ReadFileSync "/node_modules/systemjs/dist/s.min.js"].
Proof. repeat split; reflexivity. Qed.

(** [systemjs] with two legacy entries and no modern file. *)
Lemma C7_systemjs_test_witness :
  exists before f after,
    filesOf (createPolyfillsData sampleHost sampleUtils systemjsLegacy [])
    = (before ++ f :: after)%list /\
    length before = 1 /\
    PolyfillFile.name f = "systemjs" /\
    PolyfillFile.test f = Some "a || b".
Proof.
  destruct (@C7_systemjs_test sampleHost sampleUtils systemjsLegacy []
              (stateOf (createPolyfillsData sampleHost sampleUtils systemjsLegacy []))
              (filesOf (createPolyfillsData sampleHost sampleUtils systemjsLegacy []))
              eq_refl eq_refl)
    as (before & f & after & H1 & H2 & H3 & _ & H5).
  exists before, f, after.
  split; [exact H1 |]. split; [exact H2 |]. split; [exact H3 |].
  apply (H5 legacyAB); [| reflexivity].
  intros (m & fs & file & Hm & _). discriminate Hm.
Defined.

(** [fetch] is minified; with a minifier that rejects, the call throws. *)
Lemma C8_minify_failure_is_fatal_witness :
  isReturned (createPolyfillsData rejectingHost sampleUtils fetchOnly []) = false /\
  exists trace',
    createPolyfillsData rejectingHost sampleUtils fetchOnly []
    = Thrown (MinifyFailed "/*/node_modules/whatwg-fetch/dist/fetch.umd.js*/") trace'.
Proof.
  destruct (@C8_minify_failure_is_fatal rejectingHost sampleUtils fetchOnly [] [] []
              (withMinify (entry "fetch"
                             (ManyPaths ["/node_modules/whatwg-fetch/dist/fetch.umd.js"])
                             (Some "!('fetch' in window)")))
              "fetch" (ManyPaths ["/node_modules/whatwg-fetch/dist/fetch.umd.js"])
              "/*/node_modules/whatwg-fetch/dist/fetch.umd.js*/"
              [ExistsSync "/node_modules/whatwg-fetch/dist/fetch.umd.js";
               StatSync "/node_modules/whatwg-fetch/dist/fetch.umd.js";
               ReadFileSync "/node_modules/whatwg-fetch/dist/fetch.umd.js"]
              eq_refl eq_refl eq_refl eq_refl eq_refl eq_refl eq_refl eq_refl)
    as [H1 H2].
  split; [exact H1 | exact (H2 [] (Forall2_nil _))].
Defined.

(** A custom entry without name after a good one. *)
Lemma C9_missing_name_or_path_witness :
  isReturned (createPolyfillsData sampleHost sampleUtils namelessSecond []) = false /\
  exists trace',
    createPolyfillsData sampleHost sampleUtils namelessSecond []
    = Thrown NameOrPathMissing trace'.
Proof.
  destruct (@C9_missing_name_or_path sampleHost sampleUtils namelessSecond []
              [customEntry (Some "a") (Some (OnePath "/node_modules/a.js"))] []
              (customEntry None (Some (OnePath "/node_modules/b.js")))
              eq_refl (or_introl eq_refl))
    as [H1 H2].
  split; [exact H1 |].
  apply (H2 [fileOf "a" "polyfills/a.22.js" "/*/node_modules/a.js*/"]).
  constructor; [| constructor].
  eexists. reflexivity.
Defined.

(** C9 as first stated does not hold on an entry whose sources are the
    empty array: the check of line 219 lets it through and a file without
    content is returned. *)
Lemma C9_counterexample :
  customEntries (polyfillsOf emptySources)
  = [customEntry (Some "shim") (Some (ManyPaths []))] /\
  createPolyfillsData sampleHost sampleUtils emptySources []
  = Returned [fileOf "shim" "polyfills/shim.0.js" ""] [].
Proof. split; reflexivity. Qed.

(** * Further properties of the code *)

(** ** Blanking source-map lines (lines 205-213) *)

Lemma removeSourceMapUrl_eq (text : string) :
  removeSourceMapUrl text
  = join (String newline EmptyString) (map blankLine (split newline text)).
Proof. unfold removeSourceMapUrl. now rewrite blankSourceMapLines_map. Qed.

Lemma blankLine_clean (line : string) :
  startsWith (blankLine line) sourceMappingURL = false.
Proof.
  unfold blankLine. destruct (startsWith line sourceMappingURL) eqn:H; [reflexivity | exact H].
Qed.

Lemma blankLine_of_clean (line : string) :
  startsWith line sourceMappingURL = false -> blankLine line = line.
Proof. unfold blankLine. now intros ->. Qed.

Lemma blankLine_length (line : string) :
  String.length (blankLine line) <= String.length line.
Proof.
  unfold blankLine. destruct (startsWith line sourceMappingURL); simpl; lia.
Qed.

(** Joining shorter lines gives a shorter text. *)
Lemma join_length_le (sep : string) (short long : list string) :
  Forall2 (fun a b => String.length a <= String.length b) short long ->
  String.length (join sep short) <= String.length (join sep long).
Proof.
  unfold join. induction 1 as [| a b short long Hab Hrest IH]; [simpl; lia |].
  destruct Hrest as [| a' b' short' long' Hab' Hrest'].
  - exact Hab.
  - change (String.length (a ++ sep ++ String.concat sep (a' :: short'))
            <= String.length (b ++ sep ++ String.concat sep (b' :: long'))).
    rewrite !append_length. lia.
Qed.

(** X1.  The text returned by the loop has no line left that starts with
    the directive; running the loop on it again changes nothing; and it is
    never longer than the text of the file. *)
Theorem removeSourceMapUrl_result (text : string) :
  Forall (fun line => startsWith line sourceMappingURL = false)
    (split newline (removeSourceMapUrl text)) /\
  removeSourceMapUrl (removeSourceMapUrl text) = removeSourceMapUrl text /\
  String.length (removeSourceMapUrl text) <= String.length text.
Proof.
  split; [| split].
  - rewrite removeSourceMapUrl_lines. apply Forall_map, Forall_forall.
    intros line _. apply blankLine_clean.
  - rewrite (removeSourceMapUrl_eq (removeSourceMapUrl text)), removeSourceMapUrl_lines.
    rewrite map_map, removeSourceMapUrl_eq. f_equal. apply map_ext.
    intros line. apply blankLine_of_clean, blankLine_clean.
  - rewrite removeSourceMapUrl_eq. rewrite <- (join_split newline text) at 2.
    apply join_length_le.
    induction (split newline text) as [| line lines IH]; simpl; constructor;
      [apply blankLine_length | exact IH].
Qed.

(** X2.  A text comes back unchanged exactly when none of its lines starts
    with the directive: nothing else in a file is touched, whatever its line
    ends are. *)
Theorem removeSourceMapUrl_unchanged_iff (text : string) :
  removeSourceMapUrl text = text <->
  Forall (fun line => startsWith line sourceMappingURL = false) (split newline text).
Proof.
  split.
  - intros H. rewrite <- H at 1. rewrite removeSourceMapUrl_lines.
    apply Forall_map, Forall_forall. intros line _. apply blankLine_clean.
  - intros H. rewrite removeSourceMapUrl_eq.
    rewrite <- (join_split newline text) at 2. f_equal.
    induction H as [| line lines Hline _ IH]; simpl; [reflexivity |].
    now rewrite (blankLine_of_clean _ Hline), IH.
Qed.

(** ** The file-system calls of a call that returns (lines 199-227) *)

Section Calls.

Context (host : Host) (utils : Utils).

Lemma readPolyfillFileContents_calls (p c : string) (t t' : Trace) :
  readPolyfillFileContents host p t = Returned c t' -> t' = (t ++ callsFor host p)%list.
Proof.
  unfold readPolyfillFileContents, callsFor, call, bind, push, ret, throw.
  destruct (negb (truthy (path_resolve host p))); [discriminate |].
  destruct (fs_node host (path_resolve host p)) as [| | text]; try discriminate.
  intros [= _ <-]. now rewrite <- !app_assoc.
Qed.

Lemma readAll_calls (ps : list string) :
  forall (cs : list string) (t t' : Trace),
    readAll host ps t = Returned cs t' -> t' = (t ++ flat_map (callsFor host) ps)%list.
Proof.
  induction ps as [| p rest IH]; intros cs t t'; simpl.
  - intros [= _ <-]. now rewrite app_nil_r.
  - unfold bind.
    destruct (readPolyfillFileContents host p t) as [c t1 | e t1] eqn:Hp; [| discriminate].
    destruct (readAll host rest t1) as [cs' t2 | e t2] eqn:Hrest; [| discriminate].
    intros [= _ <-].
    apply readPolyfillFileContents_calls in Hp. apply IH in Hrest. subst.
    now rewrite <- app_assoc.
Qed.

Lemma materialize_calls (cfg : PolyfillsLoaderConfig.t) (pc : PolyfillConfig.t)
  (f : PolyfillFile.t) (t t' : Trace) :
  materialize host utils cfg pc t = Returned f t' ->
  t' = (t ++ flat_map (callsFor host) (sourcesOf pc))%list.
Proof.
  unfold materialize, sourcesOf.
  destruct (PolyfillConfig.name pc) as [name |]; [| discriminate].
  destruct (PolyfillConfig.path pc) as [path |]; [| discriminate].
  destruct (negb (truthy name) || negb (truthy path)); [discriminate |].
  unfold bind.
  destruct (readContent host path t) as [raw t1 | e t1] eqn:Hr; [| discriminate].
  destruct (minifyContent host pc raw t1) as [content t2 | e t2] eqn:Hm; [| discriminate].
  apply minifyContent_returned in Hm. destruct Hm as [-> _].
  intros [= _ <-]. destruct path as [p | ps]; simpl in *.
  - apply readPolyfillFileContents_calls in Hr. rewrite Hr. reflexivity.
  - unfold bind in Hr.
    destruct (readAll host ps t) as [cs t2 | e t2] eqn:Hall; [| discriminate].
    injection Hr as _ <-. eapply readAll_calls, Hall.
Qed.

Lemma materializeAll_calls (cfg : PolyfillsLoaderConfig.t) (l : Configs) :
  forall (acc files : list PolyfillFile.t) (t t' : Trace),
    materializeAll host utils cfg l acc t = Returned files t' ->
    t' = (t ++ flat_map (callsFor host) (flat_map sourcesOf l))%list.
Proof.
  induction l as [| pc rest IH]; intros acc files t t'; simpl.
  - intros [= _ <-]. now rewrite app_nil_r.
  - unfold bind.
    destruct (materialize host utils cfg pc t) as [f t1 | e t1] eqn:Hpc; [| discriminate].
    intros H. apply IH in H. apply materialize_calls in Hpc. subst.
    now rewrite flat_map_app, app_assoc.
Qed.

(** X3.  A call that returns has made, after the calls recorded before it,
    exactly the three calls [existsSync], [statSync], [readFileSync] for each
    source of each collected entry, entry by entry and source by source in
    their order: every source is read once, and no other file is touched. *)
Theorem returned_calls (cfg : PolyfillsLoaderConfig.t)
  (trace trace' : Trace) (files : list PolyfillFile.t) :
  createPolyfillsData host utils cfg trace = Returned files trace' ->
  exists l,
    collectPolyfillConfigs host utils cfg [] = Returned tt l /\
    length files = length l /\
    trace' = (trace ++ flat_map (callsFor host) (flat_map sourcesOf l))%list.
Proof.
  intros H.
  destruct (createPolyfillsData_returned _ _ _ _ H) as (l & Hl & Hfiles).
  exists l. split; [exact Hl |]. split; [symmetry; exact (Forall2_length Hfiles) |].
  unfold createPolyfillsData in H. rewrite Hl in H.
  eapply materializeAll_calls, H.
Qed.

End Calls.

(** ** Every error has its cause *)

Lemma bind_thrown {S A B : Type} (m : Eff S A) (k : A -> Eff S B)
  (e : Error) (s s' : S) :
  bind m k s = Thrown e s' ->
  m s = Thrown e s' \/ exists a s1, m s = Returned a s1 /\ k a s1 = Thrown e s'.
Proof.
  unfold bind. destruct (m s) as [a s1 | e1 s1].
  - intros H. right. now exists a, s1.
  - intros [= -> ->]. now left.
Qed.

Section Causes.

Context (host : Host) (utils : Utils).

(** A rule of the first half throws only for a package it asks for. *)
Ltac rule_thrown :=
  unfold when, bind, requireResolve, addPolyfillConfig, push, ret, throw;
  repeat match goal with
    | |- context [match require_resolve host ?r with _ => _ end] =>
        let H := fresh "Hr" in destruct (require_resolve host r) eqn:H
    | |- context [if ?c then _ else _] =>
        let H := fresh "Hc" in destruct c eqn:H
    end;
  try discriminate;
  (intros [= <- _]; left; eexists; split; [reflexivity |];
   split; [unfold dependencies; simpl; tauto | assumption]).

Lemma coreJsRule_thrown p e s s' :
  coreJsRule host utils p s = Thrown e s' -> collectCause host p e.
Proof. unfold coreJsRule. rule_thrown. Qed.

Lemma URLPatternRule_thrown p e s s' :
  URLPatternRule host p s = Thrown e s' -> collectCause host p e.
Proof. unfold URLPatternRule. rule_thrown. Qed.

Lemma esModuleShimsRule_thrown p e s s' :
  esModuleShimsRule host p s = Thrown e s' -> collectCause host p e.
Proof. unfold esModuleShimsRule. rule_thrown. Qed.

Lemma constructibleStylesheetsRule_thrown p e s s' :
  constructibleStylesheetsRule host p s = Thrown e s' -> collectCause host p e.
Proof. unfold constructibleStylesheetsRule. rule_thrown. Qed.

Lemma regeneratorRuntimeRule_thrown p e s s' :
  regeneratorRuntimeRule host utils p s = Thrown e s' -> collectCause host p e.
Proof. unfold regeneratorRuntimeRule. rule_thrown. Qed.

Lemma fetchRule_thrown p e s s' :
  fetchRule host p s = Thrown e s' -> collectCause host p e.
Proof. unfold fetchRule. rule_thrown. Qed.

Lemma abortControllerCheck_thrown p e s s' :
  abortControllerCheck p s = Thrown e s' -> collectCause host p e.
Proof.
  unfold abortControllerCheck, when, throw, ret.
  destruct (truthy (PolyfillsConfig.abortController p)
            && negb (truthy (PolyfillsConfig.fetch p))) eqn:Hc; [| discriminate].
  intros [= <- _]. right. apply andb_true_iff in Hc. destruct Hc as [Ha Hf].
  apply negb_true_iff in Hf. auto.
Qed.

Lemma systemjsRule_thrown cfg p e s s' :
  systemjsRule host utils cfg p s = Thrown e s' -> collectCause host p e.
Proof. unfold systemjsRule. rule_thrown. Qed.

Lemma dynamicImportRule_thrown p e s s' :
  dynamicImportRule host p s = Thrown e s' -> collectCause host p e.
Proof. unfold dynamicImportRule. rule_thrown. Qed.

Lemma intersectionObserverRule_thrown p e s s' :
  intersectionObserverRule host p s = Thrown e s' -> collectCause host p e.
Proof. unfold intersectionObserverRule. rule_thrown. Qed.

Lemma resizeObserverRule_thrown p e s s' :
  resizeObserverRule host p s = Thrown e s' -> collectCause host p e.
Proof. unfold resizeObserverRule. rule_thrown. Qed.

Lemma scopedCustomElementRegistryRule_thrown p e s s' :
  scopedCustomElementRegistryRule host p s = Thrown e s' -> collectCause host p e.
Proof. unfold scopedCustomElementRegistryRule. rule_thrown. Qed.

Lemma webcomponentsRule_thrown p e s s' :
  webcomponentsRule host p s = Thrown e s' -> collectCause host p e.
Proof. unfold webcomponentsRule. rule_thrown. Qed.

Lemma shadyCssCustomStyleRule_thrown p e s s' :
  shadyCssCustomStyleRule host p s = Thrown e s' -> collectCause host p e.
Proof. unfold shadyCssCustomStyleRule. rule_thrown. Qed.

Lemma collect_thrown (cfg : PolyfillsLoaderConfig.t) (e : Error) (s s' : Configs) :
  collectPolyfillConfigs host utils cfg s = Thrown e s' ->
  collectCause host (polyfillsOf cfg) e.
Proof.
  unfold collectPolyfillConfigs. intros H.
  repeat (apply bind_thrown in H;
          destruct H as [H | (? & ? & _ & H)];
          [ first
              [ eapply coreJsRule_thrown, H | eapply URLPatternRule_thrown, H
              | eapply esModuleShimsRule_thrown, H
              | eapply constructibleStylesheetsRule_thrown, H
              | eapply regeneratorRuntimeRule_thrown, H | eapply fetchRule_thrown, H
              | eapply abortControllerCheck_thrown, H | eapply systemjsRule_thrown, H
              | eapply dynamicImportRule_thrown, H
              | eapply intersectionObserverRule_thrown, H
              | eapply resizeObserverRule_thrown, H
              | eapply scopedCustomElementRegistryRule_thrown, H
              | eapply webcomponentsRule_thrown, H
              | eapply shadyCssCustomStyleRule_thrown, H ]
          | ]).
  unfold customRule, pushAll in H. discriminate H.
Qed.

Lemma readPolyfillFileContents_thrown (p : string) (e : Error) (t t' : Trace) :
  readPolyfillFileContents host p t = Thrown e t' ->
  e = CouldNotFindFile p /\ ~ readable host p.
Proof.
  unfold readPolyfillFileContents, readable, call, bind, push, ret, throw.
  destruct (truthy (path_resolve host p)) eqn:Hcp; simpl.
  - destruct (fs_node host (path_resolve host p)) as [| | text] eqn:Hnode;
      try discriminate; intros [= <- _]; (split; [reflexivity |]);
      intros (_ & text & Htext); discriminate Htext.
  - intros [= <- _]. split; [reflexivity |]. intros (Habs & _). discriminate Habs.
Qed.

Lemma readAll_thrown (ps : list string) :
  forall (e : Error) (t t' : Trace),
    readAll host ps t = Thrown e t' ->
    exists p, In p ps /\ e = CouldNotFindFile p /\ ~ readable host p.
Proof.
  induction ps as [| p rest IH]; intros e t t'; simpl; [discriminate |].
  intros H. apply bind_thrown in H. destruct H as [H | (c & t1 & _ & H)].
  - apply readPolyfillFileContents_thrown in H. exists p. tauto.
  - apply bind_thrown in H. destruct H as [H | (cs & t2 & _ & H)]; [| discriminate H].
    apply IH in H. destruct H as (q & Hin & Hq). exists q. tauto.
Qed.

Lemma materialize_thrown (cfg : PolyfillsLoaderConfig.t) (pc : PolyfillConfig.t)
  (e : Error) (t t' : Trace) :
  materialize host utils cfg pc t = Thrown e t' -> materializeCause host pc e.
Proof.
  unfold materialize, materializeCause, sourcesOf.
  destruct (PolyfillConfig.name pc) as [name |];
    [| intros [= <- _]; left; split; [reflexivity | now left]].
  destruct (PolyfillConfig.path pc) as [path |];
    [| intros [= <- _]; left; split; [reflexivity | now right]].
  change (truthy (Some name)) with (truthy name).
  change (truthy (Some path)) with (truthy path).
  destruct (truthy name) eqn:Hn; simpl;
    [| intros [= <- _]; left; split; [reflexivity | now left]].
  destruct (truthy path) eqn:Hp; simpl;
    [| intros [= <- _]; left; split; [reflexivity | now right]].
  intros H. apply bind_thrown in H. destruct H as [H | (raw & t1 & _ & H)].
  - right. left. destruct path as [p | ps]; simpl in H.
    + apply readPolyfillFileContents_thrown in H. exists p. simpl. tauto.
    + apply bind_thrown in H. destruct H as [H | (cs & t2 & _ & H)]; [| discriminate H].
      apply readAll_thrown in H. destruct H as (q & Hin & Hq). exists q. tauto.
  - apply bind_thrown in H. destruct H as [H | (content & t2 & _ & H)]; [| discriminate H].
    right. right. unfold minifyContent in H.
    destruct (truthy (PolyfillConfig.minify pc)) eqn:Hm; [| discriminate H].
    destruct (terser_minify host raw) eqn:Ht; [discriminate H |].
    injection H as <- _. now exists raw.
Qed.

Lemma materializeAll_thrown (cfg : PolyfillsLoaderConfig.t) (l : Configs) :
  forall (acc : list PolyfillFile.t) (e : Error) (t t' : Trace),
    materializeAll host utils cfg l acc t = Thrown e t' ->
    exists pc, In pc l /\ materializeCause host pc e.
Proof.
  induction l as [| pc rest IH]; intros acc e t t'; simpl; [discriminate |].
  intros H. apply bind_thrown in H. destruct H as [H | (f & t1 & _ & H)].
  - apply materialize_thrown in H. exists pc. tauto.
  - apply IH in H. destruct H as (pc' & Hin & Hpc'). exists pc'. tauto.
Qed.

(** X4.  Whatever the call throws, the error has its cause in the
    configuration or the environment.  Either it was thrown while the
    entries were collected: then it names a package that [require.resolve]
    cannot find, or it is the AbortController error and the flags are so,
    and no file-system call was made.  Or it was thrown in the loop: then
    some collected entry lacks a name or a path, or has a source that cannot
    be read, or is to be minified and has its text rejected. *)
Theorem thrown_has_cause (cfg : PolyfillsLoaderConfig.t)
  (trace trace' : Trace) (e : Error) :
  createPolyfillsData host utils cfg trace = Thrown e trace' ->
  (collectCause host (polyfillsOf cfg) e /\ trace' = trace) \/
  (exists l pc,
      collectPolyfillConfigs host utils cfg [] = Returned tt l /\
      In pc l /\ materializeCause host pc e).
Proof.
  unfold createPolyfillsData.
  destruct (collectPolyfillConfigs host utils cfg []) as [[] l | e0 l] eqn:Hl.
  - intros H. right. apply materializeAll_thrown in H.
    destruct H as (pc & Hin & Hpc). now exists l, pc.
  - intros [= <- <-]. left. split; [| reflexivity]. eapply collect_thrown, Hl.
Qed.

End Causes.

(** ** The entries of the rules (lines 27-195) *)

Section Builtin.

Context (host : Host) (utils : Utils).

(** What a returning rule has added, read off its definition. *)
Ltac rule_entries :=
  unfold when, bind, requireResolve, addPolyfillConfig, push, ret, throw;
  repeat match goal with
    | |- context [match require_resolve host ?r with _ => _ end] =>
        let H := fresh "Hr" in destruct (require_resolve host r) eqn:H
    | |- context [(if ?c then _ else _) _] =>
        let H := fresh "Hc" in destruct c eqn:H
    end;
  simpl; try discriminate;
  (intros [= <-]; repeat first [apply Forall2_nil | apply Forall2_cons];
   unfold builtinEntry; simpl; repeat split;
   try solve
     [ reflexivity
     | eexists; reflexivity
     | repeat first
         [ apply Forall_nil
         | apply Forall_cons;
           [eexists; (split; [| eassumption]); unfold dependencies; simpl; tauto |] ]
     | intros H; now elim H
     | intros H; discriminate H
     | intros _; tauto ]).

Lemma coreJsRule_entries p l :
  coreJsRule host utils p [] = Returned tt l ->
  Forall2 (builtinEntry host)
    (if truthy (PolyfillsConfig.coreJs p) then ["core-js"] else []) l.
Proof. unfold coreJsRule. rule_entries. Qed.

Lemma URLPatternRule_entries p l :
  URLPatternRule host p [] = Returned tt l ->
  Forall2 (builtinEntry host)
    (if truthy (PolyfillsConfig.URLPattern p) then ["urlpattern-polyfill"] else []) l.
Proof. unfold URLPatternRule. rule_entries. Qed.

Lemma esModuleShimsRule_entries p l :
  esModuleShimsRule host p [] = Returned tt l ->
  Forall2 (builtinEntry host)
    (if truthy (PolyfillsConfig.esModuleShims p) then ["es-module-shims"] else []) l.
Proof. unfold esModuleShimsRule. rule_entries. Qed.

Lemma constructibleStylesheetsRule_entries p l :
  constructibleStylesheetsRule host p [] = Returned tt l ->
  Forall2 (builtinEntry host)
    (if truthy (PolyfillsConfig.constructibleStylesheets p) then ["constructible-style-sheets-polyfill"] else []) l.
Proof. unfold constructibleStylesheetsRule. rule_entries. Qed.

Lemma regeneratorRuntimeRule_entries p l :
  regeneratorRuntimeRule host utils p [] = Returned tt l ->
  Forall2 (builtinEntry host)
    (if truthy (PolyfillsConfig.regeneratorRuntime p) then ["regenerator-runtime"] else []) l.
Proof. unfold regeneratorRuntimeRule. rule_entries. Qed.

Lemma fetchRule_entries p l :
  fetchRule host p [] = Returned tt l ->
  Forall2 (builtinEntry host)
    (if truthy (PolyfillsConfig.fetch p) then ["fetch"] else []) l.
Proof. unfold fetchRule. rule_entries. Qed.

Lemma dynamicImportRule_entries p l :
  dynamicImportRule host p [] = Returned tt l ->
  Forall2 (builtinEntry host)
    (if truthy (PolyfillsConfig.dynamicImport p) then ["dynamic-import"] else []) l.
Proof. unfold dynamicImportRule. rule_entries. Qed.

Lemma intersectionObserverRule_entries p l :
  intersectionObserverRule host p [] = Returned tt l ->
  Forall2 (builtinEntry host)
    (if truthy (PolyfillsConfig.intersectionObserver p) then ["intersection-observer"] else []) l.
Proof. unfold intersectionObserverRule. rule_entries. Qed.

Lemma resizeObserverRule_entries p l :
  resizeObserverRule host p [] = Returned tt l ->
  Forall2 (builtinEntry host)
    (if truthy (PolyfillsConfig.resizeObserver p) then ["resize-observer"] else []) l.
Proof. unfold resizeObserverRule. rule_entries. Qed.

Lemma scopedCustomElementRegistryRule_entries p l :
  scopedCustomElementRegistryRule host p [] = Returned tt l ->
  Forall2 (builtinEntry host)
    (if truthy (PolyfillsConfig.scopedCustomElementRegistry p) then ["scoped-custom-element-registry"] else []) l.
Proof. unfold scopedCustomElementRegistryRule. rule_entries. Qed.

Lemma systemjsRule_entries cfg p l :
  systemjsRule host utils cfg p [] = Returned tt l ->
  Forall2 (builtinEntry host)
    (if systemjsIncluded utils cfg p then ["systemjs"] else []) l.
Proof. unfold systemjsRule. rule_entries. Qed.

Lemma webcomponentsRule_entries p l :
  webcomponentsRule host p [] = Returned tt l ->
  Forall2 (builtinEntry host)
    (if truthy (PolyfillsConfig.webcomponents p)
        && negb (truthy (PolyfillsConfig.shadyCssCustomStyle p))
     then ["webcomponents"; "custom-elements-es5-adapter"] else []) l.
Proof. unfold webcomponentsRule. rule_entries. Qed.

Lemma shadyCssCustomStyleRule_entries p l :
  shadyCssCustomStyleRule host p [] = Returned tt l ->
  Forall2 (builtinEntry host)
    (if truthy (PolyfillsConfig.webcomponents p)
        && truthy (PolyfillsConfig.shadyCssCustomStyle p)
     then ["webcomponents-shady-css-custom-style"] else []) l.
Proof. unfold shadyCssCustomStyleRule. rule_entries. Qed.

(** The entries of a collection that returns: those of the rules, under the
    names and in the order of the source, then the custom entries as given. *)
Lemma collect_builtin (cfg : PolyfillsLoaderConfig.t) (l : Configs) :
  collectPolyfillConfigs host utils cfg [] = Returned tt l ->
  exists builtin,
    l = (builtin ++ customEntries (polyfillsOf cfg))%list /\
    Forall2 (builtinEntry host) (builtinNames utils cfg) builtin.
Proof.
  intros Hl. apply collect_returned in Hl.
  destruct Hl as (l1 & l2 & l3 & l4 & l5 & l6 & l7 & l8 & l9 & l10 & l11 & l12
                  & l13 & l14 & H1 & H2 & H3 & H4 & H5 & H6 & H7 & H8 & H9 & H10
                  & H11 & H12 & H13 & H14 & ->).
  apply abortControllerCheck_returned in H7. subst l7.
  exists (l1 ++ l2 ++ l3 ++ l4 ++ l5 ++ l6 ++ l8 ++ l9 ++ l10 ++ l11 ++ l12
          ++ l13 ++ l14)%list.
  split.
  - unfold customEntries. simpl. repeat rewrite <- app_assoc. reflexivity.
  - unfold builtinNames.
    repeat (apply Forall2_app;
            [ first
                [ apply coreJsRule_entries, H1 | apply URLPatternRule_entries, H2
                | apply esModuleShimsRule_entries, H3
                | apply constructibleStylesheetsRule_entries, H4
                | apply regeneratorRuntimeRule_entries, H5
                | apply fetchRule_entries, H6 | apply systemjsRule_entries, H8
                | apply dynamicImportRule_entries, H9
                | apply intersectionObserverRule_entries, H10
                | apply resizeObserverRule_entries, H11
                | apply scopedCustomElementRegistryRule_entries, H12
                | apply webcomponentsRule_entries, H13 ]
            | ]).
    apply shadyCssCustomStyleRule_entries, H14.
Qed.

(** The file of an entry of the rules. *)
Lemma builtin_file (cfg : PolyfillsLoaderConfig.t) (n : string)
  (pc : PolyfillConfig.t) (f : PolyfillFile.t) :
  builtinEntry host n pc ->
  produces host utils cfg pc f ->
  PolyfillFile.name f = n /\
  PolyfillFile.type f = fileTypes_SCRIPT utils /\
  (PolyfillFile.initializer f <> None -> n = "dynamic-import").
Proof.
  intros (Hname & _ & _ & _ & Htype & Hinit & _) [calls H].
  apply materialize_returned in H.
  destruct H as (name & path & raw & Hn & _ & _ & _ & _ & _ & ->). simpl.
  rewrite Hname in Hn. injection Hn as <-. rewrite Htype. simpl. tauto.
Qed.

Lemma builtin_files (cfg : PolyfillsLoaderConfig.t) (names : list string)
  (entries : Configs) (files : list PolyfillFile.t) :
  Forall2 (builtinEntry host) names entries ->
  Forall2 (produces host utils cfg) entries files ->
  map PolyfillFile.name files = names /\
  Forall (fun f => PolyfillFile.type f = fileTypes_SCRIPT utils /\
                   (PolyfillFile.initializer f <> None ->
                    PolyfillFile.name f = "dynamic-import")) files.
Proof.
  intros Hnames. revert files.
  induction Hnames as [| n pc names entries Hn _ IH]; intros files Hfiles;
    inversion Hfiles as [| ? f ? files' Hf Hrest]; subst; simpl.
  - split; constructor.
  - destruct (IH _ Hrest) as [IHn IHf].
    destruct (builtin_file Hn Hf) as (H1 & H2 & H3).
    split; [now rewrite H1, IHn |].
    constructor; [| exact IHf]. rewrite H1. tauto.
Qed.

(** X5.  The files of a call that returns stand in the order of the source:
    first the files of the rules whose condition holds, named and ordered as
    lines 27-195 have them, whatever order the flags were written in; then
    one file for each custom entry, in the order given. *)
Theorem files_in_source_order (cfg : PolyfillsLoaderConfig.t)
  (trace trace' : Trace) (files : list PolyfillFile.t) :
  createPolyfillsData host utils cfg trace = Returned files trace' ->
  exists builtin custom,
    files = (builtin ++ custom)%list /\
    map PolyfillFile.name builtin = builtinNames utils cfg /\
    Forall2 (produces host utils cfg) (customEntries (polyfillsOf cfg)) custom.
Proof.
  intros H. apply createPolyfillsData_returned in H. destruct H as (l & Hl & Hfiles).
  apply collect_builtin in Hl. destruct Hl as (entries & -> & Hentries).
  apply Forall2_app_inv_l in Hfiles.
  destruct Hfiles as (builtin & custom & Hb & Hc & ->).
  exists builtin, custom. split; [reflexivity |].
  split; [apply (builtin_files Hentries Hb) | exact Hc].
Qed.

(** X6.  Every file that comes from a rule has the type [fileTypes.SCRIPT]
    (the systemjs file too: no rule sets [fileType]) and has an initializer
    only if it is the dynamic-import file.  A file that comes from a custom
    entry has the entry's [fileType], or [fileTypes.SCRIPT] when the entry
    has none or an empty one. *)
Theorem file_types (cfg : PolyfillsLoaderConfig.t)
  (trace trace' : Trace) (files : list PolyfillFile.t) :
  createPolyfillsData host utils cfg trace = Returned files trace' ->
  exists builtin custom,
    files = (builtin ++ custom)%list /\
    Forall (fun f => PolyfillFile.type f = fileTypes_SCRIPT utils /\
                     (PolyfillFile.initializer f <> None ->
                      PolyfillFile.name f = "dynamic-import")) builtin /\
    Forall2 (fun pc f =>
               PolyfillFile.type f
               = match PolyfillConfig.fileType pc with
                 | Some (String c type) => String c type
                 | _ => fileTypes_SCRIPT utils
                 end)
      (customEntries (polyfillsOf cfg)) custom.
Proof.
  intros H. apply createPolyfillsData_returned in H. destruct H as (l & Hl & Hfiles).
  apply collect_builtin in Hl. destruct Hl as (entries & -> & Hentries).
  apply Forall2_app_inv_l in Hfiles.
  destruct Hfiles as (builtin & custom & Hb & Hc & ->).
  exists builtin, custom. split; [reflexivity |].
  split; [apply (builtin_files Hentries Hb) |].
  eapply Forall2_impl; [| exact Hc].
  intros pc f [calls Hf]. apply materialize_returned in Hf.
  destruct Hf as (name & path & raw & _ & _ & _ & _ & _ & _ & ->). simpl.
  unfold orElse. destruct (PolyfillConfig.fileType pc) as [[| c type] |]; reflexivity.
Qed.

End Builtin.

(** ** When the call returns *)

Section Success.

Context (host : Host) (utils : Utils).

Lemma Returns_throw_free_check (p : PolyfillsConfig.t) :
  (truthy (PolyfillsConfig.abortController p) = true ->
   truthy (PolyfillsConfig.fetch p) = true) ->
  Returns (abortControllerCheck p).
Proof.
  intros H. unfold abortControllerCheck.
  destruct (truthy (PolyfillsConfig.abortController p)); simpl.
  - rewrite (H eq_refl). simpl. apply Returns_ret.
  - apply Returns_ret.
Qed.

Lemma Returns_if {S A : Type} (c : bool) (m1 m2 : Eff S A) :
  Returns m1 -> Returns m2 -> Returns (if c then m1 else m2).
Proof. now destruct c. Qed.

Lemma Returns_pushAll {X : Type} (xs : list X) : Returns (pushAll xs).
Proof. intros s. now exists tt, (s ++ xs)%list. Qed.

(** With the packages installed every rule returns. *)
Ltac rule_returns Hi :=
  unfold addPolyfillConfig;
  repeat first
    [ apply Returns_when | apply Returns_bind | apply Returns_if
    | apply Returns_push | apply Returns_pushAll | apply Returns_ret
    | apply Returns_requireResolve; [exact Hi | unfold dependencies; simpl; tauto]
    | intro ].

Lemma collect_Returns (cfg : PolyfillsLoaderConfig.t) :
  installed host = true ->
  (truthy (PolyfillsConfig.abortController (polyfillsOf cfg)) = true ->
   truthy (PolyfillsConfig.fetch (polyfillsOf cfg)) = true) ->
  Returns (collectPolyfillConfigs host utils cfg).
Proof.
  intros Hi Hcheck. unfold collectPolyfillConfigs.
  repeat (apply Returns_bind; [| intros _]);
    try (apply Returns_throw_free_check; exact Hcheck).
  - unfold coreJsRule. rule_returns Hi.
  - unfold URLPatternRule. rule_returns Hi.
  - unfold esModuleShimsRule. rule_returns Hi.
  - unfold constructibleStylesheetsRule. rule_returns Hi.
  - unfold regeneratorRuntimeRule. rule_returns Hi.
  - unfold fetchRule. rule_returns Hi.
  - unfold systemjsRule. rule_returns Hi.
  - unfold dynamicImportRule. rule_returns Hi.
  - unfold intersectionObserverRule. rule_returns Hi.
  - unfold resizeObserverRule. rule_returns Hi.
  - unfold scopedCustomElementRegistryRule. rule_returns Hi.
  - unfold webcomponentsRule. rule_returns Hi.
  - unfold shadyCssCustomStyleRule. rule_returns Hi.
  - unfold customRule. apply Returns_pushAll.
Qed.

Lemma readable_read (p : string) :
  readable host p -> Returns (readPolyfillFileContents host p).
Proof.
  intros (Hcp & text & Htext) t.
  unfold readPolyfillFileContents, call, bind, push, ret. rewrite Hcp, Htext. simpl.
  now eexists _, _.
Qed.

Lemma readable_readAll (ps : list string) :
  Forall (readable host) ps -> Returns (readAll host ps).
Proof.
  induction 1 as [| p rest Hp _ IH]; simpl; [apply Returns_ret |].
  apply Returns_bind; [now apply readable_read | intros c].
  apply Returns_bind; [exact IH | intros cs; apply Returns_ret].
Qed.

(** An entry with a name, a path and readable sources produces its file, as
    long as the minifier accepts its text. *)
Lemma wellformed_produces (cfg : PolyfillsLoaderConfig.t) (pc : PolyfillConfig.t) :
  truthy (PolyfillConfig.name pc) = true ->
  truthy (PolyfillConfig.path pc) = true ->
  Forall (readable host) (sourcesOf pc) ->
  (forall text, terser_minify host text <> None) ->
  exists f, produces host utils cfg pc f.
Proof.
  unfold produces, materialize, sourcesOf. intros Hn Hp Hsrc Hmin.
  destruct (PolyfillConfig.name pc) as [name |]; [| discriminate].
  destruct (PolyfillConfig.path pc) as [path |]; [| discriminate].
  change (truthy name = true) in Hn. change (truthy path = true) in Hp.
  rewrite Hn, Hp. simpl. unfold bind.
  assert (Hread : Returns (readContent host path)).
  { destruct path as [p | ps]; simpl.
    - inversion Hsrc; subst. now apply readable_read.
    - apply Returns_bind; [now apply readable_readAll | intros; apply Returns_ret]. }
  destruct (Hread []) as (raw & t1 & ->).
  unfold minifyContent. destruct (truthy (PolyfillConfig.minify pc)).
  - destruct (terser_minify host raw) as [code |] eqn:Hcode; [| now elim (Hmin raw)].
    unfold ret. now eexists _, _.
  - unfold ret. now eexists _, _.
Qed.

Lemma builtinEntry_produces (cfg : PolyfillsLoaderConfig.t) (n : string)
  (pc : PolyfillConfig.t) :
  sourcesPresent host ->
  (forall text, terser_minify host text <> None) ->
  builtinEntry host n pc ->
  exists f, produces host utils cfg pc f.
Proof.
  intros Hpresent Hmin (Hname & Hn & (path & Hpath) & Hsrc & _).
  assert (Hall : Forall (fun p => truthy p = true /\ readable host p) (sourcesOf pc)).
  { eapply Forall_impl; [| exact Hsrc].
    intros p (request & Hin & Hreq). exact (Hpresent request p Hin Hreq). }
  apply wellformed_produces; trivial.
  - now rewrite Hname.
  - rewrite Hpath. unfold sourcesOf in Hall. rewrite Hpath in Hall.
    destruct path as [p | ps]; [| reflexivity].
    inversion Hall as [| ? ? [Hp _] _]; subst. exact Hp.
  - eapply Forall_impl; [| exact Hall]. intros p [_ Hp]. exact Hp.
Qed.

Lemma Forall_produces (cfg : PolyfillsLoaderConfig.t) (l : Configs) :
  Forall (fun pc => exists f, produces host utils cfg pc f) l ->
  exists files, Forall2 (produces host utils cfg) l files.
Proof.
  induction 1 as [| pc rest [f Hf] _ [files IH]].
  - exists []. constructor.
  - exists (f :: files). now constructor.
Qed.

(** X7.  In an environment where the packages are installed, every package
    is found at a readable file and the minifier accepts every text, the
    call returns a list for every configuration that does not set
    [abortController] without [fetch] and whose custom entries each have a
    name, a path and readable sources. *)
Theorem returns_in_good_environment (cfg : PolyfillsLoaderConfig.t) (trace : Trace) :
  installed host = true ->
  sourcesPresent host ->
  (forall text, terser_minify host text <> None) ->
  (truthy (PolyfillsConfig.abortController (polyfillsOf cfg)) = true ->
   truthy (PolyfillsConfig.fetch (polyfillsOf cfg)) = true) ->
  Forall (fun pc => truthy (PolyfillConfig.name pc) = true /\
                    truthy (PolyfillConfig.path pc) = true /\
                    Forall (readable host) (sourcesOf pc))
    (customEntries (polyfillsOf cfg)) ->
  exists files trace',
    createPolyfillsData host utils cfg trace = Returned files trace'.
Proof.
  intros Hi Hpresent Hmin Hcheck Hcustom.
  destruct (collect_Returns cfg Hi Hcheck []) as ([] & l & Hl).
  pose proof Hl as Hb. apply collect_builtin in Hb.
  destruct Hb as (entries & -> & Hentries).
  assert (Hall : Forall (fun pc => exists f, produces host utils cfg pc f)
                   (entries ++ customEntries (polyfillsOf cfg))).
  { apply Forall_app. split.
    - clear Hl. induction Hentries as [| n pc names entries Hn _ IH]; constructor.
      + eapply builtinEntry_produces; eassumption.
      + exact IH.
    - eapply Forall_impl; [| exact Hcustom].
      intros pc (Hn & Hp & Hsrc). now apply wellformed_produces. }
  destruct (Forall_produces Hall) as [files Hfiles].
  exists files. eapply createPolyfillsData_returns; eassumption.
Qed.

End Success.

(** ** The fetch and systemjs files (lines 67-83 and 89-117) *)

Section FetchAndSystemjs.

Context (host : Host) (utils : Utils).

Lemma fetchRule_returned (p : PolyfillsConfig.t) (l : Configs) :
  truthy (PolyfillsConfig.fetch p) = true ->
  fetchRule host p [] = Returned tt l ->
  exists fetchSrc,
    require_resolve host "whatwg-fetch/dist/fetch.umd.js" = Some fetchSrc /\
    if truthy (PolyfillsConfig.abortController p)
    then exists abortSrc,
        require_resolve host "abortcontroller-polyfill/dist/umd-polyfill.js"
        = Some abortSrc /\
        l = [withMinify
               (entry "fetch" (ManyPaths [fetchSrc; abortSrc])
                  (Some ("!('fetch' in window)"
                         ++ " || !('Request' in window) || !('signal' in window.Request.prototype)")))]
    else l = [withMinify
                (entry "fetch" (ManyPaths [fetchSrc]) (Some "!('fetch' in window)"))].
Proof.
  unfold fetchRule. intros ->. simpl.
  unfold bind, requireResolve, addPolyfillConfig, push, ret.
  destruct (truthy (PolyfillsConfig.abortController p)).
  - destruct (require_resolve host "whatwg-fetch/dist/fetch.umd.js") as [fetchSrc |];
      simpl; [| discriminate].
    destruct (require_resolve host "abortcontroller-polyfill/dist/umd-polyfill.js")
      as [abortSrc |]; simpl; [| discriminate].
    intros [= <-]. exists fetchSrc. split; [reflexivity |]. now exists abortSrc.
  - destruct (require_resolve host "whatwg-fetch/dist/fetch.umd.js") as [fetchSrc |];
      simpl; [| discriminate].
    intros [= <-]. now exists fetchSrc.
Qed.

(** X8.  When [fetch] is set and the call returns, the fetch file stands
    right after the files of the five rules ahead of it.  Without
    [abortController] its test asks for [fetch] only and its content is what
    the minifier made of the fetch shim; with [abortController] the test has
    the two Request clauses as well and the content is what the minifier
    made of the fetch shim followed by the AbortController shim. *)
Theorem fetch_file (cfg : PolyfillsLoaderConfig.t)
  (trace trace' : Trace) (files : list PolyfillFile.t) :
  let p := polyfillsOf cfg in
  truthy (PolyfillsConfig.fetch p) = true ->
  createPolyfillsData host utils cfg trace = Returned files trace' ->
  exists before f after fetchSrc fetchText,
    files = (before ++ f :: after)%list /\
    length before = Nat.b2n (truthy (PolyfillsConfig.coreJs p))
                    + Nat.b2n (truthy (PolyfillsConfig.URLPattern p))
                    + Nat.b2n (truthy (PolyfillsConfig.esModuleShims p))
                    + Nat.b2n (truthy (PolyfillsConfig.constructibleStylesheets p))
                    + Nat.b2n (truthy (PolyfillsConfig.regeneratorRuntime p)) /\
    PolyfillFile.name f = "fetch" /\
    require_resolve host "whatwg-fetch/dist/fetch.umd.js" = Some fetchSrc /\
    sourceText host fetchSrc fetchText /\
    if truthy (PolyfillsConfig.abortController p)
    then PolyfillFile.test f
         = Some ("!('fetch' in window) || !('Request' in window)"
                 ++ " || !('signal' in window.Request.prototype)") /\
         exists abortSrc abortText,
           require_resolve host "abortcontroller-polyfill/dist/umd-polyfill.js"
           = Some abortSrc /\
           sourceText host abortSrc abortText /\
           terser_minify host (fetchText ++ abortText) = Some (PolyfillFile.content f)
    else PolyfillFile.test f = Some "!('fetch' in window)" /\
         terser_minify host fetchText = Some (PolyfillFile.content f).
Proof.
  intros p Hfetch Hrun.
  apply createPolyfillsData_returned in Hrun. destruct Hrun as (l & Hl & Hfiles).
  apply collect_returned in Hl. fold p in Hl.
  destruct Hl as (l1 & l2 & l3 & l4 & l5 & l6 & l7 & l8 & l9 & l10 & l11 & l12
                  & l13 & l14 & H1 & H2 & H3 & H4 & H5 & H6 & _ & _ & _ & _ & _
                  & _ & _ & _ & ->).
  apply single_rule_length in H1, H2, H3, H4, H5.
  apply (fetchRule_returned _ Hfetch) in H6. destruct H6 as (fetchSrc & Hsrc & H6).
  assert (Hsplit : exists pc,
             l6 = [pc] /\
             (l1 ++ l2 ++ l3 ++ l4 ++ l5 ++ l6 ++ l7 ++ l8 ++ l9 ++ l10 ++ l11 ++ l12
              ++ l13 ++ l14
              ++ match PolyfillsConfig.custom p with Some cs => cs | None => [] end)%list
             = ((l1 ++ l2 ++ l3 ++ l4 ++ l5) ++ pc ::
                (l7 ++ l8 ++ l9 ++ l10 ++ l11 ++ l12 ++ l13 ++ l14
                 ++ match PolyfillsConfig.custom p with Some cs => cs | None => [] end))%list).
  { destruct (truthy (PolyfillsConfig.abortController p)).
    - destruct H6 as (abortSrc & _ & ->). eexists. split; [reflexivity |].
      simpl. repeat rewrite <- app_assoc. reflexivity.
    - subst l6. eexists. split; [reflexivity |].
      simpl. repeat rewrite <- app_assoc. reflexivity. }
  destruct Hsplit as (pc & Hpc & Heq). rewrite Heq in Hfiles. clear Heq.
  apply Forall2_app_inv_l in Hfiles. destruct Hfiles as (before & rest & Hb & Hrest & ->).
  inversion Hrest as [| ? f ? after [calls Hf] _]; subst.
  apply materialize_returned in Hf.
  destruct Hf as (name & path & raw & Hn & _ & Hp & _ & Hread & Hmin & Hrec).
  assert (Hlen : length before
                 = Nat.b2n (truthy (PolyfillsConfig.coreJs p))
                   + Nat.b2n (truthy (PolyfillsConfig.URLPattern p))
                   + Nat.b2n (truthy (PolyfillsConfig.esModuleShims p))
                   + Nat.b2n (truthy (PolyfillsConfig.constructibleStylesheets p))
                   + Nat.b2n (truthy (PolyfillsConfig.regeneratorRuntime p)))
    by (rewrite <- (Forall2_length Hb); repeat rewrite length_app; lia).
  destruct (truthy (PolyfillsConfig.abortController p)).
  - destruct H6 as (abortSrc & Habort & H6). injection H6 as ->.
    simpl in Hn, Hp, Hmin, Hrec. injection Hn as <-. injection Hp as <-.
    apply readContent_returned in Hread. destruct Hread as (cs & Hcs & ->).
    inversion Hcs as [| ? fetchText ? cs1 Hc1 Hcs1]; subst.
    inversion Hcs1 as [| ? abortText ? cs2 Hc2 Hcs2]; subst.
    inversion Hcs2; subst.
    exists before, f, after, fetchSrc, fetchText.
    repeat (split; [first [reflexivity | assumption | now rewrite Hrec] |]).
    exists abortSrc, abortText. repeat split; assumption.
  - injection H6 as ->.
    simpl in Hn, Hp, Hmin, Hrec. injection Hn as <-. injection Hp as <-.
    apply readContent_returned in Hread. destruct Hread as (cs & Hcs & ->).
    inversion Hcs as [| ? fetchText ? cs1 Hc1 Hcs1]; subst.
    inversion Hcs1; subst.
    exists before, f, after, fetchSrc, fetchText.
    repeat (split; [first [reflexivity | assumption | now rewrite Hrec] |]).
    assumption.
Qed.

Lemma systemjsRule_source (cfg : PolyfillsLoaderConfig.t) (p : PolyfillsConfig.t)
  (l : Configs) :
  systemjsIncluded utils cfg p = true ->
  systemjsRule host utils cfg p [] = Returned tt l ->
  exists src,
    require_resolve host
      (if truthy (PolyfillsConfig.systemjsExtended p)
       then "systemjs/dist/system.min.js" else "systemjs/dist/s.min.js")
    = Some src /\
    l = [entry "systemjs" (OnePath src) (systemjsTest utils cfg)].
Proof.
  unfold systemjsRule. intros ->. simpl.
  unfold bind, requireResolve, addPolyfillConfig, push, ret.
  destruct (truthy (PolyfillsConfig.systemjsExtended p));
    match goal with
    | |- context [require_resolve host ?r] =>
        destruct (require_resolve host r) as [src |]
    end; simpl; try discriminate; intros [= <-]; now exists src.
Qed.

(** X9.  [systemjsExtended] decides which build of systemjs is read, and it
    wins over [systemjs]: when the condition of lines 92-96 holds and the
    call returns, the one systemjs file of the rule has the text of
    [systemjs/dist/system.min.js] if [systemjsExtended] is set and of
    [systemjs/dist/s.min.js] otherwise, also when both flags are set. *)
Theorem systemjs_variant (cfg : PolyfillsLoaderConfig.t)
  (trace trace' : Trace) (files : list PolyfillFile.t) :
  let p := polyfillsOf cfg in
  systemjsIncluded utils cfg p = true ->
  createPolyfillsData host utils cfg trace = Returned files trace' ->
  exists before f after src,
    files = (before ++ f :: after)%list /\
    map PolyfillFile.name before
    = ((if truthy (PolyfillsConfig.coreJs p) then ["core-js"] else [])
       ++ (if truthy (PolyfillsConfig.URLPattern p) then ["urlpattern-polyfill"] else [])
       ++ (if truthy (PolyfillsConfig.esModuleShims p) then ["es-module-shims"] else [])
       ++ (if truthy (PolyfillsConfig.constructibleStylesheets p)
           then ["constructible-style-sheets-polyfill"] else [])
       ++ (if truthy (PolyfillsConfig.regeneratorRuntime p)
           then ["regenerator-runtime"] else [])
       ++ (if truthy (PolyfillsConfig.fetch p) then ["fetch"] else []))%list /\
    PolyfillFile.name f = "systemjs" /\
    ~ In "systemjs" (map PolyfillFile.name before) /\
    require_resolve host
      (if truthy (PolyfillsConfig.systemjsExtended p)
       then "systemjs/dist/system.min.js" else "systemjs/dist/s.min.js")
    = Some src /\
    sourceText host src (PolyfillFile.content f).
Proof.
  intros p Hinc Hrun.
  apply createPolyfillsData_returned in Hrun. destruct Hrun as (l & Hl & Hfiles).
  apply collect_returned in Hl. fold p in Hl.
  destruct Hl as (l1 & l2 & l3 & l4 & l5 & l6 & l7 & l8 & l9 & l10 & l11 & l12
                  & l13 & l14 & H1 & H2 & H3 & H4 & H5 & H6 & H7 & H8 & _ & _ & _
                  & _ & _ & _ & ->).
  apply coreJsRule_entries in H1. apply URLPatternRule_entries in H2.
  apply esModuleShimsRule_entries in H3. apply constructibleStylesheetsRule_entries in H4.
  apply regeneratorRuntimeRule_entries in H5. apply fetchRule_entries in H6.
  apply abortControllerCheck_returned in H7. subst l7.
  apply (systemjsRule_source _ _ Hinc) in H8. destruct H8 as (src & Hsrc & ->).
  replace (l1 ++ l2 ++ l3 ++ l4 ++ l5 ++ l6 ++ [] ++
           [entry "systemjs" (OnePath src) (systemjsTest utils cfg)] ++ l9 ++ l10 ++ l11
           ++ l12 ++ l13 ++ l14
           ++ match PolyfillsConfig.custom p with Some cs => cs | None => [] end)%list
    with ((l1 ++ l2 ++ l3 ++ l4 ++ l5 ++ l6) ++
          entry "systemjs" (OnePath src) (systemjsTest utils cfg) ::
          (l9 ++ l10 ++ l11 ++ l12 ++ l13 ++ l14
           ++ match PolyfillsConfig.custom p with Some cs => cs | None => [] end))%list
    in Hfiles
    by (simpl; repeat rewrite <- app_assoc; reflexivity).
  apply Forall2_app_inv_l in Hfiles. destruct Hfiles as (before & rest & Hb & Hrest & ->).
  inversion Hrest as [| e f ? after Hf _]; subst.
  apply produces_plain_entry in Hf. destruct Hf as (Hname & _ & Hcontent).
  pose proof (Forall2_app H1 (Forall2_app H2 (Forall2_app H3 (Forall2_app H4
                (Forall2_app H5 H6))))) as Hnames.
  destruct (builtin_files Hnames Hb) as [Hmap _].
  exists before, f, after, src.
  split; [reflexivity |]. split; [exact Hmap |]. split; [exact Hname |].
  split; [| split; [exact Hsrc | exact Hcontent]].
  rewrite Hmap. intros Hin.
  repeat (apply in_app_or in Hin; destruct Hin as [Hin | Hin]);
    match type of Hin with In _ (if ?c then _ else _) => destruct c end;
    simpl in Hin; intuition discriminate.
Qed.

(** X10.  A custom entry named [systemjs] keeps the rule from adding
    systemjs on its own account: with neither [systemjs] nor
    [systemjsExtended] set, no file of the rules is named [systemjs],
    whatever the types of the declared output files are, and the custom
    entries follow as given. *)
Theorem systemjs_left_to_custom_entry (cfg : PolyfillsLoaderConfig.t)
  (trace trace' : Trace) (files : list PolyfillFile.t) :
  let p := polyfillsOf cfg in
  truthy (PolyfillsConfig.systemjs p) = false ->
  truthy (PolyfillsConfig.systemjsExtended p) = false ->
  hasSystemJs cfg = true ->
  createPolyfillsData host utils cfg trace = Returned files trace' ->
  exists builtin custom,
    files = (builtin ++ custom)%list /\
    ~ In "systemjs" (map PolyfillFile.name builtin) /\
    Forall2 (produces host utils cfg) (customEntries p) custom.
Proof.
  intros p Hs Hse Hcustom H.
  apply createPolyfillsData_returned in H. destruct H as (l & Hl & Hfiles).
  apply collect_builtin in Hl. destruct Hl as (entries & -> & Hentries).
  apply Forall2_app_inv_l in Hfiles.
  destruct Hfiles as (builtin & custom & Hb & Hc & ->).
  exists builtin, custom. split; [reflexivity |]. split; [| exact Hc].
  destruct (builtin_files Hentries Hb) as [Hmap _]. rewrite Hmap.
  unfold builtinNames. fold p. unfold systemjsIncluded. rewrite Hs, Hse, Hcustom. simpl.
  intros Hin.
  repeat (apply in_app_or in Hin; destruct Hin as [Hin | Hin]);
    try match type of Hin with In _ (if ?c then _ else _) => destruct c end;
    simpl in Hin; intuition discriminate.
Qed.

End FetchAndSystemjs.

(** ** A source that cannot be read (lines 199-203) *)

Section Unreadable.

Context (host : Host) (utils : Utils).

Lemma unreadable_read (p : string) (t : Trace) :
  ~ readable host p ->
  exists t', readPolyfillFileContents host p t = Thrown (CouldNotFindFile p) t'.
Proof.
  unfold readable, readPolyfillFileContents, call, bind, push, ret, throw. intros H.
  destruct (truthy (path_resolve host p)) eqn:Hcp; simpl; [| now eexists].
  destruct (fs_node host (path_resolve host p)) as [| | text] eqn:Hnode;
    try (now eexists).
  elim H. split; [reflexivity | now exists text].
Qed.

Lemma unreadable_readAll (good rest : list string) (p : string) :
  Forall (readable host) good ->
  ~ readable host p ->
  forall t, exists t',
    readAll host (good ++ p :: rest) t = Thrown (CouldNotFindFile p) t'.
Proof.
  intros Hgood Hp. induction Hgood as [| g good Hg _ IH]; intros t; simpl.
  - unfold bind. destruct (unreadable_read t Hp) as [t' ->]. now exists t'.
  - unfold bind. destruct (readable_read Hg t) as (c & t1 & ->).
    destruct (IH t1) as [t' ->]. now exists t'.
Qed.

(** X11.  When an entry that has a name and a path reaches the loop and one
    of its sources cannot be read (its resolved path is empty, or nothing
    lies there, or a directory does) while the sources listed before it
    can, the call returns no list; once the entries ahead have produced
    their files it throws the error of line 202, which names the source as
    the entry gave it, not as it was resolved. *)
Theorem unreadable_source_is_fatal (cfg : PolyfillsLoaderConfig.t) (trace : Trace)
  (before after : Configs) (pc : PolyfillConfig.t)
  (good rest : list string) (p : string) :
  collectPolyfillConfigs host utils cfg [] = Returned tt (before ++ pc :: after)%list ->
  truthy (PolyfillConfig.name pc) = true ->
  truthy (PolyfillConfig.path pc) = true ->
  sourcesOf pc = (good ++ p :: rest)%list ->
  Forall (readable host) good ->
  ~ readable host p ->
  isReturned (createPolyfillsData host utils cfg trace) = false /\
  (forall fs, Forall2 (produces host utils cfg) before fs ->
              exists trace',
                createPolyfillsData host utils cfg trace
                = Thrown (CouldNotFindFile p) trace').
Proof.
  intros Hl Hn Hp Hsrc Hgood Hbad.
  apply createPolyfillsData_entry_fails with (1 := Hl).
  unfold fails, materialize, sourcesOf in *.
  destruct (PolyfillConfig.name pc) as [name |]; [| discriminate].
  destruct (PolyfillConfig.path pc) as [path |]; [| discriminate].
  change (truthy name = true) in Hn. change (truthy path = true) in Hp.
  rewrite Hn, Hp. simpl. unfold bind.
  destruct path as [p0 | ps]; simpl.
  - destruct good as [| g good]; simpl in Hsrc.
    + injection Hsrc as -> _. destruct (unreadable_read [] Hbad) as [t' ->].
      now exists t'.
    + injection Hsrc as _ Hnil. now destruct good.
  - subst ps. unfold bind.
    destruct (unreadable_readAll rest Hgood Hbad []) as [t' ->]. now exists t'.
Qed.

End Unreadable.

(** ** The regenerator-runtime file (lines 59-65) *)

Section Regenerator.

Context (host : Host) (utils : Utils).

(** X12.  When [regeneratorRuntime] is set and the call returns, the
    regenerator-runtime file stands right after the files of the four rules
    ahead of it; it has no test when the flag is the string ['always'], and
    the no-module test of [./utils] for every other set value. *)
Theorem regeneratorRuntime_test (cfg : PolyfillsLoaderConfig.t)
  (trace trace' : Trace) (files : list PolyfillFile.t) :
  let p := polyfillsOf cfg in
  truthy (PolyfillsConfig.regeneratorRuntime p) = true ->
  createPolyfillsData host utils cfg trace = Returned files trace' ->
  exists before f after,
    files = (before ++ f :: after)%list /\
    map PolyfillFile.name before
    = ((if truthy (PolyfillsConfig.coreJs p) then ["core-js"] else [])
       ++ (if truthy (PolyfillsConfig.URLPattern p) then ["urlpattern-polyfill"] else [])
       ++ (if truthy (PolyfillsConfig.esModuleShims p) then ["es-module-shims"] else [])
       ++ (if truthy (PolyfillsConfig.constructibleStylesheets p)
           then ["constructible-style-sheets-polyfill"] else []))%list /\
    PolyfillFile.name f = "regenerator-runtime" /\
    (PolyfillsConfig.regeneratorRuntime p = Some (JString "always") ->
     PolyfillFile.test f = None) /\
    (PolyfillsConfig.regeneratorRuntime p <> Some (JString "always") ->
     PolyfillFile.test f = Some (noModuleSupportTest utils)).
Proof.
  intros p Hflag Hrun.
  apply createPolyfillsData_returned in Hrun. destruct Hrun as (l & Hl & Hfiles).
  apply collect_returned in Hl. fold p in Hl.
  destruct Hl as (l1 & l2 & l3 & l4 & l5 & l6 & l7 & l8 & l9 & l10 & l11 & l12
                  & l13 & l14 & H1 & H2 & H3 & H4 & H5 & _ & _ & _ & _ & _ & _ & _
                  & _ & _ & ->).
  apply coreJsRule_entries in H1. apply URLPatternRule_entries in H2.
  apply esModuleShimsRule_entries in H3. apply constructibleStylesheetsRule_entries in H4.
  apply single_rule_returned in H5. rewrite Hflag in H5. destruct H5 as (src & _ & ->).
  replace (l1 ++ l2 ++ l3 ++ l4 ++
           [entry "regenerator-runtime" (OnePath src)
              (if notAlways (PolyfillsConfig.regeneratorRuntime p)
               then Some (noModuleSupportTest utils) else None)]
           ++ l6 ++ l7 ++ l8 ++ l9 ++ l10 ++ l11 ++ l12 ++ l13 ++ l14
           ++ match PolyfillsConfig.custom p with Some cs => cs | None => [] end)%list
    with ((l1 ++ l2 ++ l3 ++ l4) ++
          entry "regenerator-runtime" (OnePath src)
            (if notAlways (PolyfillsConfig.regeneratorRuntime p)
             then Some (noModuleSupportTest utils) else None) ::
          (l6 ++ l7 ++ l8 ++ l9 ++ l10 ++ l11 ++ l12 ++ l13 ++ l14
           ++ match PolyfillsConfig.custom p with Some cs => cs | None => [] end))%list
    in Hfiles
    by (simpl; repeat rewrite <- app_assoc; reflexivity).
  apply Forall2_app_inv_l in Hfiles. destruct Hfiles as (before & rest & Hb & Hrest & ->).
  inversion Hrest as [| e f ? after Hf _]; subst.
  apply produces_plain_entry in Hf. destruct Hf as (Hname & Htest & _).
  pose proof (Forall2_app H1 (Forall2_app H2 (Forall2_app H3 H4))) as Hnames.
  destruct (builtin_files Hnames Hb) as [Hmap _].
  exists before, f, after.
  split; [reflexivity |]. split; [exact Hmap |]. split; [exact Hname |].
  rewrite Htest. split.
  - intros ->. reflexivity.
  - intros Hne. unfold notAlways.
    destruct (PolyfillsConfig.regeneratorRuntime p) as [[b | s] |]; try reflexivity.
    destruct (String.eqb_spec s "always") as [-> | _]; [now elim Hne | reflexivity].
Qed.

End Regenerator.

(** * The further properties at sample inputs *)

Lemma returned_calls_witness :
  exists l,
    collectPolyfillConfigs sampleHost sampleUtils webcomponentsShady [] = Returned tt l /\
    length (filesOf (createPolyfillsData sampleHost sampleUtils webcomponentsShady []))
    = length l /\
    stateOf (createPolyfillsData sampleHost sampleUtils webcomponentsShady [])
    = ([] ++ flat_map (callsFor sampleHost) (flat_map sourcesOf l))%list.
Proof.
  exact (@returned_calls sampleHost sampleUtils webcomponentsShady []
           (stateOf (createPolyfillsData sampleHost sampleUtils webcomponentsShady []))
           (filesOf (createPolyfillsData sampleHost sampleUtils webcomponentsShady []))
           eq_refl).
Defined.

Lemma thrown_has_cause_witness :
  (collectCause sampleHost (polyfillsOf namelessSecond) NameOrPathMissing /\
   [ExistsSync "/node_modules/a.js"; StatSync "/node_modules/a.js";
    ReadFileSync "/node_modules/a.js"] = []) \/
  (exists l pc,
      collectPolyfillConfigs sampleHost sampleUtils namelessSecond [] = Returned tt l /\
      In pc l /\ materializeCause sampleHost pc NameOrPathMissing).
Proof.
  exact (@thrown_has_cause sampleHost sampleUtils namelessSecond []
           [ExistsSync "/node_modules/a.js"; StatSync "/node_modules/a.js";
            ReadFileSync "/node_modules/a.js"]
           NameOrPathMissing eq_refl).
Defined.

Lemma files_in_source_order_witness :
  exists builtin custom,
    filesOf (createPolyfillsData sampleHost sampleUtils flagsAndCustom [])
    = (builtin ++ custom)%list /\
    map PolyfillFile.name builtin
    = ["core-js"; "webcomponents"; "custom-elements-es5-adapter"] /\
    Forall2 (produces sampleHost sampleUtils flagsAndCustom) [shimA] custom.
Proof.
  exact (@files_in_source_order sampleHost sampleUtils flagsAndCustom []
           (stateOf (createPolyfillsData sampleHost sampleUtils flagsAndCustom []))
           (filesOf (createPolyfillsData sampleHost sampleUtils flagsAndCustom []))
           eq_refl).
Defined.

Lemma file_types_witness :
  exists builtin custom,
    filesOf (createPolyfillsData sampleHost sampleUtils systemjsBuild [])
    = (builtin ++ custom)%list /\
    Forall (fun f => PolyfillFile.type f = "script" /\
                     (PolyfillFile.initializer f <> None ->
                      PolyfillFile.name f = "dynamic-import")) builtin /\
    Forall2 (fun pc f =>
               PolyfillFile.type f
               = match PolyfillConfig.fileType pc with
                 | Some (String c type) => String c type
                 | _ => "script"
                 end) [] custom.
Proof.
  exact (@file_types sampleHost sampleUtils systemjsBuild []
           (stateOf (createPolyfillsData sampleHost sampleUtils systemjsBuild []))
           (filesOf (createPolyfillsData sampleHost sampleUtils systemjsBuild []))
           eq_refl).
Defined.

(** In the sample environment every package is found at a readable file. *)
Lemma sampleHost_sourcesPresent : sourcesPresent sampleHost.
Proof.
  intros request p Hin Hreq. unfold dependencies in Hin. simpl in Hin.
  repeat (destruct Hin as [<- | Hin];
          [injection Hreq as <-;
           split; [reflexivity | split; [reflexivity | eexists; reflexivity]] |]).
  contradiction.
Qed.

Lemma returns_in_good_environment_witness :
  exists files trace',
    createPolyfillsData sampleHost sampleUtils flagsAndCustom [] = Returned files trace'.
Proof.
  apply (@returns_in_good_environment sampleHost sampleUtils flagsAndCustom []).
  - reflexivity.
  - exact sampleHost_sourcesPresent.
  - intros text. discriminate.
  - intros H. discriminate H.
  - repeat constructor. now exists "/*/node_modules/a.js*/".
Defined.

Lemma fetch_file_witness :
  exists before f after fetchSrc fetchText,
    filesOf (createPolyfillsData sampleHost sampleUtils fetchAndAbort [])
    = (before ++ f :: after)%list /\
    length before = 0 /\
    PolyfillFile.name f = "fetch" /\
    require_resolve sampleHost "whatwg-fetch/dist/fetch.umd.js" = Some fetchSrc /\
    sourceText sampleHost fetchSrc fetchText /\
    PolyfillFile.test f
    = Some ("!('fetch' in window) || !('Request' in window)"
            ++ " || !('signal' in window.Request.prototype)") /\
    exists abortSrc abortText,
      require_resolve sampleHost "abortcontroller-polyfill/dist/umd-polyfill.js"
      = Some abortSrc /\
      sourceText sampleHost abortSrc abortText /\
      terser_minify sampleHost (fetchText ++ abortText) = Some (PolyfillFile.content f).
Proof.
  exact (@fetch_file sampleHost sampleUtils fetchAndAbort []
           (stateOf (createPolyfillsData sampleHost sampleUtils fetchAndAbort []))
           (filesOf (createPolyfillsData sampleHost sampleUtils fetchAndAbort []))
           eq_refl eq_refl).
Defined.

Lemma systemjs_variant_witness :
  exists before f after src,
    filesOf (createPolyfillsData sampleHost sampleUtils bothSystemjs [])
    = (before ++ f :: after)%list /\
    map PolyfillFile.name before = [] /\
    PolyfillFile.name f = "systemjs" /\
    ~ In "systemjs" (map PolyfillFile.name before) /\
    require_resolve sampleHost "systemjs/dist/system.min.js" = Some src /\
    sourceText sampleHost src (PolyfillFile.content f).
Proof.
  exact (@systemjs_variant sampleHost sampleUtils bothSystemjs []
           (stateOf (createPolyfillsData sampleHost sampleUtils bothSystemjs []))
           (filesOf (createPolyfillsData sampleHost sampleUtils bothSystemjs []))
           eq_refl eq_refl).
Defined.

Lemma systemjs_left_to_custom_entry_witness :
  exists builtin custom,
    filesOf (createPolyfillsData sampleHost sampleUtils ownSystemjs [])
    = (builtin ++ custom)%list /\
    ~ In "systemjs" (map PolyfillFile.name builtin) /\
    Forall2 (produces sampleHost sampleUtils ownSystemjs)
      [customEntry (Some "systemjs") (Some (OnePath "/node_modules/my-systemjs.js"))]
      custom.
Proof.
  exact (@systemjs_left_to_custom_entry sampleHost sampleUtils ownSystemjs []
           (stateOf (createPolyfillsData sampleHost sampleUtils ownSystemjs []))
           (filesOf (createPolyfillsData sampleHost sampleUtils ownSystemjs []))
           eq_refl eq_refl eq_refl eq_refl).
Defined.

Lemma unreadable_source_is_fatal_witness :
  isReturned (createPolyfillsData sampleHost sampleUtils hashedShim []) = false /\
  exists trace',
    createPolyfillsData sampleHost sampleUtils hashedShim []
    = Thrown (CouldNotFindFile "/src/shim.js") trace'.
Proof.
  destruct (@unreadable_source_is_fatal sampleHost sampleUtils hashedShim [] [] []
              (customEntry (Some "shim") (Some (OnePath "/src/shim.js")))
              [] [] "/src/shim.js" eq_refl eq_refl eq_refl eq_refl (Forall_nil _))
    as [H1 H2].
  - intros (_ & text & Htext). discriminate Htext.
  - split; [exact H1 | exact (H2 [] (Forall2_nil _))].
Defined.

Lemma regeneratorRuntime_test_witness :
  exists before f after,
    filesOf (createPolyfillsData sampleHost sampleUtils regeneratorOnly [])
    = (before ++ f :: after)%list /\
    map PolyfillFile.name before = [] /\
    PolyfillFile.name f = "regenerator-runtime" /\
    PolyfillFile.test f = Some "!('noModule' in HTMLScriptElement.prototype)".
Proof.
  destruct (@regeneratorRuntime_test sampleHost sampleUtils regeneratorOnly []
              (stateOf (createPolyfillsData sampleHost sampleUtils regeneratorOnly []))
              (filesOf (createPolyfillsData sampleHost sampleUtils regeneratorOnly []))
              eq_refl eq_refl)
    as (before & f & after & H1 & H2 & H3 & _ & H5).
  exists before, f, after.
  split; [exact H1 |]. split; [exact H2 |]. split; [exact H3 |].
  apply H5. discriminate.
Defined.
